(** * strawberry.experimental.pydantic: the decorator that turns a pydantic
    model into a schema type

    A shallow embedding of [object_type.py] and [exceptions.py].  Python
    class objects live in a store; the decorator threads the store and may
    raise.  Collaborators that live in other modules of the package
    ([fields.py], [utils.py], [conversion.py], the strawberry core) are either
    section variables or are modelled from the specification, as stated at
    each definition. *)

From stdpp Require Import base option list strings pretty gmap sets.

Set Default Proof Using "Type".
Set Warnings "-register-all".
Open Scope string_scope.
Open Scope list_scope.

(** ** Exceptions and the error monad *)

(** [exceptions.py] declares the first three; the others are built-in
    exceptions or exceptions of collaborators. *)
Inductive exn : Type :=
| MissingFieldsListError (type : string)
| UnsupportedTypeError
| UnregisteredTypeException (type : string)
| KeyError (key : string)
| AttributeError (name : string)
| ValidationError (model : string)
| RecursionError
| IndexError
| TypeError (message : string)
| CollaboratorError (message : string).

Inductive result (A : Type) : Type :=
| Ok (a : A)
| Raise (e : exn).
Arguments Ok {A} a.
Arguments Raise {A} e.

Definition bind {A B} (m : result A) (k : A → result B) : result B :=
  match m with
  | Ok a => k a
  | Raise e => Raise e
  end.

Notation "'let*' x := m 'in' k" := (bind m (fun x => k))
  (at level 10, x name, m at level 100, k at level 200).

(** What a collaborator from another module does: it returns, or it fails
    with an exception of its own, kept as its message. *)
Inductive outcome (A : Type) : Type :=
| Returns (a : A)
| Fails (message : string).
Arguments Returns {A} a.
Arguments Fails {A} message.

Definition foreign {A} (o : outcome A) : result A :=
  match o with
  | Returns a => Ok a
  | Fails message => Raise (CollaboratorError message)
  end.

(** A comprehension [f(x) for x in xs] whose body may raise: evaluated left
    to right, the first exception ends it. *)
Fixpoint for_each {A B} (f : A → result B) (xs : list A) : result (list B) :=
  match xs with
  | [] => Ok []
  | x :: rest =>
      let* y := f x in
      let* ys := for_each f rest in
      Ok (y :: ys)
  end.

(** ** Type objects *)

(** The objects that occur as field types.
    - [TClass] is a class that is no pydantic model, [TModel] a subclass
      of pydantic's [BaseModel], [TSchema] a class generated by the
      decorator (an address in the store).
    - [TOther] is an object that is no class and has no [__args__]:
      [Ellipsis] among the arguments of [Tuple[int, ...]], a [TypeVar].
    - [TLiteral] is [Literal[...]], whose [__origin__] is [Literal].
    - [TGeneric] is an alias of the [typing] module ([List[int]],
      [Union[A, B]]): it has [__origin__], [__args__] and [copy_with].
    - [TBuiltinGeneric] is a generic of the language itself ([list[int]],
      [int | None]): it has [__args__] but no [copy_with].
    - [TDefinition] is a strawberry [TypeDefinition], an object that is no
      class; [TSynth] is the class that
      [builtins.type(name, (), {"_type_definition": d})] creates. *)
Inductive ty : Type :=
| TClass (name : string)
| TModel (name : string)
| TSchema (addr : nat)
| TOther (repr : string)
| TLiteral (values : list string)
| TGeneric (origin : string) (args : list ty)
| TBuiltinGeneric (origin : string) (args : list ty)
| TDefinition (name : string)
| TSynth (name : string) (_type_definition : ty).

(** [getattr(type_, "__origin__", None) is Literal] *)
Definition origin_is_Literal (type_ : ty) : bool :=
  match type_ with
  | TLiteral _ => true
  | _ => false
  end.

(** [type_.__args__] when [hasattr(type_, "__args__")], for a generic whose
    arguments are types; a [Literal] holds values and is tested for first. *)
Definition __args__ (type_ : ty) : option (list ty) :=
  match type_ with
  | TGeneric _ args | TBuiltinGeneric _ args => Some args
  | _ => None
  end.

(** [hasattr(type_, "copy_with")] *)
Definition has_copy_with (type_ : ty) : bool :=
  match type_ with
  | TGeneric _ _ => true
  | _ => false
  end.

(** [isinstance(t, TypeDefinition)] *)
Definition isinstance_TypeDefinition (t : ty) : bool :=
  match t with
  | TDefinition _ => true
  | _ => false
  end.

(** [replaced_type.name] of a [TypeDefinition] *)
Definition definition_name (t : ty) : string :=
  match t with
  | TDefinition name => name
  | _ => ""
  end.

(** Whether the object is a class. *)
Definition is_class (type_ : ty) : bool :=
  match type_ with
  | TClass _ | TModel _ | TSchema _ | TSynth _ _ => true
  | _ => false
  end.

(** Structural equality of type objects, as [==] decides it. *)
Fixpoint ty_eqb (a b : ty) {struct a} : bool :=
  let fix all2 (xs ys : list ty) {struct xs} : bool :=
    match xs, ys with
    | [], [] => true
    | x :: xs', y :: ys' => ty_eqb x y && all2 xs' ys'
    | _, _ => false
    end in
  match a, b with
  | TClass n, TClass m => String.eqb n m
  | TModel n, TModel m => String.eqb n m
  | TSchema i, TSchema j => Nat.eqb i j
  | TOther r, TOther s => String.eqb r s
  | TLiteral vs, TLiteral ws => bool_decide (vs = ws)
  | TGeneric o xs, TGeneric p ys => String.eqb o p && all2 xs ys
  | TBuiltinGeneric o xs, TBuiltinGeneric p ys => String.eqb o p && all2 xs ys
  | TDefinition n, TDefinition m => String.eqb n m
  | TSynth n d, TSynth m e => String.eqb n m && ty_eqb d e
  | _, _ => false
  end.

Definition NoneType : ty := TClass "NoneType".

(** [typing.Union[params]]: nested unions are flattened, repeated
    parameters dropped, and a union of one parameter is that parameter. *)
Definition Union (params : list ty) : ty :=
  let flat := flat_map (fun p => match p with
                                 | TGeneric "typing.Union" args => args
                                 | _ => [p]
                                 end) params in
  let dedup := fold_left (fun acc p =>
                 if existsb (ty_eqb p) acc then acc else acc ++ [p]) flat [] in
  match dedup with
  | [single] => single
  | _ => TGeneric "typing.Union" dedup
  end.

(** [typing.Optional[t]] is [Union[t, None]]. *)
Definition Optional (t : ty) : ty := Union [t; NoneType].

(** [type_.copy_with(params)] of a [typing] alias: the same origin with
    other arguments; for a union that is [Union[params]], which flattens,
    drops repetitions and gives the member itself when one is left. *)
Definition copy_with (type_ : ty) (params : list ty) : ty :=
  match type_ with
  | TGeneric origin _ =>
      if String.eqb origin "typing.Union" then Union params
      else TGeneric origin params
  | _ => type_
  end.

(** [issubclass(type_, BaseModel)]: the name of the model when it holds;
    it raises when [type_] is no class. *)
Definition issubclass_BaseModel (type_ : ty) : result (option string) :=
  if is_class type_
  then Ok (match type_ with
           | TModel name => Some name
           | _ => None
           end)
  else Raise (TypeError "issubclass() arg 1 must be a class").

(** The marker [strawberry.auto] and the test [typ == strawberry.auto]. *)
Definition auto : ty := TClass "strawberry.auto".

Definition is_auto (typ : ty) : bool :=
  match typ with
  | TClass n => String.eqb n "strawberry.auto"
  | _ => false
  end.

(** Induction over type objects that reaches the arguments of generics. *)
Section ty_induction.
Variable P : ty → Prop.
Hypothesis HClass : ∀ n, P (TClass n).
Hypothesis HModel : ∀ n, P (TModel n).
Hypothesis HSchema : ∀ a, P (TSchema a).
Hypothesis HOther : ∀ r, P (TOther r).
Hypothesis HLiteral : ∀ vs, P (TLiteral vs).
Hypothesis HGeneric : ∀ o args, Forall P args → P (TGeneric o args).
Hypothesis HBuiltinGeneric : ∀ o args, Forall P args → P (TBuiltinGeneric o args).
Hypothesis HDefinition : ∀ n, P (TDefinition n).
Hypothesis HSynth : ∀ n d, P d → P (TSynth n d).

Fixpoint ty_nested_ind (t : ty) : P t :=
  let fix all (ts : list ty) : Forall P ts :=
    match ts with
    | [] => @List.Forall_nil _ P
    | x :: rest => @List.Forall_cons _ P x rest (ty_nested_ind x) (all rest)
    end in
  match t with
  | TClass n => HClass n
  | TModel n => HModel n
  | TSchema a => HSchema a
  | TOther r => HOther r
  | TLiteral vs => HLiteral vs
  | TGeneric o args => HGeneric o args (all args)
  | TBuiltinGeneric o args => HBuiltinGeneric o args (all args)
  | TDefinition n => HDefinition n
  | TSynth n d => HSynth n d (ty_nested_ind d)
  end.
End ty_induction.

(** ** Instances *)

(** Run-time values: [None], an instance of a built-in class with its
    printed form (for a string, its characters), a list, a tuple, a dict
    with string keys, an instance of a pydantic model and an instance of a
    generated class, the last two with their attributes in definition
    order. *)
Inductive value : Type :=
| VNone
| VAtom (cls : string) (repr : string)
| VList (items : list value)
| VTuple (items : list value)
| VDict (items : list (string * value))
| VModel (model : string) (__dict__ : list (string * value))
| VObject (cls : nat) (__dict__ : list (string * value)).

(** [getattr(obj, name)] on an instance. *)
Fixpoint assoc {A} (name : string) (items : list (string * A)) : option A :=
  match items with
  | [] => None
  | (k, v) :: rest => if String.eqb k name then Some v else assoc name rest
  end.

Definition instance_dict (obj : value) : list (string * value) :=
  match obj with
  | VModel _ d | VObject _ d => d
  | _ => []
  end.

Definition getattr (obj : value) (name : string) : result value :=
  match assoc name (instance_dict obj) with
  | Some v => Ok v
  | None => Raise (AttributeError name)
  end.

(** [getattr(obj, name, None)] on the attributes [d]. *)
Definition attribute_or_none (d : list (string * value)) (name : string) : value :=
  match assoc name d with
  | Some v => v
  | None => VNone
  end.

(** [obj is None] *)
Definition is_None (obj : value) : bool :=
  match obj with
  | VNone => true
  | _ => false
  end.

(** The truth value of an object: [None], zero, [False], the empty string
    and the empty containers are false. *)
Definition truthy (obj : value) : bool :=
  match obj with
  | VNone => false
  | VAtom cls repr =>
      if String.eqb cls "str" then negb (String.eqb repr "")
      else negb (existsb (String.eqb repr) ["0"; "0.0"; "False"])
  | VList [] | VTuple [] | VDict [] => false
  | _ => true
  end.

(** [iter(obj)]: a dict yields its keys, a model instance its fields as
    pairs, a string its characters. *)
Definition iterate (obj : value) : result (list value) :=
  match obj with
  | VList items | VTuple items => Ok items
  | VDict items => Ok (map (fun item => VAtom "str" item.1) items)
  | VModel _ d => Ok (map (fun item => VTuple [VAtom "str" item.1; item.2]) d)
  | VAtom cls repr =>
      if String.eqb cls "str"
      then Ok (map (fun c => VAtom "str" (String c "")) (String.list_ascii_of_string repr))
      else Raise (TypeError "object is not iterable")
  | _ => Raise (TypeError "object is not iterable")
  end.

(** [obj[index]] for an integer [index] that is not negative. *)
Definition subscript (obj : value) (index : nat) : result value :=
  match obj with
  | VList items | VTuple items =>
      match items !! index with
      | Some v => Ok v
      | None => Raise IndexError
      end
  | VDict _ => Raise (KeyError (pretty index))
  | VAtom cls repr =>
      if String.eqb cls "str"
      then match String.list_ascii_of_string repr !! index with
           | Some c => Ok (VAtom "str" (String c ""))
           | None => Raise IndexError
           end
      else Raise (TypeError "object is not subscriptable")
  | _ => Raise (TypeError "object is not subscriptable")
  end.

(** [obj.get(key, None)] *)
Definition dict_get (obj : value) (key : string) : result value :=
  match obj with
  | VDict items => Ok (default VNone (assoc key items))
  | _ => Raise (AttributeError "get")
  end.

(** ** Field descriptors *)

(** pydantic's [ModelField]; [description] is [field_info.description]. *)
Module ModelField.
Record t : Type := {
  name : string;
  alias : string;
  has_alias : bool;
  outer_type_ : ty;
  required : bool;
  default : value;
  description : option string
}.
End ModelField.

(** [StrawberryField] (a [dataclasses.Field]); [None] stands for [UNSET]
    and for a missing resolver.  [name] and [type] read the attributes
    that [python_name] and [type_annotation] set. *)
Module StrawberryField.
Record t : Type := {
  python_name : string;
  graphql_name : option string;
  default : option value;
  default_factory : option value;
  type_annotation : ty;
  description : option string;
  base_resolver : option string
}.
Definition name (f : t) : string := python_name f.
Definition type (f : t) : ty := type_annotation f.
End StrawberryField.

Module DataclassCreationFields.
Record t : Type := {
  name : string;
  type_annotation : ty;
  field : StrawberryField.t
}.
Definition to_tuple (f : t) : string * ty * StrawberryField.t :=
  (name f, type_annotation f, field f).
End DataclassCreationFields.

(** ** Classes and the store *)

(** The class under the decorator. *)
Module PyClass.
Record t : Type := {
  __name__ : string;
  __annotations__ : option (list (string * ty));
  __bases__ : list ty;
  __dict__ : list (string * StrawberryField.t)
}.
End PyClass.

(** What [_process_type] attaches to the generated class. *)
Module TypeDefinition.
Record t : Type := {
  name : string;
  is_input : bool;
  is_interface : bool;
  description : option string;
  directives : list string
}.
End TypeDefinition.

(** The two conversion attributes of a generated class hold either the
    default closure ([from_pydantic_default] closes over the generated
    class, [to_pydantic_default] over the model) or the caller's function. *)
Inductive from_pydantic_impl : Type :=
| FromPydanticDefault (cls : nat)
| FromPydanticCustom (f : value → value → result value).

Inductive to_pydantic_impl : Type :=
| ToPydanticDefault (model : string)
| ToPydanticCustom (f : value → result value).

(** The class that [dataclasses.make_dataclass] returns; [is_type_of] holds
    the model its closure captured. *)
Module SchemaClass.
Record t : Type := {
  __name__ : string;
  __bases__ : list ty;
  __mro__ : list ty;
  __dataclass_fields__ : list (string * ty * StrawberryField.t);
  is_type_of : string;
  _type_definition : option TypeDefinition.t;
  _pydantic_type : option string;
  from_pydantic : option from_pydantic_impl;
  to_pydantic : option to_pydantic_impl
}.
End SchemaClass.

(** A pydantic model class: [__fields__] in declaration order, the
    linearised ancestors (the class itself first) and the class's own
    attributes, among them the registration attributes. *)
Module ModelClass.
Record t : Type := {
  __fields__ : list (string * ModelField.t);
  __mro__ : list ty;
  __dict__ : gmap string ty
}.
End ModelClass.

Record store : Type := {
  models : gmap string ModelClass.t;
  classes : list SchemaClass.t
}.

Definition mro (st : store) (c : ty) : list ty :=
  match c with
  | TModel m => from_option ModelClass.__mro__ [c] (models st !! m)
  | TSchema a => from_option SchemaClass.__mro__ [c] (classes st !! a)
  | _ => [c]
  end.

(** The class's own attribute of that name. *)
Definition own_attr (st : store) (attr : string) (c : ty) : option ty :=
  match c with
  | TModel m => k ← models st !! m; ModelClass.__dict__ k !! attr
  | _ => None
  end.

(** [getattr(c, attr)] on a class searches the ancestors in order;
    [hasattr(c, attr)] is whether that finds something. *)
Definition class_getattr (st : store) (c : ty) (attr : string) : option ty :=
  list_find (fun k => bool_decide (is_Some (own_attr st attr k))) (mro st c)
    ≫= (fun hit => own_attr st attr hit.2).

Definition hasattr (st : store) (c : ty) (attr : string) : bool :=
  bool_decide (is_Some (class_getattr st c attr)).

(** ** [replace_pydantic_types] *)

Definition registration_attr (is_input : bool) : string :=
  if is_input then "_strawberry_input_type" else "_strawberry_type".

(** The branches follow the source: the [Literal] test, then
    [hasattr(type_, "__args__")], then [issubclass(type_, BaseModel)], where
    [hasattr] followed by [getattr] is one lookup.  In the second branch
    [type_.copy_with] is looked up before the arguments are walked, so a
    generic without it raises [AttributeError] at once. *)
Fixpoint replace_pydantic_types (st : store) (type_ : ty) (is_input : bool)
    {struct type_} : result ty :=
  if origin_is_Literal type_
  then (* Literal does not have types in its __args__ so we return early *)
    Ok type_
  else
  match type_ with
  | TGeneric _ args | TBuiltinGeneric _ args =>
      if negb (has_copy_with type_) then Raise (AttributeError "copy_with")
      else
      let* replaced_args :=
        (fix each (ts : list ty) : result (list ty) :=
           match ts with
           | [] => Ok []
           | t :: rest =>
               let* t' := replace_pydantic_types st t is_input in
               let* rest' := each rest in
               Ok (t' :: rest')
           end) args in
      let replaced_type := copy_with type_ replaced_args in
      if isinstance_TypeDefinition replaced_type
      then Ok (TSynth (definition_name replaced_type) replaced_type)
      else Ok replaced_type
  | _ =>
      let* model := issubclass_BaseModel type_ in
      match model with
      | Some name =>
          let attr := registration_attr is_input in
          match class_getattr st type_ attr with
          | Some registered => Ok registered
          | None => Raise (UnregisteredTypeException name)
          end
      | None => Ok type_
      end
  end.

(** The models that the walk of [replace_pydantic_types] meets in a type:
    those at the type itself or, recursively, among the arguments of a
    generic that has [copy_with]. *)
Fixpoint models_walked (type_ : ty) : list string :=
  match type_ with
  | TModel name => [name]
  | TGeneric _ args =>
      (fix each (ts : list ty) : list string :=
         match ts with
         | [] => []
         | t :: rest => models_walked t ++ each rest
         end) args
  | _ => []
  end.

(** Whether the walk meets only what it can handle: no generic without
    [copy_with] and no object that is no class. *)
Fixpoint walkable (type_ : ty) : bool :=
  match type_ with
  | TGeneric _ args =>
      (fix each (ts : list ty) : bool :=
         match ts with
         | [] => true
         | t :: rest => walkable t && each rest
         end) args
  | TBuiltinGeneric _ _ | TOther _ | TDefinition _ => false
  | _ => true
  end.

(** Whether a type is a union of the [typing] module. *)
Definition is_union (type_ : ty) : bool :=
  match type_ with
  | TGeneric origin _ => String.eqb origin "typing.Union"
  | _ => false
  end.

(** The two steps of [Union]: the members that a parameter contributes,
    and a list without its repetitions. *)
Definition union_members (p : ty) : list ty :=
  match p with
  | TGeneric origin args =>
      if String.eqb origin "typing.Union" then args else [p]
  | _ => [p]
  end.

Definition without_repetitions (params : list ty) : list ty :=
  fold_left (fun acc p => if existsb (ty_eqb p) acc then acc else acc ++ [p])
            params [].

(** Arguments that [Union] leaves as they are. *)
Definition normalised (args : list ty) : Prop :=
  Forall (fun t => is_union t = false) args ∧ NoDup args ∧ length args ≠ 1.

(** The types that the walk leaves as they are: classes that are no
    models, [Literal]s, and generics with [copy_with] over such types,
    a union being normalised. *)
Fixpoint stable (type_ : ty) : Prop :=
  match type_ with
  | TClass _ | TSchema _ | TLiteral _ | TSynth _ _ => True
  | TGeneric origin args =>
      (fix each (ts : list ty) : Prop :=
         match ts with
         | [] => True
         | t :: rest => stable t ∧ each rest
         end) args
      ∧ (origin = "typing.Union" → normalised args)
  | _ => False
  end.

(** ** The store-and-error monad of the decorator *)

Definition M (A : Type) : Type := store → result A * store.

Definition ret {A} (a : A) : M A := fun st => (Ok a, st).
Definition raise {A} (e : exn) : M A := fun st => (Raise e, st).
Definition lift {A} (r : result A) : M A := fun st => (r, st).
Definition read {A} (f : store → result A) : M A := fun st => (f st, st).

Definition mbind {A B} (m : M A) (k : A → M B) : M B :=
  fun st =>
    match m st with
    | (Ok a, st') => k a st'
    | (Raise e, st') => (Raise e, st')
    end.

Notation "'let!' x := m 'in' k" := (mbind m (fun x => k))
  (at level 10, x name, m at level 100, k at level 200).

(** [dataclasses.make_dataclass]: a new class object, returned by address. *)
Definition allocate (make : nat → SchemaClass.t) : M nat :=
  fun st =>
    let addr := length (classes st) in
    (Ok addr, {| models := models st; classes := classes st ++ [make addr] |}).

(** [setattr(model, attr, v)] on a model class. *)
Definition setattr_model (model attr : string) (v : ty) : M unit :=
  fun st =>
    match models st !! model with
    | Some k =>
        let k' := {| ModelClass.__fields__ := ModelClass.__fields__ k;
                     ModelClass.__mro__ := ModelClass.__mro__ k;
                     ModelClass.__dict__ := <[attr := v]> (ModelClass.__dict__ k) |} in
        (Ok tt, {| models := <[model := k']> (models st); classes := classes st |})
    | None => (Raise (AttributeError attr), st)
    end.

(** An attribute assignment on a generated class. *)
Definition update_class (addr : nat) (f : SchemaClass.t → SchemaClass.t) : M unit :=
  fun st =>
    match classes st !! addr with
    | Some c => (Ok tt, {| models := models st;
                           classes := <[addr := f c]> (classes st) |})
    | None => (Raise (AttributeError "cls"), st)
    end.

(** [model.__fields__] *)
Definition model_fields_of (model : string) : M (list (string * ModelField.t)) :=
  fun st =>
    match models st !! model with
    | Some k => (Ok (ModelClass.__fields__ k), st)
    | None => (Raise (AttributeError "__fields__"), st)
    end.

(** A list comprehension whose body runs in the monad. *)
Fixpoint for_eachM {A B} (f : A → M B) (xs : list A) : M (list B) :=
  match xs with
  | [] => ret []
  | x :: rest =>
      let! y := f x in
      let! ys := for_eachM f rest in
      ret (y :: ys)
  end.

(** ** The keyword arguments of [type]

    [None] is a keyword that the call leaves out, so that
    [functools.partial] can tell a default from a value that was passed. *)
Module Keywords.
Record t : Type := {
  fields : option (list string);
  name : option string;
  is_input : option bool;
  is_interface : option bool;
  description : option string;
  directives : option (list string);
  all_fields : option bool;
  from_pydantic : option (value → value → result value);
  to_pydantic : option (value → result value)
}.

(** A call with no keyword. *)
Definition none : t :=
  {| fields := None; name := None; is_input := None; is_interface := None;
     description := None; directives := None; all_fields := None;
     from_pydantic := None; to_pydantic := None |}.
End Keywords.

(** ** The decorator *)

Section decorator.

(** Collaborators from other modules of the package.  [get_basic_type]
    maps a pydantic type to a basic one and raises [UnsupportedTypeError]
    where it has none; the others return or fail with an exception of
    their own.  None of them writes to a model class or to a generated
    class. *)
Variable get_basic_type : ty → option ty.
Variable ensure_all_auto_fields_in_pydantic :
  store → string → gset string → string → outcome unit.
Variable get_default_factory_for_field : ModelField.t → outcome (option value).
Variable get_private_fields : PyClass.t → outcome (list StrawberryField.t).
Variable sort_creation_fields :
  list DataclassCreationFields.t → outcome (list DataclassCreationFields.t).
Variable _wrap_dataclass : PyClass.t → outcome PyClass.t.
Variable _get_fields : PyClass.t → outcome (list StrawberryField.t).
Variable _process_type :
  SchemaClass.t → option string → bool → bool → option string →
  list string → outcome TypeDefinition.t.

Definition get_type_for_field (st : store) (field : ModelField.t)
    (is_input : bool) : result ty :=
  let type_ := ModelField.outer_type_ field in
  let* type_ := from_option Ok (Raise UnsupportedTypeError) (get_basic_type type_) in
  let* type_ := replace_pydantic_types st type_ is_input in
  let type_ := if negb (ModelField.required field) then Optional type_ else type_ in
  Ok type_.

Definition _build_dataclass_creation_fields (st : store) (field : ModelField.t)
    (is_input : bool) (existing_fields : gmap string StrawberryField.t)
    (auto_fields_set : gset string) : result DataclassCreationFields.t :=
  let* type_annotation :=
    if bool_decide (ModelField.name field ∈ auto_fields_set)
    then get_type_for_field st field is_input
    else match existing_fields !! ModelField.name field with
         | Some existing => Ok (StrawberryField.type existing)
         | None => Raise (KeyError (ModelField.name field))
         end in
  let fresh :=
    let* default_factory := foreign (get_default_factory_for_field field) in
    Ok {| StrawberryField.python_name := ModelField.name field;
          StrawberryField.graphql_name :=
            if ModelField.has_alias field
            then Some (ModelField.alias field) else None;
          (* always unset because we use default_factory instead *)
          StrawberryField.default := None;
          StrawberryField.default_factory := default_factory;
          StrawberryField.type_annotation := type_annotation;
          StrawberryField.description := ModelField.description field;
          StrawberryField.base_resolver := None |} in
  let* strawberry_field :=
    match existing_fields !! ModelField.name field with
    | Some existing =>
        match StrawberryField.base_resolver existing with
        | Some _ =>
            (* if the user has defined a resolver for this field, use it *)
            Ok existing
        | None => fresh
        end
    | None => fresh
    end in
  Ok {| DataclassCreationFields.name := ModelField.name field;
        DataclassCreationFields.type_annotation := type_annotation;
        DataclassCreationFields.field := strawberry_field |}.

(** *** Field-set reconciliation (the head of [wrap]) *)

(** [set(fields) if fields else set([])] *)
Definition original_fields_set (fields : option (list string)) : gset string :=
  match fields with
  | Some (f :: rest) => list_to_set (f :: rest)
  | _ => ∅
  end.

(** [getattr(cls, "__annotations__", {})] *)
Definition existing_fields_of (cls : PyClass.t) : list (string * ty) :=
  default [] (PyClass.__annotations__ cls).

(** [set(model_fields.keys())] *)
Definition keys (model_fields : list (string * ModelField.t)) : gset string :=
  list_to_set model_fields.*1.

Definition fields_set_of (model_fields : list (string * ModelField.t))
    (fields : option (list string)) (existing_fields : list (string * ty))
    (all_fields : bool) : gset string :=
  let fields_set :=
    original_fields_set fields ∪
    list_to_set
      (filter (fun name => name ∈ model_fields.*1) existing_fields.*1) in
  if all_fields then keys model_fields else fields_set.

Definition auto_fields_set_of (model_fields : list (string * ModelField.t))
    (fields : option (list string)) (existing_fields : list (string * ty))
    (all_fields : bool) : gset string :=
  let auto_fields_set :=
    original_fields_set fields ∪
    list_to_set (filter (fun item => is_auto item.2) existing_fields).*1 in
  if all_fields then keys model_fields else auto_fields_set.

(** *** [type(model, ...)(cls)] *)

(** [{field.name: field for field in extra_strawberry_fields}] *)
Definition fields_dict (fs : list StrawberryField.t) : gmap string StrawberryField.t :=
  foldl (fun d f => <[StrawberryField.name f := f]> d) ∅ fs.

(** The decorator applied to [cls]; it returns the address of the
    generated class.  The two deprecation warnings are not modelled. *)
Definition wrap (model : string) (fields : option (list string))
    (name : option string) (is_input is_interface : bool)
    (description : option string) (directives : list string)
    (all_fields : bool)
    (from_pydantic : option (value → value → result value))
    (to_pydantic : option (value → result value))
    (cls : PyClass.t) : M nat :=
  let! model_fields := model_fields_of model in
  let existing_fields := existing_fields_of cls in
  let fields_set := fields_set_of model_fields fields existing_fields all_fields in
  let auto_fields_set :=
    auto_fields_set_of model_fields fields existing_fields all_fields in
  if bool_decide (fields_set = ∅)
  then raise (MissingFieldsListError (PyClass.__name__ cls))
  else
  let! _ := read (fun st => foreign (ensure_all_auto_fields_in_pydantic
                              st model auto_fields_set (PyClass.__name__ cls))) in
  let! wrapped := lift (foreign (_wrap_dataclass cls)) in
  let! extra_strawberry_fields := lift (foreign (_get_fields wrapped)) in
  let extra_fields := extra_strawberry_fields in
  let! private_fields := lift (foreign (get_private_fields wrapped)) in
  let extra_fields_dict := fields_dict extra_strawberry_fields in
  let! all_model_fields :=
    for_eachM
      (fun item => read (fun st =>
         _build_dataclass_creation_fields
           st item.2 is_input extra_fields_dict auto_fields_set))
      (filter (fun item => item.1 ∈ fields_set) model_fields) in
  let all_model_fields :=
    all_model_fields ++
    map (fun field =>
           {| DataclassCreationFields.name := StrawberryField.name field;
              DataclassCreationFields.type_annotation := StrawberryField.type field;
              DataclassCreationFields.field := field |})
        (filter (fun field => StrawberryField.name field ∉ fields_set)
                (extra_fields ++ private_fields)) in
  (* Sort fields so that fields with missing defaults go first *)
  let! sorted_fields := lift (foreign (sort_creation_fields all_model_fields)) in
  (* the ancestors of the new class: itself, then those of its bases *)
  let! bases_mro := read (fun st => Ok (flat_map (mro st) (PyClass.__bases__ cls))) in
  let! cls' :=
    allocate (fun addr =>
      {| SchemaClass.__name__ := PyClass.__name__ cls;
         SchemaClass.__bases__ := PyClass.__bases__ cls;
         SchemaClass.__mro__ := TSchema addr :: bases_mro;
         SchemaClass.__dataclass_fields__ :=
           map DataclassCreationFields.to_tuple sorted_fields;
         SchemaClass.is_type_of := model;
         SchemaClass._type_definition := None;
         SchemaClass._pydantic_type := None;
         SchemaClass.from_pydantic := None;
         SchemaClass.to_pydantic := None |}) in
  (* _process_type attaches the type definition to the new class *)
  let! definition :=
    read (fun st =>
      match classes st !! cls' with
      | Some c =>
          foreign (_process_type c name is_input is_interface description directives)
      | None => Raise (AttributeError "cls")
      end) in
  let! _ := update_class cls' (fun c =>
    {| SchemaClass.__name__ := SchemaClass.__name__ c;
       SchemaClass.__bases__ := SchemaClass.__bases__ c;
       SchemaClass.__mro__ := SchemaClass.__mro__ c;
       SchemaClass.__dataclass_fields__ := SchemaClass.__dataclass_fields__ c;
       SchemaClass.is_type_of := SchemaClass.is_type_of c;
       SchemaClass._type_definition := Some definition;
       SchemaClass._pydantic_type := SchemaClass._pydantic_type c;
       SchemaClass.from_pydantic := SchemaClass.from_pydantic c;
       SchemaClass.to_pydantic := SchemaClass.to_pydantic c |}) in
  let! _ :=
    if is_input
    then setattr_model model "_strawberry_input_type" (TSchema cls')
    else setattr_model model "_strawberry_type" (TSchema cls') in
  (* cls._pydantic_type, cls.from_pydantic and cls.to_pydantic *)
  let! _ := update_class cls' (fun c =>
    {| SchemaClass.__name__ := SchemaClass.__name__ c;
       SchemaClass.__bases__ := SchemaClass.__bases__ c;
       SchemaClass.__mro__ := SchemaClass.__mro__ c;
       SchemaClass.__dataclass_fields__ := SchemaClass.__dataclass_fields__ c;
       SchemaClass.is_type_of := SchemaClass.is_type_of c;
       SchemaClass._type_definition := SchemaClass._type_definition c;
       SchemaClass._pydantic_type := Some model;
       SchemaClass.from_pydantic :=
         Some (match from_pydantic with
               | Some f => FromPydanticCustom f
               | None => FromPydanticDefault cls'
               end);
       SchemaClass.to_pydantic :=
         Some (match to_pydantic with
               | Some f => ToPydanticCustom f
               | None => ToPydanticDefault model
               end) |}) in
  ret cls'.

(** *** What [wrap] computes, stage by stage

    The same computation as in [wrap], cut where it touches the store:
    the fields it sorts, the class it creates and the class and the model
    it leaves behind. *)

(** The value of [sorted_fields]. *)
Definition sorted_fields_of (st : store) (model : string)
    (model_fields : list (string * ModelField.t))
    (fields : option (list string)) (is_input all_fields : bool)
    (cls : PyClass.t) : result (list DataclassCreationFields.t) :=
  let existing_fields := existing_fields_of cls in
  let fields_set := fields_set_of model_fields fields existing_fields all_fields in
  let auto_fields_set :=
    auto_fields_set_of model_fields fields existing_fields all_fields in
  let* _ := foreign (ensure_all_auto_fields_in_pydantic
                       st model auto_fields_set (PyClass.__name__ cls)) in
  let* wrapped := foreign (_wrap_dataclass cls) in
  let* extra_fields := foreign (_get_fields wrapped) in
  let* private_fields := foreign (get_private_fields wrapped) in
  let* all_model_fields :=
    for_each
      (fun item : string * ModelField.t =>
         _build_dataclass_creation_fields
           st item.2 is_input (fields_dict extra_fields) auto_fields_set)
      (filter (fun item => item.1 ∈ fields_set) model_fields) in
  foreign (sort_creation_fields
    (all_model_fields ++
     map (fun field =>
            {| DataclassCreationFields.name := StrawberryField.name field;
               DataclassCreationFields.type_annotation := StrawberryField.type field;
               DataclassCreationFields.field := field |})
         (filter (fun field => StrawberryField.name field ∉ fields_set)
                 (extra_fields ++ private_fields)))).

(** The same list, for any two sets in the place of [fields_set] and
    [auto_fields_set]. *)
Definition sorted_fields_from (fields_set auto_fields_set : gset string)
    (st : store) (model : string) (model_fields : list (string * ModelField.t))
    (is_input : bool) (cls : PyClass.t) : result (list DataclassCreationFields.t) :=
  let* _ := foreign (ensure_all_auto_fields_in_pydantic
                       st model auto_fields_set (PyClass.__name__ cls)) in
  let* wrapped := foreign (_wrap_dataclass cls) in
  let* extra_fields := foreign (_get_fields wrapped) in
  let* private_fields := foreign (get_private_fields wrapped) in
  let* all_model_fields :=
    for_each
      (fun item : string * ModelField.t =>
         _build_dataclass_creation_fields
           st item.2 is_input (fields_dict extra_fields) auto_fields_set)
      (filter (fun item => item.1 ∈ fields_set) model_fields) in
  foreign (sort_creation_fields
    (all_model_fields ++
     map (fun field =>
            {| DataclassCreationFields.name := StrawberryField.name field;
               DataclassCreationFields.type_annotation := StrawberryField.type field;
               DataclassCreationFields.field := field |})
         (filter (fun field => StrawberryField.name field ∉ fields_set)
                 (extra_fields ++ private_fields)))).

(** The class as [make_dataclass] creates it at [addr]. *)
Definition made_class (st : store) (model : string) (cls : PyClass.t)
    (sorted_fields : list DataclassCreationFields.t) (addr : nat) : SchemaClass.t :=
  {| SchemaClass.__name__ := PyClass.__name__ cls;
     SchemaClass.__bases__ := PyClass.__bases__ cls;
     SchemaClass.__mro__ := TSchema addr :: flat_map (mro st) (PyClass.__bases__ cls);
     SchemaClass.__dataclass_fields__ :=
       map DataclassCreationFields.to_tuple sorted_fields;
     SchemaClass.is_type_of := model;
     SchemaClass._type_definition := None;
     SchemaClass._pydantic_type := None;
     SchemaClass.from_pydantic := None;
     SchemaClass.to_pydantic := None |}.

(** The class once [wrap] has returned. *)
Definition finished_class (made : SchemaClass.t) (model : string)
    (definition : TypeDefinition.t)
    (from_pydantic : option (value → value → result value))
    (to_pydantic : option (value → result value)) (addr : nat) : SchemaClass.t :=
  {| SchemaClass.__name__ := SchemaClass.__name__ made;
     SchemaClass.__bases__ := SchemaClass.__bases__ made;
     SchemaClass.__mro__ := SchemaClass.__mro__ made;
     SchemaClass.__dataclass_fields__ := SchemaClass.__dataclass_fields__ made;
     SchemaClass.is_type_of := SchemaClass.is_type_of made;
     SchemaClass._type_definition := Some definition;
     SchemaClass._pydantic_type := Some model;
     SchemaClass.from_pydantic :=
       Some (match from_pydantic with
             | Some f => FromPydanticCustom f
             | None => FromPydanticDefault addr
             end);
     SchemaClass.to_pydantic :=
       Some (match to_pydantic with
             | Some f => ToPydanticCustom f
             | None => ToPydanticDefault model
             end) |}.

(** The model class after registration. *)
Definition registered_model (k : ModelClass.t) (is_input : bool) (addr : nat)
    : ModelClass.t :=
  {| ModelClass.__fields__ := ModelClass.__fields__ k;
     ModelClass.__mro__ := ModelClass.__mro__ k;
     ModelClass.__dict__ :=
       <[registration_attr is_input := TSchema addr]> (ModelClass.__dict__ k) |}.

(** *** The three entry points *)

(** [type(model, **kw)]: the keywords with their defaults, then [wrap]. *)
Definition type (model : string) (kw : Keywords.t) (cls : PyClass.t) : M nat :=
  wrap model (Keywords.fields kw) (Keywords.name kw)
    (default false (Keywords.is_input kw))
    (default false (Keywords.is_interface kw))
    (Keywords.description kw) (default [] (Keywords.directives kw))
    (default false (Keywords.all_fields kw))
    (Keywords.from_pydantic kw) (Keywords.to_pydantic kw) cls.

(** [input = partial(type, is_input=True)]: a keyword of the call replaces
    the one that [partial] holds. *)
Definition input (model : string) (kw : Keywords.t) (cls : PyClass.t) : M nat :=
  type model
    {| Keywords.fields := Keywords.fields kw;
       Keywords.name := Keywords.name kw;
       Keywords.is_input := Some (default true (Keywords.is_input kw));
       Keywords.is_interface := Keywords.is_interface kw;
       Keywords.description := Keywords.description kw;
       Keywords.directives := Keywords.directives kw;
       Keywords.all_fields := Keywords.all_fields kw;
       Keywords.from_pydantic := Keywords.from_pydantic kw;
       Keywords.to_pydantic := Keywords.to_pydantic kw |}
    cls.

(** [interface = partial(type, is_interface=True)] *)
Definition interface (model : string) (kw : Keywords.t) (cls : PyClass.t) : M nat :=
  type model
    {| Keywords.fields := Keywords.fields kw;
       Keywords.name := Keywords.name kw;
       Keywords.is_input := Keywords.is_input kw;
       Keywords.is_interface := Some (default true (Keywords.is_interface kw));
       Keywords.description := Keywords.description kw;
       Keywords.directives := Keywords.directives kw;
       Keywords.all_fields := Keywords.all_fields kw;
       Keywords.from_pydantic := Keywords.from_pydantic kw;
       Keywords.to_pydantic := Keywords.to_pydantic kw |}
    cls.

End decorator.

(** ** [is_type_of] *)

Definition type_of (obj : value) : ty :=
  match obj with
  | VNone => NoneType
  | VAtom c _ => TClass c
  | VList _ => TClass "list"
  | VTuple _ => TClass "tuple"
  | VDict _ => TClass "dict"
  | VModel m _ => TModel m
  | VObject a _ => TSchema a
  end.

(** [isinstance(obj, c)]: [c] is among the ancestors of [type(obj)]. *)
Definition isinstance (st : store) (obj : value) (c : ty) : bool :=
  existsb (ty_eqb c) (mro st (type_of obj)).

(** The class method defined inside [wrap]; [model] is the variable of
    [type] that the closure captures, [cls] the class it is called on. *)
Definition is_type_of (model : string) (st : store) (cls : nat) (obj : value) : bool :=
  isinstance st obj (TSchema cls) || isinstance st obj (TModel model).

(** [cls.is_type_of(obj, info)] on a generated class. *)
Definition call_is_type_of (st : store) (cls : nat) (obj : value) : result bool :=
  match classes st !! cls with
  | Some c => Ok (is_type_of (SchemaClass.is_type_of c) st cls obj)
  | None => Raise (AttributeError "is_type_of")
  end.

(** ** The two conversions *)

(** *** How the conversion reads the type of a field *)

(** Modelled from the spec: the conversion to the schema type follows the
    type of each field.  [Optional[T]] is a union with [None] among its
    members, and [T] the union of the other members. *)
Definition is_optional (type_ : ty) : bool :=
  match type_ with
  | TGeneric origin args =>
      String.eqb origin "typing.Union" && existsb (ty_eqb NoneType) args
  | _ => false
  end.

(** Modelled from the spec: the type under [Optional], the union of the
    members other than [None]. *)
Definition optional_of_type (type_ : ty) : ty :=
  match type_ with
  | TGeneric _ args => Union (List.filter (fun t => negb (ty_eqb NoneType t)) args)
  | _ => type_
  end.

(** Modelled from the spec: a list type is an alias whose origin is
    [list], [List[T]] or [list[T]]. *)
Definition list_of_type (type_ : ty) : option ty :=
  match type_ with
  | TGeneric origin (of_type :: _) =>
      if String.eqb origin "typing.List" then Some of_type else None
  | TBuiltinGeneric origin (of_type :: _) =>
      if String.eqb origin "list" then Some of_type else None
  | _ => None
  end.

(** [hasattr(type_, "_type_definition")] *)
Definition has_type_definition (st : store) (type_ : ty) : bool :=
  match type_ with
  | TSchema a =>
      bool_decide (is_Some (c ← classes st !! a; SchemaClass._type_definition c))
  | TSynth _ _ => true
  | _ => false
  end.

(** Modelled from the spec: the member of a union by which a value is
    converted is the first one of whose source class the value is an
    instance; the source class of a generated class is its model. *)
Fixpoint union_option (st : store) (types : list ty) (data : value)
    : result (option ty) :=
  match types with
  | [] => Ok None
  | option_type :: rest =>
      let source_type :=
        match option_type with
        | TSchema a =>
            match c ← classes st !! a; SchemaClass._pydantic_type c with
            | Some model => TModel model
            | None => option_type
            end
        | _ => option_type
        end in
      if is_class source_type
      then if isinstance st data source_type
           then Ok (Some option_type)
           else union_option st rest data
      else Raise (TypeError "isinstance() arg 2 must be a type")
  end.

(** *** From the model to the schema type *)

(** Modelled from the spec: [convert_pydantic_model_to_strawberry_class] of
    [conversion.py], which is not among the sources, with the conversion
    of one field's value by the field's type.  The class is copied field
    by field over the fields of the generated class; a field the instance
    lacks is read from [extra], and is [None] when that lacks it too.  A
    value under [Optional] is converted unless it is [None], the items of
    a list are converted one by one, a value under a union by the member
    it is an instance of, and a value whose field has a generated class as
    its type by the [from_pydantic] of that class, or of the class
    registered as [_strawberry_type] for the value's own class where there
    is one; any other value is passed on.  A class that [builtins.type]
    made takes no keyword arguments. *)
Fixpoint _convert_from_pydantic_to_strawberry_type (fuel : nat) (st : store)
    (type_ : ty) (data_from_model extra : value) {struct fuel} : result value :=
  match fuel with
  | O => Raise RecursionError
  | S fuel' =>
      let data := if is_None data_from_model then extra else data_from_model in
      if is_optional type_
      then
        if is_None data then Ok data
        else _convert_from_pydantic_to_strawberry_type fuel' st
               (optional_of_type type_) data extra
      else if is_union type_
      then
        let* option_type := union_option st (default [] (__args__ type_)) data in
        match option_type with
        | Some option_type =>
            _convert_from_pydantic_to_strawberry_type fuel' st option_type data extra
        | None => Ok data
        end
      else
      match list_of_type type_ with
      | Some of_type =>
          let* items := iterate data in
          let* items :=
            for_each
              (fun indexed : nat * value =>
                 let* extra_item :=
                   if truthy extra then subscript extra indexed.1 else Ok VNone in
                 _convert_from_pydantic_to_strawberry_type fuel' st of_type
                   indexed.2 extra_item)
              (zip (seq 0 (length items)) items) in
          Ok (VList items)
      | None =>
          if has_type_definition st type_
          then
            (* in the case of an interface, the concrete type may be more
               specific than the type in the field definition *)
            let type_ :=
              default type_ (class_getattr st (type_of data) "_strawberry_type") in
            match type_ with
            | TSchema cls =>
                match c ← classes st !! cls; SchemaClass.from_pydantic c with
                | Some (FromPydanticDefault closed) =>
                    convert_pydantic_model_to_strawberry_class fuel' st closed
                      data_from_model extra
                | Some (FromPydanticCustom f) => f data_from_model extra
                | None =>
                    convert_pydantic_model_to_strawberry_class fuel' st cls
                      data_from_model extra
                end
            | TSynth _ _ => Raise (TypeError "takes no arguments")
            | _ => Raise (AttributeError "_type_definition")
            end
          else Ok data
      end
  end
with convert_pydantic_model_to_strawberry_class (fuel : nat) (st : store)
    (cls : nat) (model_instance extra : value) {struct fuel} : result value :=
  match fuel with
  | O => Raise RecursionError
  | S fuel' =>
      match classes st !! cls with
      | None => Raise (AttributeError "_type_definition")
      | Some c =>
          let extra := if truthy extra then extra else VDict [] in
          let* kwargs :=
            for_each
              (fun f : string * ty * StrawberryField.t =>
                 let python_name := f.1.1 in
                 let* data_from_extra := dict_get extra python_name in
                 let data_from_model :=
                   if truthy model_instance
                   then attribute_or_none (instance_dict model_instance) python_name
                   else VNone in
                 let* converted :=
                   _convert_from_pydantic_to_strawberry_type fuel' st f.1.2
                     data_from_model data_from_extra in
                 Ok (python_name, converted))
              (SchemaClass.__dataclass_fields__ c) in
          Ok (VObject cls kwargs)
      end
  end.

(** [from_pydantic_default], closed over the generated class [cls]; [extra]
    is [None] when the caller passes none. *)
Definition from_pydantic_default (fuel : nat) (st : store) (cls : nat)
    (instance extra : value) : result value :=
  convert_pydantic_model_to_strawberry_class fuel st cls instance extra.

(** [cls.from_pydantic(instance, extra)] as the decorator installed it. *)
Definition call_from_pydantic (fuel : nat) (st : store) (cls : nat)
    (instance extra : value) : result value :=
  match c ← classes st !! cls; SchemaClass.from_pydantic c with
  | Some (FromPydanticDefault closed) => from_pydantic_default fuel st closed instance extra
  | Some (FromPydanticCustom f) => f instance extra
  | None => Raise (AttributeError "from_pydantic")
  end.

(** *** From the schema type to the model *)

(** [dataclasses.fields(self)] *)
Definition dataclasses_fields (st : store) (self : value)
    : result (list (string * ty * StrawberryField.t)) :=
  match self with
  | VObject a _ =>
      match classes st !! a with
      | Some c => Ok (SchemaClass.__dataclass_fields__ c)
      | None => Raise (TypeError "must be called with a dataclass type or instance")
      end
  | _ => Raise (TypeError "must be called with a dataclass type or instance")
  end.

(** [{k: v for ...}]: a later entry replaces an earlier one of the same key. *)
Definition dict {A} (items : list (string * A)) : gmap string A :=
  foldl (fun d item => <[item.1 := item.2]> d) ∅ items.

Section conversion.

(** pydantic's validation of one field's value: the validated value, which
    may be another one than was passed, or none when the value is
    rejected. *)
Variable validate : ModelField.t → value → option value.

(** The call of [model] on keyword arguments, pydantic's
    [BaseModel.__init__] under the default configuration: each field is
    read from the keywords under its alias and validated; a missing field
    takes its default unless it is required; a missing required field and
    a rejected value raise [ValidationError]; keywords that name no field
    are ignored. *)
Definition BaseModel_init (st : store) (model : string) (data : gmap string value)
    : result value :=
  match models st !! model with
  | None => Raise (TypeError "not a model")
  | Some k =>
      let* values :=
        for_each
          (fun item : string * ModelField.t =>
             let field := item.2 in
             match data !! ModelField.alias field with
             | Some v =>
                 match validate field v with
                 | Some validated => Ok (ModelField.name field, validated)
                 | None => Raise (ValidationError model)
                 end
             | None =>
                 if ModelField.required field
                 then Raise (ValidationError model)
                 else Ok (ModelField.name field, ModelField.default field)
             end)
          (ModelClass.__fields__ k) in
      Ok (VModel model values)
  end.

(** [to_pydantic_default], closed over [model]; [convert] is
    [convert_strawberry_class_to_pydantic_model], with which it is mutually
    recursive. *)
Definition to_pydantic_default_with (convert : value → result value)
    (st : store) (model : string) (self : value) : result value :=
  let* fs := dataclasses_fields st self in
  let* instance_kwargs :=
    for_each
      (fun f : string * ty * StrawberryField.t =>
         let* v := getattr self f.1.1 in
         let* v' := convert v in
         Ok (f.1.1, v'))
      fs in
  BaseModel_init st model (dict instance_kwargs).

(** Modelled from the spec: [convert_strawberry_class_to_pydantic_model] of
    [conversion.py], which is not among the sources.  An instance of a
    class that has [to_pydantic] is converted by it, an instance of a data
    class without it becomes the dict of its converted fields, the items
    of a list, of a tuple and of a dict are converted one by one, and any
    other value is copied. *)
Fixpoint convert_strawberry_class_to_pydantic_model (fuel : nat) (st : store)
    (obj : value) : result value :=
  match fuel with
  | O => Raise RecursionError
  | S fuel' =>
      match obj with
      | VObject a _ =>
          match classes st !! a with
          | Some c =>
              match SchemaClass.to_pydantic c with
              | Some (ToPydanticDefault model) =>
                  to_pydantic_default_with
                    (convert_strawberry_class_to_pydantic_model fuel' st)
                    st model obj
              | Some (ToPydanticCustom f) => f obj
              | None =>
                  let* result :=
                    for_each
                      (fun f : string * ty * StrawberryField.t =>
                         let* v := getattr obj f.1.1 in
                         let* value :=
                           convert_strawberry_class_to_pydantic_model fuel' st v in
                         Ok (f.1.1, value))
                      (SchemaClass.__dataclass_fields__ c) in
                  Ok (VDict result)
              end
          | None => Ok obj
          end
      | VList items =>
          let* items :=
            for_each (convert_strawberry_class_to_pydantic_model fuel' st) items in
          Ok (VList items)
      | VTuple items =>
          let* items :=
            for_each (convert_strawberry_class_to_pydantic_model fuel' st) items in
          Ok (VTuple items)
      | VDict items =>
          let* items :=
            for_each
              (fun item : string * value =>
                 let* v := convert_strawberry_class_to_pydantic_model fuel' st item.2 in
                 Ok (item.1, v))
              items in
          Ok (VDict items)
      | _ => Ok obj
      end
  end.

Definition to_pydantic_default (fuel : nat) (st : store) (model : string)
    (self : value) : result value :=
  to_pydantic_default_with
    (convert_strawberry_class_to_pydantic_model fuel st) st model self.

(** [obj.to_pydantic()] as the decorator installed it. *)
Definition call_to_pydantic (fuel : nat) (st : store) (obj : value) : result value :=
  match obj with
  | VObject a _ =>
      match c ← classes st !! a; SchemaClass.to_pydantic c with
      | Some (ToPydanticDefault model) => to_pydantic_default fuel st model obj
      | Some (ToPydanticCustom f) => f obj
      | None => Raise (AttributeError "to_pydantic")
      end
  | _ => Raise (AttributeError "to_pydantic")
  end.

(** ** Instances that convert back and forth *)

(** The generated class [cls] copies every field of [model]: each field of
    the model is a field of the class and is populated under its own name,
    and the class converts back to [model] by [to_pydantic_default]. *)
Definition copies_every_field (st : store) (model : string) (cls : nat) : Prop :=
  ∃ k c,
    models st !! model = Some k
    ∧ classes st !! cls = Some c
    ∧ SchemaClass.to_pydantic c = Some (ToPydanticDefault model)
    ∧ ∀ item, item ∈ ModelClass.__fields__ k →
        ModelField.alias item.2 = ModelField.name item.2
        ∧ ModelField.name item.2 ∈ (SchemaClass.__dataclass_fields__ c).*1.*1.

(** The attributes [d] are those of an instance of [model]: one value per
    field, in the order of the fields, each of them a value that
    validation returns as it is. *)
Definition instance_of (st : store) (model : string)
    (d : list (string * value)) : Prop :=
  ∃ k, models st !! model = Some k
       ∧ d.*1 = map (fun item => ModelField.name item.2) (ModelClass.__fields__ k)
       ∧ NoDup d.*1
       ∧ ∀ item, item ∈ ModelClass.__fields__ k →
           validate item.2 (attribute_or_none d (ModelField.name item.2))
           = Some (attribute_or_none d (ModelField.name item.2)).

(** How deep lists, tuples and dicts are nested in a value. *)
Fixpoint containers_depth (v : value) : nat :=
  match v with
  | VList items | VTuple items => S (list_max (map containers_depth items))
  | VDict items =>
      S (list_max (map (fun item : string * value => containers_depth item.2) items))
  | _ => 0
  end.

(** A value in which the conversion to the model finds nothing to
    convert: no instance of a generated class, neither itself nor in a
    list, a tuple or a dict. *)
Fixpoint inert (v : value) : bool :=
  match v with
  | VObject _ _ => false
  | VList items | VTuple items => forallb inert items
  | VDict items => forallb (fun item : string * value => inert item.2) items
  | _ => true
  end.

(** The instance of [model] with the attributes [d] and the generated
    class [closed] fit, given
    what [fits] says of a field's type and value: the class copies every
    field, [d] holds valid values, and the value of each field of the
    class fits its type. *)
Definition instance_fits (fits : ty → value → Prop) (st : store)
    (closed : nat) (model : string) (d : list (string * value)) : Prop :=
  copies_every_field st model closed
  ∧ instance_of st model d
  ∧ ∀ c, classes st !! closed = Some c →
      ∀ f, f ∈ SchemaClass.__dataclass_fields__ c →
        fits f.1.2 (attribute_or_none d f.1.1).

(** A value [v] fits the type [type_] of a field, up to nesting depth [n]:
    under [Optional] it is [None] or fits the type inside, under a list
    type it is a list of values that fit, under a union it fits the
    member it is an instance of, under a generated class it is an
    instance of a model that fits the class by which it is converted, and
    the default [from_pydantic] of that class is kept; under any other
    type it is a value that the way back leaves alone. *)
Fixpoint fits (n : nat) (st : store) (type_ : ty) (v : value) : Prop :=
  match n with
  | O => False
  | S n' =>
      if is_optional type_
      then v = VNone ∨ fits n' st (optional_of_type type_) v
      else if is_union type_
      then
        match union_option st (default [] (__args__ type_)) v with
        | Ok (Some option_type) => fits n' st option_type v
        | Ok None => inert v = true ∧ (containers_depth v ≤ n')%nat
        | Raise _ => False
        end
      else
      match list_of_type type_ with
      | Some of_type =>
          ∃ items, v = VList items ∧ Forall (fits n' st of_type) items
      | None =>
          if has_type_definition st type_
          then
            ∃ model d nested closed,
              v = VModel model d
              ∧ default type_ (class_getattr st (TModel model) "_strawberry_type")
                = TSchema nested
              ∧ (c ← classes st !! nested; SchemaClass.from_pydantic c)
                = Some (FromPydanticDefault closed)
              ∧ instance_fits (fits n' st) st closed model d
          else inert v = true ∧ (containers_depth v ≤ n')%nat
      end
  end.

End conversion.

(** ** The conditions of the error, as stated and as they are *)

(** The condition under which the specification says that decoration
    raises [MissingFieldsListError]: [all_fields] is false, no non-empty
    [fields] list was passed, and no annotation of the class names a field
    of the model or is the auto marker. *)
Definition stated_missing_fields_condition (all_fields : bool)
    (fields : option (list string)) (existing_fields : list (string * ty))
    (model_fields : list (string * ModelField.t)) : Prop :=
  all_fields = false
  ∧ (fields = None ∨ fields = Some [])
  ∧ ∀ name typ, (name, typ) ∈ existing_fields →
      (name ∉ model_fields.*1) ∧ typ ≠ auto.

(** ** Exceptions of the stages *)

Definition is_missing_fields_list_error (e : exn) : Prop :=
  match e with
  | MissingFieldsListError _ => True
  | _ => False
  end.

(** ** Stores that the decorator has built *)

(** Every registration attribute of a model class holds a generated class
    of the store, and that class points back to the model. *)
Definition registrations_generated (st : store) : Prop :=
  ∀ m k is_input v,
    models st !! m = Some k →
    ModelClass.__dict__ k !! registration_attr is_input = Some v →
    ∃ a c, v = TSchema a
           ∧ classes st !! a = Some c
           ∧ SchemaClass._pydantic_type c = Some m.

(** ** Sample collaborators and classes

    Concrete stand-ins for the collaborators, and a small store, on which
    the statements below are evaluated. *)
Module Sample.

Definition get_basic_type (t : ty) : option ty :=
  match t with
  | TClass "pydantic.ConstrainedInt" => Some (TClass "int")
  | TClass "pydantic.EmailStr" => None
  | _ => Some t
  end.

Definition ensure_all_auto_fields_in_pydantic (st : store) (model : string)
    (auto_fields : gset string) (cls_name : string) : outcome unit :=
  match models st !! model with
  | Some k =>
      if bool_decide (auto_fields ⊆ list_to_set (ModelClass.__fields__ k).*1)
      then Returns tt
      else Fails "auto fields that are not in the model"
  | None => Fails "no such model"
  end.

Definition get_default_factory_for_field (field : ModelField.t)
    : outcome (option value) :=
  Returns (if ModelField.required field then None else Some (ModelField.default field)).

Definition get_private_fields (cls : PyClass.t) : outcome (list StrawberryField.t) :=
  Returns [].

Definition has_default (f : DataclassCreationFields.t) : bool :=
  match StrawberryField.default_factory (DataclassCreationFields.field f) with
  | Some _ => true
  | None => false
  end.

Definition sort_creation_fields (fs : list DataclassCreationFields.t)
    : outcome (list DataclassCreationFields.t) :=
  Returns (filter (fun f => has_default f = false) fs
      ++ filter (fun f => has_default f = true) fs).

Definition _wrap_dataclass (cls : PyClass.t) : outcome PyClass.t := Returns cls.

Definition _get_fields (cls : PyClass.t) : outcome (list StrawberryField.t) :=
  Returns (map (fun item : string * ty =>
             match assoc item.1 (PyClass.__dict__ cls) with
             | Some declared => declared
             | None =>
                 {| StrawberryField.python_name := item.1;
                    StrawberryField.graphql_name := None;
                    StrawberryField.default := None;
                    StrawberryField.default_factory := None;
                    StrawberryField.type_annotation := item.2;
                    StrawberryField.description := None;
                    StrawberryField.base_resolver := None |}
             end)
          (default [] (PyClass.__annotations__ cls))).

Definition _process_type (cls : SchemaClass.t) (name : option string)
    (is_input is_interface : bool) (description : option string)
    (directives : list string) : outcome TypeDefinition.t :=
  Returns {| TypeDefinition.name := default (SchemaClass.__name__ cls) name;
        TypeDefinition.is_input := is_input;
        TypeDefinition.is_interface := is_interface;
        TypeDefinition.description := description;
        TypeDefinition.directives := directives |}.

Definition decorate :=
  wrap get_basic_type ensure_all_auto_fields_in_pydantic
       get_default_factory_for_field get_private_fields sort_creation_fields
       _wrap_dataclass _get_fields _process_type.

Definition int : ty := TClass "int".
Definition str : ty := TClass "str".

Definition field (name : string) (type_ : ty) (required : bool) : ModelField.t :=
  {| ModelField.name := name;
     ModelField.alias := name;
     ModelField.has_alias := false;
     ModelField.outer_type_ := type_;
     ModelField.required := required;
     ModelField.default := VNone;
     ModelField.description := None |}.

(** [class User(BaseModel): age: int; password: Optional[str]] *)
Definition User : ModelClass.t :=
  {| ModelClass.__fields__ :=
       [("age", field "age" int true); ("password", field "password" str false)];
     ModelClass.__mro__ := [TModel "User"];
     ModelClass.__dict__ := ∅ |}.

(** [class Team(BaseModel): name: str; owner: User] *)
Definition Team : ModelClass.t :=
  {| ModelClass.__fields__ :=
       [("name", field "name" str true);
        ("owner", field "owner" (TModel "User") true)];
     ModelClass.__mro__ := [TModel "Team"];
     ModelClass.__dict__ := ∅ |}.

(** [class Empty(BaseModel): pass] *)
Definition Empty : ModelClass.t :=
  {| ModelClass.__fields__ := [];
     ModelClass.__mro__ := [TModel "Empty"];
     ModelClass.__dict__ := ∅ |}.

Definition st0 : store :=
  {| models := {["User" := User; "Team" := Team; "Empty" := Empty]};
     classes := [] |}.

Definition class_ (name : string) (annotations : option (list (string * ty)))
    : PyClass.t :=
  {| PyClass.__name__ := name;
     PyClass.__annotations__ := annotations;
     PyClass.__bases__ := [TClass "object"];
     PyClass.__dict__ := [] |}.

(** [class UserType: age: strawberry.auto] *)
Definition UserType : PyClass.t := class_ "UserType" (Some [("age", auto)]).

(** [class AllUserType: pass] *)
Definition AllUserType : PyClass.t := class_ "AllUserType" None.

(** [class TeamType: name: strawberry.auto; owner: strawberry.auto] *)
Definition TeamType : PyClass.t :=
  class_ "TeamType" (Some [("name", auto); ("owner", auto)]).

(** [class NickType: nickname: strawberry.auto] *)
Definition NickType : PyClass.t := class_ "NickType" (Some [("nickname", auto)]).

(** [class EmptyType: pass] *)
Definition EmptyType : PyClass.t := class_ "EmptyType" None.

(** [@type(model)], [@type(model, all_fields=True)] *)
Definition plain (model : string) (cls : PyClass.t) : M nat :=
  decorate model None None false false None [] false None None cls.

Definition with_all_fields (model : string) (cls : PyClass.t) : M nat :=
  decorate model None None false false None [] true None None cls.

(** The store after [UserType] is decorated, which copies [age] only. *)
Definition st_partial : store := (plain "User" UserType st0).2.

(** The store after [AllUserType] is decorated with [all_fields], and
    then after [TeamType] is decorated too. *)
Definition st_user : store := (with_all_fields "User" AllUserType st0).2.
Definition st_team : store := (plain "Team" TeamType st_user).2.

(** A validation that accepts an [int] and the digits of one for a field
    of type [int], turning the digits into the number, and leaves any other
    field to its value. *)
Definition validate (field : ModelField.t) (v : value) : option value :=
  match ModelField.outer_type_ field with
  | TClass "int" =>
      match v with
      | VAtom "int" _ => Some v
      | VAtom "str" digits => Some (VAtom "int" digits)
      | _ => None
      end
  | _ => Some v
  end.

Definition alice : value :=
  VModel "User" [("age", VAtom "int" "1"); ("password", VAtom "str" "abc")].

Definition core_team : value :=
  VModel "Team" [("name", VAtom "str" "core"); ("owner", alice)].

(** The fields of the generated class at an address. *)
Definition generated_fields (st : store) (addr : nat)
    : list (string * ty * StrawberryField.t) :=
  match classes st !! addr with
  | Some c => SchemaClass.__dataclass_fields__ c
  | None => []
  end.

(** [@input(model, all_fields=True)], and the store after [AllUserType] is
    decorated as a type and then as an input. *)
Definition as_input (model : string) (cls : PyClass.t) : M nat :=
  decorate model None None true false None [] true None None cls.

Definition st_both : store := (as_input "User" AllUserType st_user).2.

(** [class PasswordType: password: strawberry.auto], which leaves out the
    required [age]. *)
Definition PasswordType : PyClass.t :=
  class_ "PasswordType" (Some [("password", auto)]).

Definition st_password : store := (plain "User" PasswordType st0).2.

(** [class Admin(User): pass], added to the store in which [User] is
    registered. *)
Definition Admin : ModelClass.t :=
  {| ModelClass.__fields__ := ModelClass.__fields__ User;
     ModelClass.__mro__ := [TModel "Admin"; TModel "User"];
     ModelClass.__dict__ := ∅ |}.

Definition st_admin : store :=
  {| models := <["Admin" := Admin]> (models st_user);
     classes := classes st_user |}.

(** [age: int = strawberry.field(resolver=resolve_age)] *)
Definition resolved_age : StrawberryField.t :=
  {| StrawberryField.python_name := "age";
     StrawberryField.graphql_name := None;
     StrawberryField.default := None;
     StrawberryField.default_factory := None;
     StrawberryField.type_annotation := str;
     StrawberryField.description := None;
     StrawberryField.base_resolver := Some "resolve_age" |}.

(** A default factory that cannot be had. *)
Definition no_default_factory (field : ModelField.t) : outcome (option value) :=
  Fails "default and default_factory are both defined".

(** Converters of the caller. *)
Definition from_custom (instance extra : value) : result value :=
  Ok (VObject 0 [("age", VAtom "int" "0")]).

Definition to_custom (self : value) : result value := Ok alice.

Definition st_custom : store :=
  (decorate "User" None None false false None [] true
     (Some from_custom) (Some to_custom) AllUserType st0).2.

(** The keyword [all_fields=True] alone, and [input] and [interface] on
    the sample collaborators. *)
Definition only_all_fields : Keywords.t :=
  {| Keywords.fields := None; Keywords.name := None;
     Keywords.is_input := None; Keywords.is_interface := None;
     Keywords.description := None; Keywords.directives := None;
     Keywords.all_fields := Some true;
     Keywords.from_pydantic := None; Keywords.to_pydantic := None |}.

Definition input_ : string → Keywords.t → PyClass.t → M nat :=
  input get_basic_type ensure_all_auto_fields_in_pydantic
    get_default_factory_for_field get_private_fields sort_creation_fields
    _wrap_dataclass _get_fields _process_type.

Definition interface_ : string → Keywords.t → PyClass.t → M nat :=
  interface get_basic_type ensure_all_auto_fields_in_pydantic
    get_default_factory_for_field get_private_fields sort_creation_fields
    _wrap_dataclass _get_fields _process_type.

End Sample.

(** * Properties *)

(** ** Auxiliary facts *)

Lemma ty_eqb_args_eq (xs : list ty) :
  Forall (fun a => ∀ b, ty_eqb a b = true ↔ a = b) xs →
  ∀ ys,
    (fix all2 (xs ys : list ty) {struct xs} : bool :=
       match xs, ys with
       | [], [] => true
       | x :: xs', y :: ys' => ty_eqb x y && all2 xs' ys'
       | _, _ => false
       end) xs ys = true ↔ xs = ys.
Proof.
  induction 1 as [|x xs Hx _ IH]; intros [|y ys]; try (split; [discriminate|discriminate]).
  - split; reflexivity.
  - rewrite andb_true_iff, Hx, IH. split.
    + intros [-> ->]. reflexivity.
    + intros [= -> ->]. split; reflexivity.
Qed.

Lemma ty_eqb_eq (a b : ty) : ty_eqb a b = true ↔ a = b.
Proof.
  revert b.
  induction a as [n|n|i|r|vs|o args IH|o args IH|n|n d IH] using ty_nested_ind;
    intros [m|m|j|s|ws|p ys|p ys|m|m e]; simpl;
    try (split; [discriminate|discriminate]).
  - rewrite String.eqb_eq. split; congruence.
  - rewrite String.eqb_eq. split; congruence.
  - rewrite Nat.eqb_eq. split; congruence.
  - rewrite String.eqb_eq. split; congruence.
  - rewrite bool_decide_eq_true. split; congruence.
  - rewrite andb_true_iff, String.eqb_eq, (ty_eqb_args_eq args IH ys).
    split; [intros [-> ->]; reflexivity | intros [= -> ->]; split; reflexivity].
  - rewrite andb_true_iff, String.eqb_eq, (ty_eqb_args_eq args IH ys).
    split; [intros [-> ->]; reflexivity | intros [= -> ->]; split; reflexivity].
  - rewrite String.eqb_eq. split; congruence.
  - rewrite andb_true_iff, String.eqb_eq, IH.
    split; [intros [-> ->]; reflexivity | intros [= -> ->]; split; reflexivity].
Qed.

Lemma isinstance_spec (st : store) (obj : value) (c : ty) :
  isinstance st obj c = true ↔ c ∈ mro st (type_of obj).
Proof.
  unfold isinstance. rewrite existsb_exists. split.
  - intros (x & Hin & Heq). apply ty_eqb_eq in Heq. subst x.
    apply list_elem_of_In. exact Hin.
  - intros Hin. exists c. split; [apply list_elem_of_In; exact Hin | apply ty_eqb_eq; reflexivity].
Qed.

Lemma is_auto_spec (typ : ty) : is_auto typ = true ↔ typ = auto.
Proof.
  unfold auto. destruct typ; simpl; try (split; [discriminate|discriminate]).
  rewrite String.eqb_eq. split; congruence.
Qed.

(** The inner loop of [replace_pydantic_types] is the comprehension. *)
Lemma replace_args_for_each (st : store) (is_input : bool) (args : list ty) :
  (fix each (ts : list ty) : result (list ty) :=
     match ts with
     | [] => Ok []
     | t :: rest =>
         let* t' := replace_pydantic_types st t is_input in
         let* rest' := each rest in
         Ok (t' :: rest')
     end) args
  = for_each (fun t => replace_pydantic_types st t is_input) args.
Proof. induction args as [|t rest IH]; simpl; [reflexivity | rewrite IH; reflexivity]. Qed.

Lemma for_each_Forall2 {A B} (f : A → result B) (xs : list A) (ys : list B) :
  for_each f xs = Ok ys ↔ Forall2 (fun x y => f x = Ok y) xs ys.
Proof.
  revert ys. induction xs as [|x rest IH]; intros ys; simpl.
  - split.
    + intros [= <-]. constructor.
    + intros H. inversion H. reflexivity.
  - split.
    + destruct (f x) as [y|e] eqn:Hx; simpl; [|discriminate].
      destruct (for_each f rest) as [ys'|e] eqn:Hr; simpl; [|discriminate].
      intros [= <-]. constructor; [exact Hx | apply IH; reflexivity].
    + intros H. inversion H as [|? y ? ys' Hx Hr]; subst.
      rewrite Hx. simpl. apply IH in Hr. rewrite Hr. reflexivity.
Qed.

Lemma models_walked_args (args : list ty) :
  (fix each (ts : list ty) : list string :=
     match ts with
     | [] => []
     | t :: rest => models_walked t ++ each rest
     end) args
  = flat_map models_walked args.
Proof. induction args as [|t rest IH]; simpl; [reflexivity | rewrite IH; reflexivity]. Qed.

Lemma walkable_args (args : list ty) :
  (fix each (ts : list ty) : bool :=
     match ts with
     | [] => true
     | t :: rest => walkable t && each rest
     end) args
  = forallb walkable args.
Proof. induction args as [|t rest IH]; simpl; [reflexivity | rewrite IH; reflexivity]. Qed.

(** The walk fails in three ways: on an unregistered model that it meets,
    on a generic without [copy_with], and on an object that is no class. *)
Lemma replace_pydantic_types_raises (st : store) (type_ : ty) (is_input : bool)
    (e : exn) :
  replace_pydantic_types st type_ is_input = Raise e →
  (∃ name, e = UnregisteredTypeException name
           ∧ name ∈ models_walked type_
           ∧ class_getattr st (TModel name) (registration_attr is_input) = None)
  ∨ ((e = AttributeError "copy_with"
      ∨ e = TypeError "issubclass() arg 1 must be a class")
     ∧ walkable type_ = false).
Proof.
  revert e.
  induction type_ as [n|n|a|r|vs|o args IH|o args IH|n|n d IH] using ty_nested_ind;
    intros e; simpl; try discriminate.
  - destruct (class_getattr _ _ _) eqn:Hattr; [discriminate|]. intros [= <-].
    left. exists n. split; [reflexivity|]. split; [left | exact Hattr].
  - intros [= <-]. right. split; [right|]; reflexivity.
  - rewrite replace_args_for_each, models_walked_args, walkable_args.
    destruct (for_each _ args) as [args'|e'] eqn:Hfor; simpl;
      [destruct (isinstance_TypeDefinition _); discriminate|].
    intros [= <-]. clear - IH Hfor.
    induction IH as [|t rest Ht _ IHrest]; simpl in Hfor; [discriminate|].
    destruct (replace_pydantic_types st t is_input) eqn:Hrt; simpl in Hfor.
    + destruct (for_each _ rest) eqn:Hrest; simpl in Hfor; [discriminate|].
      injection Hfor as <-.
      destruct (IHrest eq_refl) as [(name & -> & Hin & Hnone)|[He Hw]].
      * left. exists name. split; [reflexivity|]. split; [|exact Hnone].
        simpl. apply elem_of_app. right. exact Hin.
      * right. split; [exact He|]. simpl. rewrite Hw. apply andb_false_r.
    + injection Hfor as <-.
      destruct (Ht _ eq_refl) as [(name & -> & Hin & Hnone)|[He Hw]].
      * left. exists name. split; [reflexivity|]. split; [|exact Hnone].
        simpl. apply elem_of_app. left. exact Hin.
      * right. split; [exact He|]. simpl. rewrite Hw. reflexivity.
  - intros [= <-]. right. split; [left|]; reflexivity.
  - intros [= <-]. right. split; [right|]; reflexivity.
Qed.

Lemma for_each_app {A B} (f : A → result B) (xs ys : list A) :
  for_each f (xs ++ ys)
  = let* a := for_each f xs in
    let* b := for_each f ys in
    Ok (a ++ b).
Proof.
  induction xs as [|x rest IH]; simpl.
  - destruct (for_each f ys); reflexivity.
  - destruct (f x); simpl; [|reflexivity]. rewrite IH.
    destruct (for_each f rest); simpl; [|reflexivity].
    destruct (for_each f ys); reflexivity.
Qed.

Lemma for_each_Ok_elem {A B} (f : A → result B) (xs : list A) (ys : list B)
    (x : A) :
  for_each f xs = Ok ys → x ∈ xs → ∃ y, f x = Ok y.
Proof.
  revert ys. induction xs as [|x0 rest IH]; intros ys Hfor Hin; [inversion Hin|].
  simpl in Hfor. destruct (f x0) as [y0|] eqn:Hx0; simpl in Hfor; [|discriminate].
  destruct (for_each f rest) as [ys'|] eqn:Hrest; simpl in Hfor; [|discriminate].
  apply elem_of_cons in Hin as [->|Hin]; [eauto | exact (IH ys' eq_refl Hin)].
Qed.

Lemma elem_of_flat_map_walked (name : string) (args : list ty) :
  name ∈ flat_map models_walked args ↔ ∃ t, t ∈ args ∧ name ∈ models_walked t.
Proof.
  rewrite list_elem_of_In, in_flat_map. split.
  - intros (t & Hin & Hname). exists t.
    split; apply list_elem_of_In; assumption.
  - intros (t & Hin & Hname). exists t.
    split; apply list_elem_of_In; assumption.
Qed.

(** The substitution of a generic that has [copy_with], as one equation. *)
Lemma replace_generic (st : store) (is_input : bool) (origin : string)
    (args : list ty) :
  replace_pydantic_types st (TGeneric origin args) is_input
  = let* replaced_args :=
      for_each (fun t => replace_pydantic_types st t is_input) args in
    let replaced_type := copy_with (TGeneric origin args) replaced_args in
    Ok (if isinstance_TypeDefinition replaced_type
        then TSynth (definition_name replaced_type) replaced_type
        else replaced_type).
Proof.
  simpl. rewrite replace_args_for_each.
  destruct (for_each _ args); simpl; [|reflexivity].
  destruct (isinstance_TypeDefinition _); reflexivity.
Qed.

Lemma hasattr_false (st : store) (c : ty) (attr : string) :
  hasattr st c attr = false ↔ class_getattr st c attr = None.
Proof.
  unfold hasattr. rewrite bool_decide_eq_false. split.
  - intros H. destruct (class_getattr st c attr); [|reflexivity].
    exfalso. apply H. eexists. reflexivity.
  - intros -> [x Hx]. discriminate.
Qed.

(** ** Type substitution *)

(** C5: on a [BaseModel] subclass, [replace_pydantic_types] looks for
    [_strawberry_input_type] when an input type is built and for
    [_strawberry_type] otherwise; without the attribute it raises
    [UnregisteredTypeException], with it it returns the registered type.
    The same holds for a model met among the arguments of a generic that
    has [copy_with], once the arguments before it are substituted: without
    the attribute the whole substitution raises the exception, with it the
    registered type stands in the rebuilt generic at the model's place.  No
    type in which the walk meets a model without the attribute is
    substituted, and the exception names only such a model. *)
Theorem replace_pydantic_types_registration (st : store) (name : string)
    (is_input : bool) :
  (hasattr st (TModel name)
     (if is_input then "_strawberry_input_type" else "_strawberry_type") = false →
   replace_pydantic_types st (TModel name) is_input
   = Raise (UnregisteredTypeException name))
  ∧ (∀ registered,
       class_getattr st (TModel name)
         (if is_input then "_strawberry_input_type" else "_strawberry_type")
       = Some registered →
       replace_pydantic_types st (TModel name) is_input = Ok registered)
  ∧ (∀ origin before after replaced_before,
       Forall2 (fun t t' => replace_pydantic_types st t is_input = Ok t')
               before replaced_before →
       hasattr st (TModel name)
         (if is_input then "_strawberry_input_type" else "_strawberry_type") = false →
       replace_pydantic_types st
         (TGeneric origin (before ++ TModel name :: after)) is_input
       = Raise (UnregisteredTypeException name))
  ∧ (∀ origin before after replaced_before replaced_after registered,
       Forall2 (fun t t' => replace_pydantic_types st t is_input = Ok t')
               before replaced_before →
       Forall2 (fun t t' => replace_pydantic_types st t is_input = Ok t')
               after replaced_after →
       class_getattr st (TModel name)
         (if is_input then "_strawberry_input_type" else "_strawberry_type")
       = Some registered →
       replace_pydantic_types st
         (TGeneric origin (before ++ TModel name :: after)) is_input
       = let replaced_type :=
           copy_with (TGeneric origin (before ++ TModel name :: after))
                     (replaced_before ++ registered :: replaced_after) in
         Ok (if isinstance_TypeDefinition replaced_type
             then TSynth (definition_name replaced_type) replaced_type
             else replaced_type))
  ∧ (∀ type_,
       name ∈ models_walked type_ →
       hasattr st (TModel name)
         (if is_input then "_strawberry_input_type" else "_strawberry_type") = false →
       ∃ e, replace_pydantic_types st type_ is_input = Raise e)
  ∧ (∀ type_,
       replace_pydantic_types st type_ is_input
       = Raise (UnregisteredTypeException name) →
       name ∈ models_walked type_
       ∧ hasattr st (TModel name)
           (if is_input then "_strawberry_input_type" else "_strawberry_type")
         = false).
Proof.
  change (if is_input then "_strawberry_input_type" else "_strawberry_type")
    with (registration_attr is_input).
  assert (Hbare : hasattr st (TModel name) (registration_attr is_input) = false →
                  replace_pydantic_types st (TModel name) is_input
                  = Raise (UnregisteredTypeException name)).
  { intros H. apply hasattr_false in H. simpl. rewrite H. reflexivity. }
  assert (Hreg : ∀ registered,
             class_getattr st (TModel name) (registration_attr is_input)
             = Some registered →
             replace_pydantic_types st (TModel name) is_input = Ok registered).
  { intros registered H. simpl. rewrite H. reflexivity. }
  split; [exact Hbare|]. split; [exact Hreg|]. split; [|split; [|split]].
  - intros origin before after rb Hbefore Hno.
    rewrite replace_generic, for_each_app.
    apply for_each_Forall2 in Hbefore. rewrite Hbefore. cbn [bind for_each].
    rewrite (Hbare Hno). reflexivity.
  - intros origin before after rb ra registered Hbefore Hafter Hattr.
    rewrite replace_generic, for_each_app.
    apply for_each_Forall2 in Hbefore. rewrite Hbefore. cbn [bind for_each].
    rewrite (Hreg _ Hattr). apply for_each_Forall2 in Hafter. rewrite Hafter.
    reflexivity.
  - intros type_.
    induction type_ as [n|n|a|r|vs|o args IH|o args IH|n|n d IH]
      using ty_nested_ind; intros Hin Hno; simpl in Hin;
      try (inversion Hin; fail).
    + apply list_elem_of_singleton in Hin as <-. eexists. exact (Hbare Hno).
    + rewrite models_walked_args in Hin.
      apply elem_of_flat_map_walked in Hin as (t & Ht & Hname).
      rewrite replace_generic.
      destruct (for_each _ args) as [replaced_args|e] eqn:Hfor;
        [|eexists; reflexivity].
      exfalso. destruct (for_each_Ok_elem _ _ _ t Hfor Ht) as [t' Hok].
      rewrite Forall_forall in IH. destruct (IH t Ht Hname Hno) as [e He].
      congruence.
  - intros type_ Hraise.
    apply replace_pydantic_types_raises in Hraise
      as [(n & [= <-] & Hin & Hnone)|[[He|He] _]]; [|discriminate..].
    split; [exact Hin | apply hasattr_false; exact Hnone].
Qed.


(** ** Field types *)

(** C8: the type of an auto field is the substituted basic type of the
    pydantic field, under [Optional] exactly when the field is not
    required. *)
Theorem get_type_for_field_optional (get_basic_type : ty → option ty)
    (st : store) (field : ModelField.t) (is_input : bool)
    (basic substituted : ty) :
  get_basic_type (ModelField.outer_type_ field) = Some basic →
  replace_pydantic_types st basic is_input = Ok substituted →
  get_type_for_field get_basic_type st field is_input
  = Ok (if ModelField.required field then substituted else Optional substituted).
Proof.
  intros Hbasic Hreplaced. unfold get_type_for_field.
  rewrite Hbasic. simpl. rewrite Hreplaced. simpl.
  destruct (ModelField.required field); reflexivity.
Qed.

(** C4: the creation record of a field in the auto set carries the type
    computed by [get_type_for_field]; that of a copied field outside the
    auto set carries the type of the user's existing field. *)
Theorem build_dataclass_creation_fields_type
    (get_basic_type : ty → option ty)
    (get_default_factory_for_field : ModelField.t → outcome (option value))
    (st : store) (field : ModelField.t) (is_input : bool)
    (existing_fields : gmap string StrawberryField.t)
    (auto_fields_set : gset string) :
  let build :=
    _build_dataclass_creation_fields get_basic_type get_default_factory_for_field
      st field is_input existing_fields auto_fields_set in
  (ModelField.name field ∈ auto_fields_set →
     (∀ created, build = Ok created →
        get_type_for_field get_basic_type st field is_input
        = Ok (DataclassCreationFields.type_annotation created))
     ∧ (∀ t factory,
          get_type_for_field get_basic_type st field is_input = Ok t →
          get_default_factory_for_field field = Returns factory →
          ∃ created, build = Ok created
                     ∧ DataclassCreationFields.type_annotation created = t))
  ∧ (ModelField.name field ∉ auto_fields_set →
     (∀ created, build = Ok created →
        ∃ existing, existing_fields !! ModelField.name field = Some existing
                    ∧ DataclassCreationFields.type_annotation created
                      = StrawberryField.type existing)
     ∧ (∀ existing factory,
          existing_fields !! ModelField.name field = Some existing →
          get_default_factory_for_field field = Returns factory →
          ∃ created, build = Ok created
                     ∧ DataclassCreationFields.type_annotation created
                       = StrawberryField.type existing)).
Proof.
  intros build. subst build. unfold _build_dataclass_creation_fields.
  split; intros Hauto.
  - rewrite (bool_decide_eq_true_2 _ Hauto). split.
    + intros created.
      destruct (get_type_for_field _ _ _ _) as [t|e]; simpl; [|discriminate].
      destruct (existing_fields !! ModelField.name field) as [ex|];
        [destruct (StrawberryField.base_resolver ex)|];
        simpl; try destruct (get_default_factory_for_field field); simpl;
        intros [= <-]; reflexivity.
    + intros t factory -> Hfactory. simpl. rewrite Hfactory. simpl.
      destruct (existing_fields !! ModelField.name field) as [ex|];
        [destruct (StrawberryField.base_resolver ex)|];
        simpl; eexists; (split; [reflexivity|reflexivity]).
  - rewrite (bool_decide_eq_false_2 _ Hauto). split.
    + intros created.
      destruct (existing_fields !! ModelField.name field) as [ex|];
        simpl; [|discriminate].
      destruct (StrawberryField.base_resolver ex);
        simpl; try destruct (get_default_factory_for_field field); simpl;
        intros [= <-]; exists ex; (split; reflexivity).
    + intros ex factory -> Hfactory. simpl. rewrite Hfactory. simpl.
      destruct (StrawberryField.base_resolver ex);
        simpl; eexists; (split; [reflexivity|reflexivity]).
Qed.

(** ** Field-set reconciliation *)

Lemma elem_of_original_fields_set (fields : option (list string)) (x : string) :
  x ∈ original_fields_set fields ↔ x ∈ default [] fields.
Proof.
  destruct fields as [[|f rest]|]; simpl.
  - rewrite elem_of_nil. set_solver.
  - rewrite elem_of_union, elem_of_singleton, elem_of_list_to_set, elem_of_cons.
    reflexivity.
  - rewrite elem_of_nil. set_solver.
Qed.

Lemma elem_of_fields_set_of (model_fields : list (string * ModelField.t))
    (fields : option (list string)) (existing_fields : list (string * ty))
    (all_fields : bool) (x : string) :
  x ∈ fields_set_of model_fields fields existing_fields all_fields
  ↔ if all_fields then x ∈ model_fields.*1
    else x ∈ default [] fields ∨ (x ∈ existing_fields.*1 ∧ x ∈ model_fields.*1).
Proof.
  unfold fields_set_of, keys. destruct all_fields.
  - apply elem_of_list_to_set.
  - rewrite elem_of_union, elem_of_original_fields_set, elem_of_list_to_set,
      list_elem_of_filter. tauto.
Qed.

Lemma elem_of_auto_fields_set_of (model_fields : list (string * ModelField.t))
    (fields : option (list string)) (existing_fields : list (string * ty))
    (all_fields : bool) (x : string) :
  x ∈ auto_fields_set_of model_fields fields existing_fields all_fields
  ↔ if all_fields then x ∈ model_fields.*1
    else x ∈ default [] fields ∨ (x, auto) ∈ existing_fields.
Proof.
  unfold auto_fields_set_of, keys. destruct all_fields.
  - apply elem_of_list_to_set.
  - rewrite elem_of_union, elem_of_original_fields_set, elem_of_list_to_set,
      list_elem_of_fmap.
    split; (intros [H|H]; [left; exact H | right]).
    + destruct H as ([n typ] & -> & Hin). apply list_elem_of_filter in Hin.
      destruct Hin as [Hauto Hin]. simpl in *.
      apply Is_true_true, is_auto_spec in Hauto. subst typ. exact Hin.
    + exists (x, auto). split; [reflexivity|].
      apply list_elem_of_filter. split; [exact I | exact H].
Qed.

Lemma fields_set_empty_iff (model_fields : list (string * ModelField.t))
    (fields : option (list string)) (existing_fields : list (string * ty))
    (all_fields : bool) :
  fields_set_of model_fields fields existing_fields all_fields = ∅
  ↔ (all_fields = false
     ∧ (fields = None ∨ fields = Some [])
     ∧ (∀ name, name ∈ existing_fields.*1 → name ∉ model_fields.*1))
    ∨ (all_fields = true ∧ model_fields = []).
Proof.
  pose proof (elem_of_fields_set_of model_fields fields existing_fields all_fields)
    as Hin.
  destruct all_fields.
  - split.
    + intros Hempty. right. split; [reflexivity|].
      destruct model_fields as [|[n f] rest]; [reflexivity|].
      exfalso. assert (Hn : n ∈ (∅ : gset string)).
      { rewrite <- Hempty. apply Hin. left. }
      revert Hn. apply not_elem_of_empty.
    + intros [[[=] _]|[_ ->]]. reflexivity.
  - split.
    + intros Hempty. left. split; [reflexivity|]. split.
      * destruct fields as [[|f rest]|]; [right; reflexivity| |left; reflexivity].
        exfalso. assert (Hf : f ∈ (∅ : gset string)).
        { rewrite <- Hempty. apply Hin. left. left. }
        revert Hf. apply not_elem_of_empty.
      * intros n Hn Hmodel. assert (Hn' : n ∈ (∅ : gset string)).
        { rewrite <- Hempty. apply Hin. right. split; assumption. }
        revert Hn'. apply not_elem_of_empty.
    + intros [(_ & Hfields & Hnone)|[[=] _]].
      apply set_eq. intros x. rewrite Hin. split.
      * intros [Hx|[Hx Hm]].
        -- destruct Hfields as [-> | ->]; simpl in Hx; inversion Hx.
        -- exfalso. exact (Hnone x Hx Hm).
      * intros Hx. exfalso. revert Hx. apply not_elem_of_empty.
Qed.

(** ** The two conversions *)

Lemma assoc_cons_ne {A} (k name : string) (v : A) (rest : list (string * A)) :
  k ≠ name → assoc name ((k, v) :: rest) = assoc name rest.
Proof. intros H. simpl. apply String.eqb_neq in H. rewrite H. reflexivity. Qed.

Lemma assoc_cons_eq {A} (name : string) (v : A) (rest : list (string * A)) :
  assoc name ((name, v) :: rest) = Some v.
Proof. simpl. rewrite String.eqb_refl. reflexivity. Qed.

Lemma attributes_rebuilt (d : list (string * value)) :
  NoDup d.*1 → map (fun name => (name, attribute_or_none d name)) d.*1 = d.
Proof.
  induction d as [|[k v] rest IH]; intros Hnodup; [reflexivity|].
  simpl in Hnodup. apply NoDup_cons in Hnodup as [Hk Hrest].
  cbn [fmap list_fmap map fst]. f_equal.
  - unfold attribute_or_none. rewrite assoc_cons_eq. reflexivity.
  - rewrite <- (IH Hrest) at 2. apply map_ext_in. intros name Hin.
    unfold attribute_or_none. rewrite assoc_cons_ne; [reflexivity|].
    intros ->. apply Hk. apply list_elem_of_In. exact Hin.
Qed.

Lemma for_each_map {A B} (f : A → result B) (g : A → B) (xs : list A) :
  (∀ x, x ∈ xs → f x = Ok (g x)) → for_each f xs = Ok (map g xs).
Proof.
  induction xs as [|x rest IH]; intros H; [reflexivity|].
  simpl. rewrite (H x) by left. simpl.
  rewrite IH; [reflexivity|]. intros y Hy. apply H. right. exact Hy.
Qed.

Lemma for_each_exists {A B} (f : A → result B) (R : A → B → Prop) (xs : list A) :
  (∀ x, x ∈ xs → ∃ y, f x = Ok y ∧ R x y) →
  ∃ ys, for_each f xs = Ok ys ∧ Forall2 R xs ys.
Proof.
  induction xs as [|x rest IH]; intros H.
  - exists []. split; [reflexivity | constructor].
  - destruct (H x) as (y & Hy & Hr); [left|].
    destruct IH as (ys & Hys & Hrs); [intros z Hz; apply H; right; exact Hz|].
    exists (y :: ys). simpl. rewrite Hy. simpl. rewrite Hys. simpl.
    split; [reflexivity | constructor; assumption].
Qed.

Lemma dict_lookup_map {A} (h : string → A) (names : list string) (a : string) :
  dict (map (fun name => (name, h name)) names) !! a
  = if decide (a ∈ names) then Some (h a) else None.
Proof.
  unfold dict.
  assert (H : ∀ acc : gmap string A,
    foldl (fun d item => <[item.1 := item.2]> d) acc
          (map (fun name => (name, h name)) names) !! a
    = if decide (a ∈ names) then Some (h a) else acc !! a).
  { induction names as [|n rest IH]; intros acc; simpl.
    - reflexivity.
    - rewrite IH. destruct (decide (a ∈ rest)) as [Hin|Hnin].
      + rewrite decide_True by (right; exact Hin). reflexivity.
      + destruct (decide (a = n)) as [->|Hne].
        * rewrite decide_True by left. apply lookup_insert_eq.
        * rewrite decide_False; [apply lookup_insert_ne; congruence|].
          intros Hin. apply elem_of_cons in Hin as [?|?]; contradiction. }
  rewrite H. destruct (decide (a ∈ names)); [reflexivity | apply lookup_empty].
Qed.

Lemma assoc_related {A} (name : A → string) (R : string → value → Prop)
    (fs : list A) (kwargs : list (string * value)) :
  Forall2 (fun f kv => kv.1 = name f ∧ R (name f) kv.2) fs kwargs →
  ∀ f, f ∈ fs → ∃ y, assoc (name f) kwargs = Some y ∧ R (name f) y.
Proof.
  induction 1 as [|f0 [k0 y0] fs kwargs [Hk Hr] _ IH]; intros f Hin.
  - inversion Hin.
  - simpl in Hk. subst k0. simpl.
    destruct (String.eqb (name f0) (name f)) eqn:Heq.
    + apply String.eqb_eq in Heq. rewrite <- Heq. eauto.
    + apply elem_of_cons in Hin as [->|Hin].
      * rewrite String.eqb_refl in Heq. discriminate.
      * apply IH. exact Hin.
Qed.

(** The conversion to the model leaves an inert value as it is. *)
Lemma inert_converts_to_itself validate (st : store) (fuel : nat) :
  ∀ v, inert v = true → (containers_depth v < fuel)%nat →
       convert_strawberry_class_to_pydantic_model validate fuel st v = Ok v.
Proof.
  induction fuel as [|fuel IH]; intros v Hinert Hdepth; [lia|].
  destruct v as [|c r|items|items|items|m d|a d];
    try reflexivity; try discriminate;
    cbn [convert_strawberry_class_to_pydantic_model];
    cbn [inert containers_depth] in Hinert, Hdepth;
    apply PeanoNat.lt_S_n in Hdepth;
    rewrite (for_each_map _ (fun x => x)); try (rewrite map_id; reflexivity).
  - intros x Hx. apply IH.
    + rewrite forallb_forall in Hinert. apply Hinert, list_elem_of_In, Hx.
    + eapply Nat.le_lt_trans; [|exact Hdepth].
      assert (Hle := proj1 (list_max_le (map containers_depth items) _)
                       (Nat.le_refl _)).
      rewrite List.Forall_forall in Hle. apply Hle, in_map, list_elem_of_In, Hx.
  - intros x Hx. apply IH.
    + rewrite forallb_forall in Hinert. apply Hinert, list_elem_of_In, Hx.
    + eapply Nat.le_lt_trans; [|exact Hdepth].
      assert (Hle := proj1 (list_max_le (map containers_depth items) _)
                       (Nat.le_refl _)).
      rewrite List.Forall_forall in Hle. apply Hle, in_map, list_elem_of_In, Hx.
  - intros [key x] Hx. rewrite IH; [reflexivity| |].
    + rewrite forallb_forall in Hinert.
      exact (Hinert (key, x) (proj1 (list_elem_of_In _ _) Hx)).
    + eapply Nat.le_lt_trans; [|exact Hdepth].
      assert (Hle := proj1 (list_max_le
                (map (fun item : string * value => containers_depth item.2) items) _)
                (Nat.le_refl _)).
      rewrite List.Forall_forall in Hle.
      apply (Hle (containers_depth x)).
      apply (in_map (fun item : string * value => containers_depth item.2) items (key, x)).
      apply list_elem_of_In, Hx.
Qed.

Lemma data_of_model_value (v : value) : (if is_None v then VNone else v) = v.
Proof. destruct v; reflexivity. Qed.

Lemma for_each_enumerate {A B} (g : A → result B) (f : nat * A → result B)
    (xs : list A) (start : nat) :
  (∀ i x, f (i, x) = g x) →
  for_each f (zip (seq start (length xs)) xs) = for_each g xs.
Proof.
  intros H. revert start. induction xs as [|x rest IH]; intros start; [reflexivity|].
  simpl. rewrite H, IH. reflexivity.
Qed.

Lemma for_each_back {A B} (f : B → result A) (xs : list A) (ws : list B) :
  Forall2 (fun x w => f w = Ok x) xs ws → for_each f ws = Ok xs.
Proof. intros H. apply for_each_Forall2, Forall2_flip. exact H. Qed.

(** An instance that fits its class converts to the class and back, once
    the values of its fields do. *)
Lemma instance_round_trip validate (st : store) (n : nat) :
  (∀ type_ v, fits validate n st type_ v →
     ∀ fuel, (2 * n ≤ fuel)%nat →
       ∃ w, _convert_from_pydantic_to_strawberry_type fuel st type_ v VNone = Ok w
            ∧ ∀ fuel', (n ≤ fuel')%nat →
                convert_strawberry_class_to_pydantic_model validate fuel' st w
                = Ok v) →
  ∀ closed model d,
    instance_fits validate (fits validate n st) st closed model d →
    ∀ fuel, (2 * n + 1 ≤ fuel)%nat →
      ∃ kwargs,
        convert_pydantic_model_to_strawberry_class fuel st closed
          (VModel model d) VNone
        = Ok (VObject closed kwargs)
        ∧ ∀ fuel', (n ≤ fuel')%nat →
            to_pydantic_default_with validate
              (convert_strawberry_class_to_pydantic_model validate fuel' st)
              st model (VObject closed kwargs)
            = Ok (VModel model d).
Proof.
  intros IH closed model d (Hcopies & Hinstance & Hfits) fuel Hfuel.
  destruct fuel as [|fuel]; [lia|].
  destruct Hcopies as (k & c & Hk & Hc & Hdefault & Hfields).
  destruct Hinstance as (k' & Hk' & Hnames & Hnodup & Hvalid).
  rewrite Hk in Hk'. injection Hk' as <-.
  specialize (Hfits c Hc).
  set (fs := SchemaClass.__dataclass_fields__ c) in *.
  (* model to schema object *)
  destruct (for_each_exists
    (fun f : string * ty * StrawberryField.t =>
       let* data_from_extra := dict_get (VDict []) f.1.1 in
       let* converted :=
         _convert_from_pydantic_to_strawberry_type fuel st f.1.2
           (attribute_or_none d f.1.1) data_from_extra in
       Ok (f.1.1, converted))
    (fun f kv =>
       kv.1 = f.1.1
       ∧ ∀ fuel', (n ≤ fuel')%nat →
           convert_strawberry_class_to_pydantic_model validate fuel' st kv.2
           = Ok (attribute_or_none d f.1.1))
    fs) as (kwargs & Hkwargs & Hrel).
  { intros f Hf.
    destruct (IH f.1.2 (attribute_or_none d f.1.1) (Hfits f Hf) fuel)
      as (w & Hw & Hback); [lia|].
    exists (f.1.1, w). cbn [dict_get assoc default bind]. rewrite Hw.
    split; [reflexivity|]. split; [reflexivity | exact Hback]. }
  exists kwargs. split.
  { cbn [convert_pydantic_model_to_strawberry_class]. rewrite Hc.
    cbn [truthy instance_dict]. fold fs.
    exact (f_equal (fun r => let* kwargs := r in Ok (VObject closed kwargs)) Hkwargs). }
  (* schema object to model *)
  intros fuel' Hfuel'.
  unfold to_pydantic_default_with. cbn [dataclasses_fields]. rewrite Hc.
  cbn [bind]. fold fs.
  rewrite (for_each_map _ (fun f => (f.1.1, attribute_or_none d f.1.1))).
  2: { intros f Hf. unfold getattr. cbn [instance_dict].
       destruct (assoc_related (fun f : string * ty * StrawberryField.t => f.1.1)
         (fun name y =>
            ∀ fuel', (n ≤ fuel')%nat →
              convert_strawberry_class_to_pydantic_model validate fuel' st y
              = Ok (attribute_or_none d name))
         fs kwargs Hrel f Hf) as (y & Hy & Hback).
       rewrite Hy. cbn [bind]. rewrite (Hback fuel' Hfuel'). reflexivity. }
  cbn [bind]. unfold BaseModel_init. rewrite Hk.
  rewrite (for_each_map _
    (fun item : string * ModelField.t =>
       (ModelField.name item.2, attribute_or_none d (ModelField.name item.2)))).
  2: { intros item Hitem. destruct (Hfields item Hitem) as [Halias Hin].
       rewrite Halias.
       replace (map (fun f : string * ty * StrawberryField.t =>
                       (f.1.1, attribute_or_none d f.1.1)) fs)
         with (map (fun name => (name, attribute_or_none d name)) fs.*1.*1)
         by (rewrite <- !list_fmap_compose; reflexivity).
       rewrite dict_lookup_map. rewrite decide_True by exact Hin.
       rewrite (Hvalid item Hitem). reflexivity. }
  cbn [bind]. f_equal. f_equal.
  transitivity (map (fun name => (name, attribute_or_none d name)) d.*1);
    [|apply attributes_rebuilt; exact Hnodup].
  rewrite Hnames, map_map. reflexivity.
Qed.

(** A value that fits the type of its field is converted to a value that
    converts back to it. *)
Lemma fits_round_trip validate (st : store) (n : nat) :
  ∀ type_ v, fits validate n st type_ v →
    ∀ fuel, (2 * n ≤ fuel)%nat →
      ∃ w, _convert_from_pydantic_to_strawberry_type fuel st type_ v VNone = Ok w
           ∧ ∀ fuel', (n ≤ fuel')%nat →
               convert_strawberry_class_to_pydantic_model validate fuel' st w
               = Ok v.
Proof.
  induction n as [|n IH]; intros type_ v Hfits fuel Hfuel; [destruct Hfits|].
  destruct fuel as [|fuel]; [lia|].
  assert (Hinert : inert v = true ∧ (containers_depth v ≤ n)%nat →
    ∃ w, Ok v = Ok w
         ∧ ∀ fuel', (S n ≤ fuel')%nat →
             convert_strawberry_class_to_pydantic_model validate fuel' st w = Ok v).
  { intros [Hi Hd]. exists v. split; [reflexivity|]. intros fuel' Hfuel'.
    apply inert_converts_to_itself; [exact Hi | lia]. }
  assert (Hweaker : ∀ t x,
    fits validate n st t x →
    ∃ w, _convert_from_pydantic_to_strawberry_type fuel st t x VNone = Ok w
         ∧ ∀ fuel', (S n ≤ fuel')%nat →
             convert_strawberry_class_to_pydantic_model validate fuel' st w = Ok x).
  { intros t x Hx. destruct (IH t x Hx fuel) as (w & Hw & Hback); [lia|].
    exists w. split; [exact Hw|]. intros fuel' Hfuel'. apply Hback. lia. }
  cbn [fits] in Hfits. cbn [_convert_from_pydantic_to_strawberry_type].
  rewrite data_of_model_value.
  destruct (is_optional type_).
  { destruct (is_None v) eqn:Hnone.
    - destruct v; try discriminate. exists VNone. split; [reflexivity|].
      intros [|fuel'] Hfuel'; [lia | reflexivity].
    - destruct Hfits as [->|Hfits]; [discriminate|]. exact (Hweaker _ _ Hfits). }
  destruct (is_union type_).
  { destruct (union_option st _ v) as [[option_type|]|e]; cbn [bind].
    - exact (Hweaker _ _ Hfits).
    - exact (Hinert Hfits).
    - destruct Hfits. }
  destruct (list_of_type type_) as [of_type|].
  { destruct Hfits as (items & -> & Hitems). cbn [iterate bind].
    rewrite (for_each_enumerate
               (fun x => _convert_from_pydantic_to_strawberry_type
                           fuel st of_type x VNone))
      by reflexivity.
    destruct (for_each_exists
      (fun x => _convert_from_pydantic_to_strawberry_type fuel st of_type x VNone)
      (fun x w => ∀ fuel', (n ≤ fuel')%nat →
         convert_strawberry_class_to_pydantic_model validate fuel' st w = Ok x)
      items) as (ws & Hws & Hrel).
    { intros x Hx. rewrite Forall_forall in Hitems.
      destruct (IH of_type x (Hitems x Hx) fuel) as (w & Hw & Hback); [lia|].
      exists w. split; [exact Hw | exact Hback]. }
    rewrite Hws. exists (VList ws). split; [reflexivity|].
    intros [|fuel'] Hfuel'; [lia|].
    cbn [convert_strawberry_class_to_pydantic_model].
    rewrite (for_each_back _ items ws); [reflexivity|].
    eapply Forall2_impl; [exact Hrel|]. intros x w Hback. apply Hback. lia. }
  destruct (has_type_definition st type_); [|exact (Hinert Hfits)].
  destruct Hfits as (model & d & nested & closed & -> & Hnested & Hfrom & Hinstance).
  cbn [type_of]. rewrite Hnested, Hfrom.
  destruct (instance_round_trip validate st n IH closed model d Hinstance fuel)
    as (kwargs & Hto & Hback); [lia|].
  exists (VObject closed kwargs). split; [exact Hto|].
  intros [|fuel'] Hfuel'; [lia|].
  cbn [convert_strawberry_class_to_pydantic_model].
  destruct Hinstance as ((k & c & _ & Hc & Hdefault & _) & _).
  rewrite Hc, Hdefault. apply Hback. lia.
Qed.

(** ** The decorator, unfolded *)

Lemma for_eachM_read {A B} (f : A → store → result B) (xs : list A) (st : store) :
  for_eachM (fun x => read (f x)) xs st = (for_each (fun x => f x st) xs, st).
Proof.
  induction xs as [|x rest IH]; simpl; [reflexivity|].
  unfold mbind, read at 1. destruct (f x st) as [y|e]; simpl; [|reflexivity].
  rewrite IH. destruct (for_each _ rest); reflexivity.
Qed.

Section unfolded.

Variable get_basic_type : ty → option ty.
Variable ensure_all_auto_fields_in_pydantic :
  store → string → gset string → string → outcome unit.
Variable get_default_factory_for_field : ModelField.t → outcome (option value).
Variable get_private_fields : PyClass.t → outcome (list StrawberryField.t).
Variable sort_creation_fields :
  list DataclassCreationFields.t → outcome (list DataclassCreationFields.t).
Variable _wrap_dataclass : PyClass.t → outcome PyClass.t.
Variable _get_fields : PyClass.t → outcome (list StrawberryField.t).
Variable _process_type :
  SchemaClass.t → option string → bool → bool → option string →
  list string → outcome TypeDefinition.t.

Let decorate :=
  wrap get_basic_type ensure_all_auto_fields_in_pydantic
       get_default_factory_for_field get_private_fields sort_creation_fields
       _wrap_dataclass _get_fields _process_type.

Let sorted :=
  sorted_fields_of get_basic_type ensure_all_auto_fields_in_pydantic
       get_default_factory_for_field get_private_fields sort_creation_fields
       _wrap_dataclass _get_fields.

Lemma wrap_unfold model fields name is_input is_interface description
    directives all_fields from_pydantic to_pydantic cls st :
  decorate model fields name is_input is_interface description directives
    all_fields from_pydantic to_pydantic cls st
  = match models st !! model with
    | None => (Raise (AttributeError "__fields__"), st)
    | Some k =>
        let model_fields := ModelClass.__fields__ k in
        if bool_decide (fields_set_of model_fields fields
                          (existing_fields_of cls) all_fields = ∅)
        then (Raise (MissingFieldsListError (PyClass.__name__ cls)), st)
        else
          match sorted st model model_fields fields is_input all_fields cls with
          | Raise e => (Raise e, st)
          | Ok sorted_fields =>
              let addr := length (classes st) in
              let made := made_class st model cls sorted_fields addr in
              match _process_type made name is_input is_interface
                      description directives with
              | Fails message =>
                  (Raise (CollaboratorError message),
                   {| models := models st; classes := classes st ++ [made] |})
              | Returns definition =>
                  (Ok addr,
                   {| models :=
                        <[model := registered_model k is_input addr]> (models st);
                      classes :=
                        classes st ++
                        [finished_class made model definition
                           from_pydantic to_pydantic addr] |})
              end
          end
    end.
Proof.
  subst decorate sorted. unfold wrap, sorted_fields_of, mbind at 1, model_fields_of.
  destruct (models st !! model) as [k|] eqn:Hk; [|reflexivity].
  cbv zeta. case_bool_decide as Hempty; [reflexivity|].
  unfold mbind at 1, read at 1.
  destruct (ensure_all_auto_fields_in_pydantic _ _ _ _); simpl; [|reflexivity].
  unfold mbind at 1, lift at 1.
  destruct (_wrap_dataclass cls) as [wrapped|]; simpl; [|reflexivity].
  unfold mbind at 1, lift at 1.
  destruct (_get_fields wrapped) as [extra|]; simpl; [|reflexivity].
  unfold mbind at 1, lift at 1.
  destruct (get_private_fields wrapped) as [private|]; simpl; [|reflexivity].
  unfold mbind at 1. rewrite for_eachM_read.
  destruct (for_each _ _) as [all_model_fields|e]; simpl; [|reflexivity].
  unfold mbind at 1, lift at 1.
  destruct (sort_creation_fields _) as [sorted_fields|]; simpl; [|reflexivity].
  unfold mbind at 1, read at 1. simpl.
  unfold mbind at 1, allocate. simpl.
  unfold mbind at 1, read at 1. simpl.
  rewrite lookup_app_r by lia. rewrite Nat.sub_diag. simpl.
  unfold made_class.
  destruct (_process_type _ _ _ _ _ _) as [definition|message]; simpl; [|reflexivity].
  unfold mbind at 1, update_class. simpl.
  rewrite lookup_app_r by lia. rewrite Nat.sub_diag. simpl.
  unfold mbind at 1.
  assert (Hset : ∀ attr v st1, models st1 = models st →
    setattr_model model attr v st1
    = (Ok tt, {| models := <[model := {| ModelClass.__fields__ := ModelClass.__fields__ k;
                   ModelClass.__mro__ := ModelClass.__mro__ k;
                   ModelClass.__dict__ := <[attr := v]> (ModelClass.__dict__ k) |}]> (models st);
                 classes := classes st1 |})).
  { intros attr v st1 Heq. unfold setattr_model. rewrite Heq, Hk. reflexivity. }
  assert (Hins : ∀ (c c' : SchemaClass.t),
    <[length (classes st) := c']> (classes st ++ [c]) = classes st ++ [c']).
  { intros c c'. rewrite insert_app_r_alt by lia. rewrite Nat.sub_diag. reflexivity. }
  destruct is_input; rewrite Hset by reflexivity; simpl;
    unfold mbind at 1, update_class; simpl;
    rewrite Hins, lookup_app_r by lia; rewrite Nat.sub_diag; simpl;
    rewrite Hins; reflexivity.
Qed.

(** *** Which exceptions the stages raise *)

Lemma foreign_raises {A} (o : outcome A) e :
  foreign o = Raise e → ¬ is_missing_fields_list_error e.
Proof. destruct o; simpl; [discriminate|]. intros [= <-] []. Qed.

Lemma for_each_raises {A B} (f : A → result B) (xs : list A) e :
  for_each f xs = Raise e → ∃ x, x ∈ xs ∧ f x = Raise e.
Proof.
  induction xs as [|x rest IH]; simpl; [discriminate|].
  destruct (f x) as [y|e'] eqn:Hx; simpl.
  - destruct (for_each f rest); simpl; [discriminate|].
    intros [= <-]. destruct IH as (x' & Hin & Hr); [reflexivity|].
    exists x'. split; [right; exact Hin | exact Hr].
  - intros [= <-]. exists x. split; [left | exact Hx].
Qed.

Lemma build_raises st field is_input existing_fields auto_fields_set e :
  _build_dataclass_creation_fields get_basic_type get_default_factory_for_field
    st field is_input existing_fields auto_fields_set = Raise e →
  ¬ is_missing_fields_list_error e.
Proof.
  unfold _build_dataclass_creation_fields, get_type_for_field.
  intros H Hm. destruct e; try contradiction. clear Hm.
  case_bool_decide.
  - destruct (get_basic_type _); simpl in H; [|discriminate].
    destruct (replace_pydantic_types _ _ _) eqn:Hr; simpl in H.
    + destruct (existing_fields !! _) as [ex|];
        [destruct (StrawberryField.base_resolver ex)|]; simpl in H;
        try discriminate;
        destruct (get_default_factory_for_field field); simpl in H;
        discriminate.
    + apply replace_pydantic_types_raises in Hr as [(n & -> & _)|[[->| ->] _]];
        discriminate.
  - destruct (existing_fields !! _) as [ex|]; simpl in H; [|discriminate].
    destruct (StrawberryField.base_resolver ex); simpl in H;
      try discriminate;
      destruct (get_default_factory_for_field field); simpl in H;
      discriminate.
Qed.

Lemma sorted_fields_raises st model model_fields fields is_input all_fields cls e :
  sorted st model model_fields fields is_input all_fields cls = Raise e →
  ¬ is_missing_fields_list_error e.
Proof.
  subst sorted. unfold sorted_fields_of.
  destruct (ensure_all_auto_fields_in_pydantic _ _ _ _) eqn:H1; simpl;
    [|intros [= <-] []].
  destruct (_wrap_dataclass cls) as [wrapped|]; simpl; [|intros [= <-] []].
  destruct (_get_fields wrapped) as [extra|]; simpl; [|intros [= <-] []].
  destruct (get_private_fields wrapped) as [private|]; simpl; [|intros [= <-] []].
  destruct (for_each _ _) as [all_model_fields|e'] eqn:Hall; simpl.
  - apply foreign_raises.
  - intros [= <-]. apply for_each_raises in Hall as (x & _ & Hx).
    eapply build_raises. exact Hx.
Qed.

(** *** Errors and effects of the decorator *)

(** C2, amended: decoration raises [MissingFieldsListError] exactly when
    the reconciled set of copied fields is empty, that is: without
    [all_fields], when no non-empty [fields] list was passed and no
    annotation of the class names a field of the model (an annotation
    typed [strawberry.auto] counts only through its name); with
    [all_fields], when the model has no field. *)
Theorem missing_fields_list_error_iff model fields name is_input is_interface
    description directives all_fields from_pydantic to_pydantic cls st k :
  models st !! model = Some k →
  ((∃ type st',
      decorate model fields name is_input is_interface description directives
        all_fields from_pydantic to_pydantic cls st
      = (Raise (MissingFieldsListError type), st'))
   ↔ fields_set_of (ModelClass.__fields__ k) fields
       (existing_fields_of cls) all_fields = ∅)
  ∧ (fields_set_of (ModelClass.__fields__ k) fields
       (existing_fields_of cls) all_fields = ∅
     ↔ (all_fields = false
        ∧ (fields = None ∨ fields = Some [])
        ∧ (∀ name, name ∈ (existing_fields_of cls).*1
                   → name ∉ (ModelClass.__fields__ k).*1))
       ∨ (all_fields = true ∧ ModelClass.__fields__ k = [])).
Proof.
  intros Hk. split; [|apply fields_set_empty_iff].
  rewrite wrap_unfold, Hk. cbv zeta. case_bool_decide as Hempty.
  - split; [intros _; exact Hempty | intros _; eauto].
  - split; [|intros H; contradiction].
    intros (type & st' & H). exfalso.
    destruct (sorted _ _ _ _ _ _ _) as [sorted_fields|e] eqn:Hs.
    + destruct (_process_type _ _ _ _ _ _); discriminate.
    + injection H as -> _. eapply sorted_fields_raises; [exact Hs | exact I].
Qed.

(** C3: the decorator works with two sets that it reconciles from the
    [fields] list, the annotations of the decorated class and
    [all_fields].  Without [all_fields] the copied fields are the explicit
    list united with the annotated names that are fields of the model, and
    the auto fields are the explicit list united with the names annotated
    [strawberry.auto]; with [all_fields] both are the names of the model's
    fields, whatever the list and the annotations.  Everything the
    decorator does afterwards it does with these two sets: the error for
    an empty set of copied fields, the check of the auto fields, the
    choice of the model's fields and of the declared fields, and the type
    of each. *)
Theorem field_set_reconciliation model (fields : option (list string)) name
    is_input is_interface description directives (all_fields : bool)
    from_pydantic to_pydantic (cls : PyClass.t) st k :
  models st !! model = Some k →
  let model_fields := ModelClass.__fields__ k in
  let annotations := default [] (PyClass.__annotations__ cls) in
  ∃ fields_set auto_fields_set : gset string,
    (∀ x, x ∈ fields_set
          ↔ if all_fields then x ∈ model_fields.*1
            else x ∈ default [] fields
                 ∨ (x ∈ annotations.*1 ∧ x ∈ model_fields.*1))
    ∧ (∀ x, x ∈ auto_fields_set
            ↔ if all_fields then x ∈ model_fields.*1
              else x ∈ default [] fields ∨ (x, auto) ∈ annotations)
    ∧ (all_fields = false →
       fields_set
       = list_to_set (default [] fields)
         ∪ (list_to_set annotations.*1 ∩ list_to_set model_fields.*1)
       ∧ auto_fields_set
         = list_to_set (default [] fields)
           ∪ list_to_set
               (filter (fun item : string * ty => is_auto item.2) annotations).*1)
    ∧ (all_fields = true →
       fields_set = list_to_set model_fields.*1
       ∧ auto_fields_set = list_to_set model_fields.*1)
    ∧ decorate model fields name is_input is_interface description directives
        all_fields from_pydantic to_pydantic cls st
      = if bool_decide (fields_set = ∅)
        then (Raise (MissingFieldsListError (PyClass.__name__ cls)), st)
        else
          match sorted_fields_from get_basic_type
                  ensure_all_auto_fields_in_pydantic
                  get_default_factory_for_field get_private_fields
                  sort_creation_fields _wrap_dataclass _get_fields
                  fields_set auto_fields_set st model model_fields is_input cls
          with
          | Raise e => (Raise e, st)
          | Ok sorted_fields =>
              let addr := length (classes st) in
              let made := made_class st model cls sorted_fields addr in
              match _process_type made name is_input is_interface
                      description directives with
              | Fails message =>
                  (Raise (CollaboratorError message),
                   {| models := models st; classes := classes st ++ [made] |})
              | Returns definition =>
                  (Ok addr,
                   {| models :=
                        <[model := registered_model k is_input addr]> (models st);
                      classes :=
                        classes st ++
                        [finished_class made model definition
                           from_pydantic to_pydantic addr] |})
              end
          end.
Proof.
  intros Hk model_fields annotations.
  exists (fields_set_of model_fields fields annotations all_fields),
         (auto_fields_set_of model_fields fields annotations all_fields).
  split; [intros x; apply elem_of_fields_set_of|].
  split; [intros x; apply elem_of_auto_fields_set_of|].
  split; [|split].
  - intros ->. split; apply set_eq; intros x.
    + rewrite (elem_of_fields_set_of _ _ _ false), elem_of_union,
        elem_of_intersection, !elem_of_list_to_set.
      reflexivity.
    + rewrite (elem_of_auto_fields_set_of _ _ _ false), elem_of_union,
        !elem_of_list_to_set, list_elem_of_fmap.
      split; (intros [H|H]; [left; exact H | right]).
      * exists (x, auto). split; [reflexivity|].
        apply list_elem_of_filter. split; [exact I | exact H].
      * destruct H as ([n typ] & -> & Hin).
        apply list_elem_of_filter in Hin as [Hauto Hin].
        simpl in Hauto. apply Is_true_true, is_auto_spec in Hauto.
        subst typ. exact Hin.
  - intros ->. split; reflexivity.
  - rewrite wrap_unfold, Hk. reflexivity.
Qed.

(** C9: when decoration fails with [MissingFieldsListError] the store is
    as it was; in particular the model class has gained neither
    [_strawberry_type] nor [_strawberry_input_type]. *)
Theorem missing_fields_list_error_leaves_store model fields name is_input
    is_interface description directives all_fields from_pydantic to_pydantic
    cls st type st' :
  decorate model fields name is_input is_interface description directives
    all_fields from_pydantic to_pydantic cls st
  = (Raise (MissingFieldsListError type), st') →
  st' = st
  ∧ class_getattr st' (TModel model) "_strawberry_type"
    = class_getattr st (TModel model) "_strawberry_type"
  ∧ class_getattr st' (TModel model) "_strawberry_input_type"
    = class_getattr st (TModel model) "_strawberry_input_type".
Proof.
  rewrite wrap_unfold. intros H.
  assert (Hst : st' = st); [|subst st'; repeat split; reflexivity].
  destruct (models st !! model) as [k|]; [|injection H as _ <-; reflexivity].
  cbv zeta in H. case_bool_decide; [injection H as _ <-; reflexivity|].
  destruct (sorted _ _ _ _ _ _ _) as [sorted_fields|e] eqn:Hs.
  - destruct (_process_type _ _ _ _ _ _); discriminate.
  - injection H as _ <-. reflexivity.
Qed.

(** C7: a successful decoration changes the model class in one place:
    the registration attribute for the requested direction now holds the
    generated class, whose [_pydantic_type] is the model.  The other
    attributes of the model class, its fields and its ancestors, the
    other model classes and the classes generated before are as they
    were. *)
Theorem decoration_registers_only model fields name is_input is_interface
    description directives all_fields from_pydantic to_pydantic cls st
    addr st' :
  decorate model fields name is_input is_interface description directives
    all_fields from_pydantic to_pydantic cls st
  = (Ok addr, st') →
  ∃ k k' generated,
    models st !! model = Some k
    ∧ models st' !! model = Some k'
    ∧ ModelClass.__dict__ k'
      = <[(if is_input then "_strawberry_input_type" else "_strawberry_type")
          := TSchema addr]> (ModelClass.__dict__ k)
    ∧ (∀ attr,
         attr ≠ (if is_input then "_strawberry_input_type" else "_strawberry_type") →
         ModelClass.__dict__ k' !! attr = ModelClass.__dict__ k !! attr)
    ∧ ModelClass.__fields__ k' = ModelClass.__fields__ k
    ∧ ModelClass.__mro__ k' = ModelClass.__mro__ k
    ∧ (∀ other, other ≠ model → models st' !! other = models st !! other)
    ∧ addr = length (classes st)
    ∧ classes st' = classes st ++ [generated]
    ∧ SchemaClass._pydantic_type generated = Some model.
Proof.
  rewrite wrap_unfold. intros H.
  destruct (models st !! model) as [k|] eqn:Hk; [|discriminate].
  cbv zeta in H. case_bool_decide; [discriminate|].
  destruct (sorted _ _ _ _ _ _ _) as [sorted_fields|e]; [|discriminate].
  destruct (_process_type _ _ _ _ _ _) as [definition|]; [|discriminate].
  injection H as <- <-. simpl.
  eexists k, _, _. split; [reflexivity|].
  split; [apply lookup_insert_eq|].
  split; [reflexivity|].
  split; [intros attr Hattr; simpl; unfold registration_attr;
          apply lookup_insert_ne; congruence|].
  split; [reflexivity|]. split; [reflexivity|].
  split; [intros other Hother; apply lookup_insert_ne; congruence|].
  split; [reflexivity|]. split; reflexivity.
Qed.

(** C10: on the generated class, [is_type_of] holds of an object exactly
    when the object is an instance of the generated class or of the
    pydantic model; so it holds of the instances of the model. *)
Theorem is_type_of_generated model fields name is_input is_interface
    description directives all_fields from_pydantic to_pydantic cls st
    addr st' :
  decorate model fields name is_input is_interface description directives
    all_fields from_pydantic to_pydantic cls st
  = (Ok addr, st') →
  (∀ obj, ∃ b,
     call_is_type_of st' addr obj = Ok b
     ∧ (b = true ↔ isinstance st' obj (TSchema addr) = true
                   ∨ isinstance st' obj (TModel model) = true))
  ∧ (∀ obj, TModel model ∈ mro st' (type_of obj) →
            call_is_type_of st' addr obj = Ok true).
Proof.
  rewrite wrap_unfold. intros H.
  destruct (models st !! model) as [k|] eqn:Hk; [|discriminate].
  cbv zeta in H. case_bool_decide; [discriminate|].
  destruct (sorted _ _ _ _ _ _ _) as [sorted_fields|e]; [|discriminate].
  destruct (_process_type _ _ _ _ _ _) as [definition|]; [|discriminate].
  injection H as <- <-.
  assert (Hcall : ∀ obj st2,
    classes st2 = classes st ++
      [finished_class (made_class st model cls sorted_fields (length (classes st)))
         model definition from_pydantic to_pydantic (length (classes st))] →
    call_is_type_of st2 (length (classes st)) obj
    = Ok (isinstance st2 obj (TSchema (length (classes st)))
          || isinstance st2 obj (TModel model))).
  { intros obj st2 Hc. unfold call_is_type_of. rewrite Hc.
    rewrite lookup_app_r by lia. rewrite Nat.sub_diag. reflexivity. }
  split.
  - intros obj. eexists. split; [apply Hcall; reflexivity|].
    apply orb_true_iff.
  - intros obj Hin. rewrite Hcall by reflexivity. f_equal.
    apply orb_true_iff. right. apply isinstance_spec. exact Hin.
Qed.

(** *** The round trip after decoration *)

Lemma build_name st field is_input existing_fields auto_fields_set created :
  _build_dataclass_creation_fields get_basic_type get_default_factory_for_field
    st field is_input existing_fields auto_fields_set = Ok created →
  DataclassCreationFields.name created = ModelField.name field.
Proof.
  unfold _build_dataclass_creation_fields.
  destruct (if bool_decide _ then _ else _) as [t|]; simpl; [|discriminate].
  destruct (existing_fields !! _) as [ex|];
    [destruct (StrawberryField.base_resolver ex)|]; simpl;
    try destruct (get_default_factory_for_field field); simpl;
    try discriminate; intros [= <-]; reflexivity.
Qed.

Lemma sorted_fields_cover st model model_fields fields is_input all_fields cls
    sorted_fields :
  (∀ l l', sort_creation_fields l = Returns l' → l' ≡ₚ l) →
  sorted st model model_fields fields is_input all_fields cls = Ok sorted_fields →
  ∀ item, item ∈ model_fields →
    item.1 ∈ fields_set_of model_fields fields (existing_fields_of cls) all_fields →
    ModelField.name item.2
    ∈ (map DataclassCreationFields.to_tuple sorted_fields).*1.*1.
Proof.
  intros Hsort. subst sorted. unfold sorted_fields_of.
  destruct (ensure_all_auto_fields_in_pydantic _ _ _ _); simpl; [|discriminate].
  destruct (_wrap_dataclass cls) as [wrapped|]; simpl; [|discriminate].
  destruct (_get_fields wrapped) as [extra|]; simpl; [|discriminate].
  destruct (get_private_fields wrapped) as [private|]; simpl; [|discriminate].
  destruct (for_each _ _) as [all_model_fields|] eqn:Hall; simpl; [|discriminate].
  destruct (sort_creation_fields _) as [l'|] eqn:Hl'; simpl; [|discriminate].
  intros [= <-] item Hitem Hcopied.
  apply Hsort in Hl'.
  apply for_each_Forall2 in Hall.
  assert (Hfiltered : item ∈ filter
    (fun item : string * ModelField.t =>
       item.1 ∈ fields_set_of model_fields fields (existing_fields_of cls) all_fields)
    model_fields) by (apply list_elem_of_filter; split; assumption).
  apply list_elem_of_lookup in Hfiltered as [i Hi].
  destruct (Forall2_lookup_l _ _ _ _ _ Hall Hi) as (created & Hcreated & Hbuild).
  apply build_name in Hbuild.
  rewrite <- Hbuild.
  apply list_elem_of_fmap. exists (DataclassCreationFields.name created,
                             DataclassCreationFields.type_annotation created).
  split; [reflexivity|].
  apply list_elem_of_fmap. exists (DataclassCreationFields.to_tuple created).
  split; [reflexivity|].
  apply list_elem_of_In, in_map, list_elem_of_In.
  rewrite Hl'. apply elem_of_app. left.
  apply list_elem_of_lookup. exists i. exact Hcreated.
Qed.

(** C1, amended: when the decoration copies every field of the model,
    the model populates each field under its own name, and the default
    [from_pydantic] and [to_pydantic] are kept, then an instance of the
    model converts to the generated class and back to an equal instance,
    provided that its values are valid, so that validation returns them as
    they are, and that the value of each field fits the type of the field
    in the generated class: under [Optional] it is [None] or fits the
    type inside, under a list type it is a list of fitting values, under
    a generated class it is an instance of a model for which the same
    holds, and otherwise it is a value in which the way back finds no
    instance of a generated class.  ([sort_creation_fields] is taken to
    reorder only; the recursion limit is taken to be high enough.) *)
Theorem round_trip_when_every_field_is_copied validate model fields name
    is_input is_interface description directives all_fields cls st addr st' k :
  decorate model fields name is_input is_interface description directives
    all_fields None None cls st
  = (Ok addr, st') →
  models st !! model = Some k →
  (∀ item, item ∈ ModelClass.__fields__ k →
     item.1 ∈ fields_set_of (ModelClass.__fields__ k) fields
                (existing_fields_of cls) all_fields
     ∧ ModelField.alias item.2 = ModelField.name item.2) →
  (∀ l l', sort_creation_fields l = Returns l' → l' ≡ₚ l) →
  ∀ d n fuel,
    instance_of validate st' model d →
    (∀ generated, classes st' !! addr = Some generated →
       ∀ f, f ∈ SchemaClass.__dataclass_fields__ generated →
         fits validate n st' f.1.2 (attribute_or_none d f.1.1)) →
    (2 * n + 1 ≤ fuel)%nat →
    ∃ converted,
      call_from_pydantic fuel st' addr (VModel model d) VNone = Ok converted
      ∧ call_to_pydantic validate fuel st' converted = Ok (VModel model d).
Proof.
  rewrite wrap_unfold. intros H Hk Hcopied Hsort d n fuel Hinstance Hfits Hfuel.
  rewrite Hk in H. cbv zeta in H. case_bool_decide; [discriminate|].
  destruct (sorted _ _ _ _ _ _ _) as [sorted_fields|e] eqn:Hsorted; [|discriminate].
  destruct (_process_type _ _ _ _ _ _) as [definition|]; [|discriminate].
  injection H as <- <-.
  set (addr := length (classes st)) in *.
  set (generated := finished_class _ _ _ _ _ _) in *.
  set (st' := {| models := _; classes := _ |}) in *.
  assert (Hclass : classes st' !! addr = Some generated).
  { subst st' addr. simpl. rewrite lookup_app_r by lia.
    rewrite Nat.sub_diag. reflexivity. }
  assert (Hcopies : copies_every_field st' model addr).
  { exists (registered_model k is_input addr), generated.
    split; [apply lookup_insert_eq|]. split; [exact Hclass|].
    split; [reflexivity|]. intros item Hitem.
    destruct (Hcopied item Hitem) as [Hin Halias]. split; [exact Halias|].
    exact (sorted_fields_cover _ _ _ _ _ _ _ _ Hsort Hsorted item Hitem Hin). }
  destruct (instance_round_trip validate st' n (fits_round_trip validate st' n)
              addr model d) with (fuel := fuel) as (kwargs & Hto & Hback).
  { split; [exact Hcopies|]. split; [exact Hinstance | exact Hfits]. }
  { exact Hfuel. }
  exists (VObject addr kwargs). split.
  - unfold call_from_pydantic. rewrite Hclass. exact Hto.
  - unfold call_to_pydantic. rewrite Hclass. apply Hback. lia.
Qed.

End unfolded.

(** ** The statements on the sample classes *)

Lemma replace_pydantic_types_registration_witness :
  replace_pydantic_types Sample.st0 (TModel "User") false
  = Raise (UnregisteredTypeException "User")
  ∧ replace_pydantic_types Sample.st_user (TModel "User") false = Ok (TSchema 0)
  ∧ replace_pydantic_types Sample.st0
      (TGeneric "typing.List" [TModel "User"]) false
    = Raise (UnregisteredTypeException "User")
  ∧ replace_pydantic_types Sample.st_user
      (TGeneric "typing.Dict" [Sample.str; TModel "User"]) false
    = Ok (TGeneric "typing.Dict" [Sample.str; TSchema 0]).
Proof.
  split; [|split; [|split]].
  - apply (proj1 (replace_pydantic_types_registration Sample.st0 "User" false)).
    vm_compute. reflexivity.
  - apply (proj1 (proj2 (replace_pydantic_types_registration Sample.st_user "User" false))).
    vm_compute. reflexivity.
  - apply (proj1 (proj2 (proj2
             (replace_pydantic_types_registration Sample.st0 "User" false)))
             "typing.List" [] [] []);
      [constructor | vm_compute; reflexivity].
  - apply (proj1 (proj2 (proj2 (proj2
             (replace_pydantic_types_registration Sample.st_user "User" false))))
             "typing.Dict" [Sample.str] [] [Sample.str] [] (TSchema 0));
      [constructor; [vm_compute; reflexivity | constructor]
      | constructor
      | vm_compute; reflexivity].
Defined.


Lemma get_type_for_field_optional_witness :
  get_type_for_field Sample.get_basic_type Sample.st0
    (Sample.field "password" Sample.str false) false
  = Ok (Optional Sample.str).
Proof.
  apply (get_type_for_field_optional Sample.get_basic_type Sample.st0
           (Sample.field "password" Sample.str false) false Sample.str Sample.str);
    reflexivity.
Defined.

Lemma build_dataclass_creation_fields_type_witness :
  ∃ created,
    _build_dataclass_creation_fields Sample.get_basic_type
      Sample.get_default_factory_for_field Sample.st0
      (Sample.field "age" Sample.int true) false ∅ {["age"]}
    = Ok created
    ∧ DataclassCreationFields.type_annotation created = Sample.int.
Proof.
  destruct (build_dataclass_creation_fields_type Sample.get_basic_type
              Sample.get_default_factory_for_field Sample.st0
              (Sample.field "age" Sample.int true) false ∅ {["age"]})
    as [Hauto _].
  destruct Hauto as [_ Hbuilt].
  - apply elem_of_singleton. reflexivity.
  - apply (Hbuilt Sample.int None); reflexivity.
Defined.

Lemma missing_fields_list_error_iff_witness :
  (∃ type st',
     Sample.plain "User" Sample.EmptyType Sample.st0
     = (Raise (MissingFieldsListError type), st'))
  ↔ fields_set_of (ModelClass.__fields__ Sample.User) None
      (existing_fields_of Sample.EmptyType) false = ∅.
Proof.
  apply (missing_fields_list_error_iff Sample.get_basic_type
           Sample.ensure_all_auto_fields_in_pydantic
           Sample.get_default_factory_for_field Sample.get_private_fields
           Sample.sort_creation_fields Sample._wrap_dataclass Sample._get_fields
           Sample._process_type
           "User" None None false false None [] false None None
           Sample.EmptyType Sample.st0 Sample.User).
  reflexivity.
Defined.

Lemma missing_fields_list_error_leaves_store_witness :
  (Sample.plain "User" Sample.EmptyType Sample.st0).2 = Sample.st0.
Proof.
  apply (missing_fields_list_error_leaves_store Sample.get_basic_type
           Sample.ensure_all_auto_fields_in_pydantic
           Sample.get_default_factory_for_field Sample.get_private_fields
           Sample.sort_creation_fields Sample._wrap_dataclass Sample._get_fields
           Sample._process_type
           "User" None None false false None [] false None None
           Sample.EmptyType Sample.st0 "EmptyType").
  vm_compute. reflexivity.
Defined.

Lemma field_set_reconciliation_witness :
  ∃ fields_set auto_fields_set : gset string,
    ("age" ∈ fields_set ∧ "password" ∉ fields_set)
    ∧ ("age" ∈ auto_fields_set ∧ "password" ∉ auto_fields_set)
    ∧ Sample.plain "User" Sample.UserType Sample.st0
      = if bool_decide (fields_set = ∅)
        then (Raise (MissingFieldsListError "UserType"), Sample.st0)
        else (Ok 0, Sample.st_partial).
Proof.
  destruct (field_set_reconciliation Sample.get_basic_type
              Sample.ensure_all_auto_fields_in_pydantic
              Sample.get_default_factory_for_field Sample.get_private_fields
              Sample.sort_creation_fields Sample._wrap_dataclass Sample._get_fields
              Sample._process_type
              "User" None None false false None [] false None None
              Sample.UserType Sample.st0 Sample.User eq_refl)
    as (fields_set & auto_fields_set & Hin & Hauto & Hplain & _ & Hwrap).
  destruct (Hplain eq_refl) as [-> ->].
  exists (list_to_set (default [] None)
          ∪ (list_to_set (default [] (PyClass.__annotations__ Sample.UserType)).*1
             ∩ list_to_set (ModelClass.__fields__ Sample.User).*1)),
         (list_to_set (default [] None)
          ∪ list_to_set
              (filter (fun item : string * ty => is_auto item.2)
                 (default [] (PyClass.__annotations__ Sample.UserType))).*1).
  split; [split; vm_compute; [reflexivity | intros H; discriminate H]|].
  split; [split; vm_compute; [reflexivity | intros H; discriminate H]|].
  unfold Sample.plain, Sample.decorate. rewrite Hwrap.
  case_bool_decide; vm_compute; reflexivity.
Defined.

Lemma decoration_registers_only_witness :
  ∃ k',
    models Sample.st_user !! "User" = Some k'
    ∧ ModelClass.__dict__ k' !! "_strawberry_type" = Some (TSchema 0)
    ∧ ModelClass.__dict__ k' !! "_strawberry_input_type" = None
    ∧ ModelClass.__fields__ k' = ModelClass.__fields__ Sample.User.
Proof.
  destruct (decoration_registers_only Sample.get_basic_type
              Sample.ensure_all_auto_fields_in_pydantic
              Sample.get_default_factory_for_field Sample.get_private_fields
              Sample.sort_creation_fields Sample._wrap_dataclass Sample._get_fields
              Sample._process_type
              "User" None None false false None [] true None None
              Sample.AllUserType Sample.st0 0 Sample.st_user)
    as (k & k' & generated & Hk & Hk' & Hdict & Hother & Hfields & _).
  { vm_compute. reflexivity. }
  assert (Huser : Some k = Some Sample.User) by (rewrite <- Hk; reflexivity).
  injection Huser as ->.
  exists k'. split; [exact Hk'|]. split; [|split; [|exact Hfields]].
  - rewrite Hdict. apply lookup_insert_eq.
  - rewrite Hother by discriminate. reflexivity.
Defined.

Lemma is_type_of_generated_witness :
  call_is_type_of Sample.st_user 0 Sample.alice = Ok true.
Proof.
  destruct (is_type_of_generated Sample.get_basic_type
              Sample.ensure_all_auto_fields_in_pydantic
              Sample.get_default_factory_for_field Sample.get_private_fields
              Sample.sort_creation_fields Sample._wrap_dataclass Sample._get_fields
              Sample._process_type
              "User" None None false false None [] true None None
              Sample.AllUserType Sample.st0 0 Sample.st_user)
    as [_ Hmodel].
  { vm_compute. reflexivity. }
  apply Hmodel. vm_compute. constructor.
Defined.

Lemma sample_sort_reorders (l l' : list DataclassCreationFields.t) :
  Sample.sort_creation_fields l = Returns l' → l' ≡ₚ l.
Proof.
  unfold Sample.sort_creation_fields. intros [= <-].
  induction l as [|f rest IH]; [reflexivity|].
  rewrite !filter_cons. destruct (Sample.has_default f) eqn:Hf.
  - rewrite decide_False by discriminate. rewrite decide_True by reflexivity.
    rewrite <- Permutation_middle. constructor. exact IH.
  - rewrite decide_True by reflexivity. rewrite decide_False by discriminate.
    simpl. constructor. exact IH.
Qed.

Lemma fits_unfold validate (n : nat) (st : store) (type_ : ty) (v : value) :
  fits validate (S n) st type_ v
  = if is_optional type_
    then v = VNone ∨ fits validate n st (optional_of_type type_) v
    else if is_union type_
    then
      match union_option st (default [] (__args__ type_)) v with
      | Ok (Some option_type) => fits validate n st option_type v
      | Ok None => inert v = true ∧ (containers_depth v ≤ n)%nat
      | Raise _ => False
      end
    else
    match list_of_type type_ with
    | Some of_type =>
        ∃ items, v = VList items ∧ Forall (fits validate n st of_type) items
    | None =>
        if has_type_definition st type_
        then
          ∃ model d nested closed,
            v = VModel model d
            ∧ default type_ (class_getattr st (TModel model) "_strawberry_type")
              = TSchema nested
            ∧ (c ← classes st !! nested; SchemaClass.from_pydantic c)
              = Some (FromPydanticDefault closed)
            ∧ instance_fits validate (fits validate n st) st closed model d
        else inert v = true ∧ (containers_depth v ≤ n)%nat
    end.
Proof. reflexivity. Qed.

Lemma sample_alice_fits :
  fits Sample.validate 3 Sample.st_team (TSchema 0) Sample.alice.
Proof.
  rewrite fits_unfold.
  replace (is_optional (TSchema 0)) with false by reflexivity.
  replace (is_union (TSchema 0)) with false by reflexivity.
  cbn [list_of_type].
  replace (has_type_definition Sample.st_team (TSchema 0)) with true
    by (vm_compute; reflexivity).
  exists "User", [("age", VAtom "int" "1"); ("password", VAtom "str" "abc")], 0, 0.
  split; [reflexivity|]. split; [vm_compute; reflexivity|].
  split; [vm_compute; reflexivity|].
  split; [|split].
  - eexists _, _. split; [vm_compute; reflexivity|].
    split; [vm_compute; reflexivity|]. split; [reflexivity|].
    intros item Hitem. cbn in Hitem.
    repeat (apply elem_of_cons in Hitem as [->|Hitem]);
      [| |inversion Hitem]; (split; [reflexivity|]); cbn.
    + left.
    + right. left.
  - eexists. split; [vm_compute; reflexivity|].
    split; [reflexivity|]. split.
    + cbn. repeat constructor; cbn; rewrite ?elem_of_cons, ?elem_of_nil;
        intuition discriminate.
    + intros item Hitem. cbn in Hitem.
      repeat (apply elem_of_cons in Hitem as [->|Hitem]);
        [| |inversion Hitem]; vm_compute; reflexivity.
  - intros c Hc f Hf.
    assert (Hfields : SchemaClass.__dataclass_fields__ c
                      = Sample.generated_fields Sample.st_team 0).
    { unfold Sample.generated_fields. rewrite Hc. reflexivity. }
    rewrite Hfields in Hf. vm_compute in Hf.
    repeat (apply elem_of_cons in Hf as [->|Hf]); [| |inversion Hf].
    + vm_compute. split; [reflexivity | lia].
    + vm_compute. right. split; [reflexivity | lia].
Qed.

Lemma round_trip_when_every_field_is_copied_witness :
  ∃ converted,
    call_from_pydantic 7 Sample.st_team 1 Sample.core_team VNone = Ok converted
    ∧ call_to_pydantic Sample.validate 7 Sample.st_team converted
      = Ok Sample.core_team.
Proof.
  apply (round_trip_when_every_field_is_copied Sample.get_basic_type
           Sample.ensure_all_auto_fields_in_pydantic
           Sample.get_default_factory_for_field Sample.get_private_fields
           Sample.sort_creation_fields Sample._wrap_dataclass Sample._get_fields
           Sample._process_type Sample.validate
           "Team" None None false false None [] false
           Sample.TeamType Sample.st_user 1 Sample.st_team Sample.Team)
    with (n := 3).
  - vm_compute. reflexivity.
  - reflexivity.
  - intros item Hitem. cbn in Hitem.
    repeat (apply elem_of_cons in Hitem as [->|Hitem]);
      [| |inversion Hitem]; (split; [|reflexivity]);
      apply elem_of_fields_set_of; cbn; right; (split; [|]).
    + left.
    + left.
    + right. left.
    + right. left.
  - exact sample_sort_reorders.
  - eexists. split; [vm_compute; reflexivity|].
    split; [reflexivity|]. split.
    + cbn. repeat constructor; cbn; rewrite ?elem_of_cons, ?elem_of_nil;
        intuition discriminate.
    + intros item Hitem. cbn in Hitem.
      repeat (apply elem_of_cons in Hitem as [->|Hitem]);
        [| |inversion Hitem]; vm_compute; reflexivity.
  - intros generated Hgenerated f Hf.
    assert (Hfields : SchemaClass.__dataclass_fields__ generated
                      = (Sample.generated_fields Sample.st_team 1)).
    { unfold Sample.generated_fields. rewrite Hgenerated. reflexivity. }
    rewrite Hfields in Hf. vm_compute in Hf.
    repeat (apply elem_of_cons in Hf as [->|Hf]); [| |inversion Hf].
    + vm_compute. split; [reflexivity | lia].
    + exact sample_alice_fits.
  - lia.
Defined.

(** ** Where the statements of the specification fail *)

(** C1 as stated fails: [UserType] copies [age] only, so the instance that
    comes back has lost the password. *)
Lemma round_trip_counterexample :
  Sample.plain "User" Sample.UserType Sample.st0 = (Ok 0, Sample.st_partial)
  ∧ call_from_pydantic 2 Sample.st_partial 0 Sample.alice VNone
    = Ok (VObject 0 [("age", VAtom "int" "1")])
  ∧ call_to_pydantic Sample.validate 2 Sample.st_partial
      (VObject 0 [("age", VAtom "int" "1")])
    = Ok (VModel "User" [("age", VAtom "int" "1"); ("password", VNone)])
  ∧ ∀ fuel converted,
      call_from_pydantic fuel Sample.st_partial 0 Sample.alice VNone
      = Ok converted →
      call_to_pydantic Sample.validate fuel Sample.st_partial converted
      ≠ Ok Sample.alice.
Proof.
  split; [vm_compute; reflexivity|].
  split; [vm_compute; reflexivity|].
  split; [vm_compute; reflexivity|].
  intros [|[|fuel]] converted Hfrom Hto.
  - vm_compute in Hfrom. discriminate.
  - vm_compute in Hfrom. discriminate.
  - vm_compute in Hfrom. injection Hfrom as <-.
    vm_compute in Hto. discriminate.
Qed.


(** C2 as stated fails in both directions of its gloss: an annotation typed
    [strawberry.auto] whose name is no field of the model does not prevent
    the error, and [all_fields] raises it on a model without fields. *)
Lemma missing_fields_list_error_counterexample :
  (Sample.plain "User" Sample.NickType Sample.st0
   = (Raise (MissingFieldsListError "NickType"), Sample.st0)
   ∧ ¬ stated_missing_fields_condition false None
         (existing_fields_of Sample.NickType)
         (ModelClass.__fields__ Sample.User))
  ∧ (Sample.with_all_fields "Empty" Sample.EmptyType Sample.st0
     = (Raise (MissingFieldsListError "EmptyType"), Sample.st0)
     ∧ ¬ stated_missing_fields_condition true None
           (existing_fields_of Sample.EmptyType)
           (ModelClass.__fields__ Sample.Empty)).
Proof.
  split; (split; [vm_compute; reflexivity|]).
  - intros (_ & _ & H). destruct (H "nickname" auto) as [_ Hauto]; [left|].
    apply Hauto. reflexivity.
  - intros ([=] & _).
Qed.

(** * Further properties *)

(** ** Type substitution, continued *)

Lemma registered_is_generated (st : store) (c : ty) (is_input : bool) (v : ty) :
  registrations_generated st →
  class_getattr st c (registration_attr is_input) = Some v →
  ∃ a, v = TSchema a.
Proof.
  intros Hinv. unfold class_getattr.
  destruct (list_find _ _) as [[i hit]|]; simpl; [|discriminate].
  destruct hit; simpl; try discriminate.
  destruct (models st !! name) as [k|] eqn:Hk; simpl; [|discriminate].
  intros Hv. destruct (Hinv _ _ _ _ Hk Hv) as (a & _ & -> & _). eauto.
Qed.

Lemma replace_args_pointwise (st : store) (is_input : bool) (P : ty → Prop)
    (args replaced_args : list ty) :
  Forall (fun t => ∀ t', replace_pydantic_types st t is_input = Ok t' → P t') args →
  for_each (fun t => replace_pydantic_types st t is_input) args = Ok replaced_args →
  Forall P replaced_args.
Proof.
  intros Hall Hfor. apply for_each_Forall2 in Hfor.
  revert Hall. induction Hfor as [|t t' ts ts' Ht _ IH]; intros Hall; [constructor|].
  apply Forall_cons in Hall as [Hhead Hrest].
  constructor; [exact (Hhead t' Ht) | exact (IH Hrest)].
Qed.

(** *** Unions *)

Lemma union_members_literal (p : ty) :
  match p with
  | TGeneric "typing.Union" args => args
  | _ => [p]
  end = union_members p.
Proof.
  destruct p as [| | | | |o args| | |]; try reflexivity.
  unfold union_members.
  repeat (destruct o as [|[[] [] [] [] [] [] [] []] o]; try reflexivity).
Qed.

Lemma Union_unfold (params : list ty) :
  Union params
  = let dedup := without_repetitions (flat_map union_members params) in
    match dedup with
    | [single] => single
    | _ => TGeneric "typing.Union" dedup
    end.
Proof.
  unfold Union, without_repetitions.
  rewrite (flat_map_ext _ union_members) by exact union_members_literal.
  reflexivity.
Qed.

Lemma existsb_ty_eqb (x : ty) (l : list ty) :
  existsb (ty_eqb x) l = true ↔ x ∈ l.
Proof.
  rewrite existsb_exists. split.
  - intros (y & Hin & Heq). apply ty_eqb_eq in Heq. subst y.
    apply list_elem_of_In. exact Hin.
  - intros Hin. exists x.
    split; [apply list_elem_of_In; exact Hin | apply ty_eqb_eq; reflexivity].
Qed.

Lemma without_repetitions_from (acc l : list ty) :
  let d := fold_left (fun acc p => if existsb (ty_eqb p) acc then acc
                                   else acc ++ [p]) l acc in
  (∀ x, x ∈ d ↔ x ∈ acc ∨ x ∈ l)
  ∧ (NoDup acc → NoDup d)
  ∧ (NoDup (acc ++ l) → d = acc ++ l).
Proof.
  revert acc. induction l as [|p rest IH]; intros acc; cbn [fold_left].
  - split; [|split].
    + intros x. rewrite elem_of_nil. tauto.
    + tauto.
    + intros _. rewrite app_nil_r. reflexivity.
  - destruct (existsb (ty_eqb p) acc) eqn:Hp.
    + apply existsb_ty_eqb in Hp.
      destruct (IH acc) as (Hin & Hnodup & Hsame). split; [|split].
      * intros x. rewrite Hin, elem_of_cons.
        split; [tauto | intros [H|[->|H]]; tauto].
      * exact Hnodup.
      * intros Hno. apply NoDup_app in Hno as (_ & Hdisjoint & _).
        exfalso. apply (Hdisjoint p Hp). left.
    + assert (Hnot : p ∉ acc).
      { intros Hin. apply existsb_ty_eqb in Hin. congruence. }
      destruct (IH (acc ++ [p])) as (Hin & Hnodup & Hsame). split; [|split].
      * intros x. rewrite Hin, elem_of_app, list_elem_of_singleton, elem_of_cons.
        tauto.
      * intros Hacc. apply Hnodup. apply NoDup_app. split; [exact Hacc|].
        split; [|apply NoDup_singleton].
        intros x Hx Hxp. apply list_elem_of_singleton in Hxp as ->. tauto.
      * intros Hno. rewrite <- app_assoc in Hsame. apply Hsame. exact Hno.
Qed.

Lemma union_members_not_union (t : ty) : is_union t = false → union_members t = [t].
Proof.
  destruct t; try reflexivity. simpl. intros ->. reflexivity.
Qed.

Lemma Union_normalised (args : list ty) :
  normalised args → Union args = TGeneric "typing.Union" args.
Proof.
  intros (Hplain & Hnodup & Hlength). rewrite Union_unfold. cbv zeta.
  assert (Hflat : flat_map union_members args = args).
  { clear Hnodup Hlength. induction Hplain as [|t rest Ht _ IH]; [reflexivity|].
    simpl. rewrite (union_members_not_union t Ht), IH. reflexivity. }
  rewrite Hflat. unfold without_repetitions.
  rewrite (proj2 (proj2 (without_repetitions_from [] args))) by exact Hnodup.
  simpl. destruct args as [|x [|y rest]]; [reflexivity| |reflexivity].
  contradiction Hlength. reflexivity.
Qed.

Lemma stable_args (args : list ty) :
  (fix each (ts : list ty) : Prop :=
     match ts with
     | [] => True
     | t :: rest => stable t ∧ each rest
     end) args
  ↔ Forall stable args.
Proof.
  induction args as [|t rest IH]; simpl.
  - split; [constructor | tauto].
  - rewrite IH, Forall_cons. reflexivity.
Qed.

Lemma stable_generic (origin : string) (args : list ty) :
  stable (TGeneric origin args)
  ↔ Forall stable args ∧ (origin = "typing.Union" → normalised args).
Proof. simpl. rewrite stable_args. reflexivity. Qed.

Lemma stable_union_members (p : ty) :
  stable p → Forall (fun t => stable t ∧ is_union t = false) (union_members p).
Proof.
  intros Hp. destruct p as [| | | | |o args| | |]; simpl in Hp; try contradiction;
    try (repeat constructor; fail).
  unfold union_members. destruct (String.eqb o "typing.Union") eqn:Ho.
  - apply String.eqb_eq in Ho. destruct Hp as [Hargs Hnormal].
    apply stable_args in Hargs. destruct (Hnormal Ho) as (Hplain & _).
    rewrite Forall_forall in Hargs, Hplain. apply Forall_forall.
    intros t Ht. split; [exact (Hargs t Ht) | exact (Hplain t Ht)].
  - constructor; [|constructor]. split; [exact Hp | simpl; exact Ho].
Qed.

Lemma Union_stable (params : list ty) : Forall stable params → stable (Union params).
Proof.
  intros Hparams. rewrite Union_unfold. cbv zeta.
  assert (Hflat : Forall (fun t => stable t ∧ is_union t = false)
                         (flat_map union_members params)).
  { induction Hparams as [|p rest Hp _ IH]; [constructor|].
    simpl. apply Forall_app. split; [apply stable_union_members; exact Hp | exact IH]. }
  unfold without_repetitions.
  destruct (without_repetitions_from [] (flat_map union_members params))
    as (Hin & Hnodup & _).
  set (d := fold_left _ _ _) in *.
  assert (Hd : Forall (fun t => stable t ∧ is_union t = false) d).
  { rewrite Forall_forall in Hflat. apply Forall_forall. intros t Ht.
    apply Hin in Ht as [Ht|Ht]; [inversion Ht | exact (Hflat t Ht)]. }
  specialize (Hnodup (NoDup_nil_2)).
  assert (Hgeneric : length d ≠ 1 → stable (TGeneric "typing.Union" d)).
  { intros Hlength. apply stable_generic. split.
    - eapply Forall_impl; [exact Hd | intros t [Ht _]; exact Ht].
    - intros _. split; [|split; [exact Hnodup | exact Hlength]].
      eapply Forall_impl; [exact Hd | intros t [_ Ht]; exact Ht]. }
  destruct d as [|x [|y rest]].
  - apply Hgeneric. discriminate.
  - apply Forall_cons in Hd as [[Hx _] _]. exact Hx.
  - apply Hgeneric. discriminate.
Qed.

(** Substitution leaves a stable type as it is. *)
Lemma stable_replace (st : store) (is_input : bool) (type_ : ty) :
  stable type_ → replace_pydantic_types st type_ is_input = Ok type_.
Proof.
  induction type_ as [n|n|a|r|vs|o args IH|o args IH|n|n d IH] using ty_nested_ind;
    intros Hstable; try (destruct Hstable; fail); try reflexivity.
  apply stable_generic in Hstable as [Hargs Hnormal].
  rewrite replace_generic.
  rewrite (for_each_map _ (fun t => t)).
  - rewrite map_id. cbn [bind copy_with].
    destruct (String.eqb o "typing.Union") eqn:Ho.
    + apply String.eqb_eq in Ho. rewrite (Union_normalised args (Hnormal Ho)).
      subst o. reflexivity.
    + reflexivity.
  - intros t Ht. rewrite Forall_forall in IH, Hargs. exact (IH t Ht (Hargs t Ht)).
Qed.

(** In a store whose registrations the decorator made, what substitution
    returns is stable. *)
Lemma replace_stable (st : store) (type_ : ty) (is_input : bool) (replaced : ty) :
  registrations_generated st →
  replace_pydantic_types st type_ is_input = Ok replaced →
  stable replaced.
Proof.
  intros Hinv. revert replaced.
  induction type_ as [n|n|a|r|vs|o args IH|o args IH|n|n d IH] using ty_nested_ind;
    intros replaced; try (simpl; intros [= <-]; exact I); try (simpl; discriminate).
  - simpl. destruct (class_getattr _ _ _) as [v|] eqn:Hv; [|discriminate].
    intros [= <-].
    destruct (registered_is_generated st _ is_input v Hinv Hv) as [a ->].
    exact I.
  - rewrite replace_generic.
    destruct (for_each _ args) as [args'|] eqn:Hfor; cbn [bind]; [|discriminate].
    pose proof (replace_args_pointwise st is_input _ args args' IH Hfor) as Hargs.
    destruct (isinstance_TypeDefinition _) eqn:Hdef; intros [= <-]; [exact I|].
    unfold copy_with. destruct (String.eqb o "typing.Union") eqn:Ho.
    + apply Union_stable. exact Hargs.
    + apply stable_generic. split; [exact Hargs|].
      intros ->. discriminate.
Qed.

Lemma stable_no_model (type_ : ty) : stable type_ → models_walked type_ = [].
Proof.
  induction type_ as [n|n|a|r|vs|o args IH|o args IH|n|n d IH] using ty_nested_ind;
    intros Hstable; try (destruct Hstable; fail); try reflexivity.
  apply stable_generic in Hstable as [Hargs _].
  simpl. rewrite models_walked_args.
  induction IH as [|t rest Ht _ IHrest]; [reflexivity|].
  apply Forall_cons in Hargs as [Hhead Hrest].
  simpl. rewrite (Ht Hhead), (IHrest Hrest). reflexivity.
Qed.

(** X1: the walk succeeds exactly when it meets neither a generic without
    [copy_with] nor an object that is no class, and every model it meets
    carries the registration attribute for the requested direction. *)
Theorem replace_pydantic_types_succeeds_iff (st : store) (type_ : ty)
    (is_input : bool) :
  (∃ replaced, replace_pydantic_types st type_ is_input = Ok replaced)
  ↔ walkable type_ = true
    ∧ ∀ name, name ∈ models_walked type_ →
              hasattr st (TModel name) (registration_attr is_input) = true.
Proof.
  split.
  - intros [replaced Hok]. revert replaced Hok.
    induction type_ as [n|n|a|r|vs|o args IH|o args IH|n|n d IH]
      using ty_nested_ind;
      intros replaced Hok; try (simpl in Hok; discriminate);
      try (split; [reflexivity | intros name Hin; inversion Hin]; fail).
    + split; [reflexivity|]. intros name Hin. simpl in Hin, Hok.
      apply list_elem_of_singleton in Hin as ->.
      unfold hasattr. apply bool_decide_eq_true.
      destruct (class_getattr _ _ _); [eauto | discriminate].
    + rewrite replace_generic in Hok.
      destruct (for_each _ args) as [args'|] eqn:Hfor; [|discriminate].
      clear Hok. rewrite Forall_forall in IH. split.
      * simpl. rewrite walkable_args. apply forallb_forall. intros t Ht.
        apply list_elem_of_In in Ht.
        destruct (for_each_Ok_elem _ _ _ t Hfor Ht) as (t' & Hok').
        exact (proj1 (IH t Ht t' Hok')).
      * intros name Hin. simpl in Hin. rewrite models_walked_args in Hin.
        apply elem_of_flat_map_walked in Hin as (t & Ht & Hname).
        destruct (for_each_Ok_elem _ _ _ t Hfor Ht) as (t' & Hok').
        exact (proj2 (IH t Ht t' Hok') name Hname).
  - intros [Hwalkable Hall].
    destruct (replace_pydantic_types st type_ is_input) as [replaced|e] eqn:Hr;
      [eauto|].
    apply replace_pydantic_types_raises in Hr
      as [(name & _ & Hin & Hnone)|[_ Hno]]; [|congruence].
    specialize (Hall name Hin). apply hasattr_false in Hnone. congruence.
Qed.

(** X2: in a store whose registrations the decorator made, the substituted
    type holds no pydantic model where the walk would meet one. *)
Theorem replace_pydantic_types_leaves_no_model (st : store) (type_ : ty)
    (is_input : bool) (replaced : ty) :
  registrations_generated st →
  replace_pydantic_types st type_ is_input = Ok replaced →
  models_walked replaced = [].
Proof.
  intros Hinv Hok. apply stable_no_model.
  exact (replace_stable st type_ is_input replaced Hinv Hok).
Qed.

(** X3: substitution is idempotent there: substituting in a substituted
    type changes nothing. *)
Theorem replace_pydantic_types_idempotent (st : store) (type_ : ty)
    (is_input : bool) (replaced : ty) :
  registrations_generated st →
  replace_pydantic_types st type_ is_input = Ok replaced →
  replace_pydantic_types st replaced is_input = Ok replaced.
Proof.
  intros Hinv Hok. apply stable_replace.
  exact (replace_stable st type_ is_input replaced Hinv Hok).
Qed.

(** ** Field types, continued *)

Lemma get_type_for_field_raises (get_basic_type : ty → option ty)
    (st : store) (field : ModelField.t) (is_input : bool) (e : exn) :
  get_type_for_field get_basic_type st field is_input = Raise e →
  e = UnsupportedTypeError
  ∨ (∃ name, e = UnregisteredTypeException name)
  ∨ e = AttributeError "copy_with"
  ∨ e = TypeError "issubclass() arg 1 must be a class".
Proof.
  unfold get_type_for_field.
  destruct (get_basic_type _) as [basic|]; simpl; [|intros [= <-]; left; reflexivity].
  destruct (replace_pydantic_types st basic is_input) eqn:Hr; simpl; [discriminate|].
  intros [= <-].
  apply replace_pydantic_types_raises in Hr as [(name & -> & _)|[[->| ->] _]];
    eauto.
Qed.

(** X4: [get_type_for_field] fails with [UnsupportedTypeError] when the
    field's type has no basic type, and otherwise with the exception of
    the substitution in the basic type: [UnregisteredTypeException] for a
    model that the walk meets and that lacks the registration attribute,
    [AttributeError] for a generic without [copy_with], or [TypeError] for
    an object that is no class.  When it returns, the type is that of
    C8. *)
Theorem get_type_for_field_outcome (get_basic_type : ty → option ty)
    (st : store) (field : ModelField.t) (is_input : bool) :
  match get_type_for_field get_basic_type st field is_input with
  | Ok type_ =>
      ∃ basic substituted,
        get_basic_type (ModelField.outer_type_ field) = Some basic
        ∧ replace_pydantic_types st basic is_input = Ok substituted
        ∧ type_ = (if ModelField.required field then substituted
                   else Optional substituted)
  | Raise e =>
      (e = UnsupportedTypeError
       ∧ get_basic_type (ModelField.outer_type_ field) = None)
      ∨ (∃ basic,
           get_basic_type (ModelField.outer_type_ field) = Some basic
           ∧ replace_pydantic_types st basic is_input = Raise e
           ∧ ((∃ name,
                 e = UnregisteredTypeException name
                 ∧ name ∈ models_walked basic
                 ∧ hasattr st (TModel name) (registration_attr is_input) = false)
              ∨ ((e = AttributeError "copy_with"
                  ∨ e = TypeError "issubclass() arg 1 must be a class")
                 ∧ walkable basic = false)))
  end.
Proof.
  unfold get_type_for_field.
  destruct (get_basic_type _) as [basic|]; simpl; [|left; split; reflexivity].
  destruct (replace_pydantic_types st basic is_input) as [substituted|e] eqn:Hr;
    simpl.
  - exists basic, substituted. split; [reflexivity|]. split; [exact Hr|].
    destruct (ModelField.required field); reflexivity.
  - right. exists basic. split; [reflexivity|]. split; [exact Hr|].
    apply replace_pydantic_types_raises in Hr
      as [(name & -> & Hin & Hnone)|Hother]; [left | right; exact Hother].
    exists name. repeat split; [exact Hin | apply hasattr_false; exact Hnone].
Qed.

(** X5: building the creation record of a field raises [KeyError] exactly
    when the field is outside the auto set and the class declares no field
    of that name; the key is the field's name. *)
Theorem build_key_error_iff (get_basic_type : ty → option ty)
    (get_default_factory_for_field : ModelField.t → outcome (option value))
    (st : store) (field : ModelField.t) (is_input : bool)
    (existing_fields : gmap string StrawberryField.t)
    (auto_fields_set : gset string) (key : string) :
  _build_dataclass_creation_fields get_basic_type get_default_factory_for_field
    st field is_input existing_fields auto_fields_set = Raise (KeyError key)
  ↔ key = ModelField.name field
    ∧ (ModelField.name field ∉ auto_fields_set)
    ∧ existing_fields !! ModelField.name field = None.
Proof.
  unfold _build_dataclass_creation_fields. split.
  - case_bool_decide as Hauto.
    + destruct (get_type_for_field _ _ _ _) as [t|e] eqn:Ht; simpl.
      * destruct (existing_fields !! _) as [ex|];
          [destruct (StrawberryField.base_resolver ex)|]; simpl;
          try destruct (get_default_factory_for_field field); simpl; discriminate.
      * intros [= ->].
        apply get_type_for_field_raises in Ht as [[=]|[[n [=]]|[[=]|[=]]]].
    + destruct (existing_fields !! _) as [ex|] eqn:Hex; simpl.
      * destruct (StrawberryField.base_resolver ex); simpl;
          try destruct (get_default_factory_for_field field); simpl; discriminate.
      * intros [= <-]. repeat split. exact Hauto.
  - intros (-> & Hauto & Hnone).
    rewrite (bool_decide_eq_false_2 _ Hauto), Hnone. reflexivity.
Qed.

(** X6: a field for which the user defined a resolver keeps the user's
    field object, and [get_default_factory_for_field] is not consulted; for
    any other field its failure is the failure of the record. *)
Theorem build_keeps_user_resolver (get_basic_type : ty → option ty)
    (get_default_factory_for_field : ModelField.t → outcome (option value))
    (st : store) (field : ModelField.t) (is_input : bool)
    (existing_fields : gmap string StrawberryField.t)
    (auto_fields_set : gset string) :
  let build :=
    _build_dataclass_creation_fields get_basic_type get_default_factory_for_field
      st field is_input existing_fields auto_fields_set in
  (∀ existing resolver,
     existing_fields !! ModelField.name field = Some existing →
     StrawberryField.base_resolver existing = Some resolver →
     (ModelField.name field ∈ auto_fields_set →
      ∀ t, get_type_for_field get_basic_type st field is_input = Ok t →
           build = Ok {| DataclassCreationFields.name := ModelField.name field;
                         DataclassCreationFields.type_annotation := t;
                         DataclassCreationFields.field := existing |})
     ∧ (ModelField.name field ∉ auto_fields_set →
        build = Ok {| DataclassCreationFields.name := ModelField.name field;
                      DataclassCreationFields.type_annotation :=
                        StrawberryField.type existing;
                      DataclassCreationFields.field := existing |}))
  ∧ (∀ message,
       get_default_factory_for_field field = Fails message →
       (∀ existing, existing_fields !! ModelField.name field = Some existing →
                    StrawberryField.base_resolver existing = None) →
       ∀ created, build ≠ Ok created).
Proof.
  intros build. subst build. unfold _build_dataclass_creation_fields. split.
  - intros existing resolver Hex Hres. split.
    + intros Hauto t Ht.
      rewrite (bool_decide_eq_true_2 _ Hauto), Ht, Hex. simpl. rewrite Hres.
      reflexivity.
    + intros Hauto.
      rewrite (bool_decide_eq_false_2 _ Hauto), Hex. simpl. rewrite Hres.
      reflexivity.
  - intros message Hfails Hnone created.
    destruct (if bool_decide _ then _ else _) as [t|]; simpl; [|discriminate].
    rewrite Hfails.
    destruct (existing_fields !! _) as [ex|] eqn:Hex; simpl; [|discriminate].
    rewrite (Hnone ex eq_refl). simpl. discriminate.
Qed.

(** ** The decorator, continued *)

Section decorated.

Variable get_basic_type : ty → option ty.
Variable ensure_all_auto_fields_in_pydantic :
  store → string → gset string → string → outcome unit.
Variable get_default_factory_for_field : ModelField.t → outcome (option value).
Variable get_private_fields : PyClass.t → outcome (list StrawberryField.t).
Variable sort_creation_fields :
  list DataclassCreationFields.t → outcome (list DataclassCreationFields.t).
Variable _wrap_dataclass : PyClass.t → outcome PyClass.t.
Variable _get_fields : PyClass.t → outcome (list StrawberryField.t).
Variable _process_type :
  SchemaClass.t → option string → bool → bool → option string →
  list string → outcome TypeDefinition.t.

Let decorate :=
  wrap get_basic_type ensure_all_auto_fields_in_pydantic
       get_default_factory_for_field get_private_fields sort_creation_fields
       _wrap_dataclass _get_fields _process_type.

Let sorted :=
  sorted_fields_of get_basic_type ensure_all_auto_fields_in_pydantic
       get_default_factory_for_field get_private_fields sort_creation_fields
       _wrap_dataclass _get_fields.

Let build :=
  _build_dataclass_creation_fields get_basic_type get_default_factory_for_field.

(** The creation record of a declared field that is not copied. *)
Let declared (field : StrawberryField.t) : DataclassCreationFields.t :=
  {| DataclassCreationFields.name := StrawberryField.name field;
     DataclassCreationFields.type_annotation := StrawberryField.type field;
     DataclassCreationFields.field := field |}.

(** What a successful decoration went through. *)
Lemma wrap_returns model fields name is_input is_interface description
    directives all_fields from_pydantic to_pydantic cls st addr st' :
  decorate model fields name is_input is_interface description directives
    all_fields from_pydantic to_pydantic cls st = (Ok addr, st') →
  ∃ k sorted_fields definition,
    models st !! model = Some k
    ∧ fields_set_of (ModelClass.__fields__ k) fields (existing_fields_of cls)
        all_fields ≠ ∅
    ∧ sorted st model (ModelClass.__fields__ k) fields is_input all_fields cls
      = Ok sorted_fields
    ∧ addr = length (classes st)
    ∧ _process_type (made_class st model cls sorted_fields addr) name is_input
        is_interface description directives = Returns definition
    ∧ st' = {| models := <[model := registered_model k is_input addr]> (models st);
               classes :=
                 classes st ++
                 [finished_class (made_class st model cls sorted_fields addr)
                    model definition from_pydantic to_pydantic addr] |}.
Proof.
  unfold decorate. rewrite wrap_unfold. intros H.
  destruct (models st !! model) as [k|] eqn:Hk; [|discriminate].
  cbv zeta in H. case_bool_decide as Hempty; [discriminate|].
  destruct (sorted_fields_of _ _ _ _ _ _ _ _ _ _ _ _ _ _) as [sorted_fields|e]
    eqn:Hsorted; [|discriminate].
  destruct (_process_type _ _ _ _ _ _) as [definition|] eqn:Hdef; [|discriminate].
  injection H as <- <-.
  exists k, sorted_fields, definition. repeat split; assumption.
Qed.

(** What the sorted fields were made of. *)
Lemma sorted_fields_returns st model model_fields fields is_input all_fields cls
    sorted_fields :
  sorted st model model_fields fields is_input all_fields cls = Ok sorted_fields →
  ∃ wrapped extra_fields private_fields built,
    _wrap_dataclass cls = Returns wrapped
    ∧ _get_fields wrapped = Returns extra_fields
    ∧ get_private_fields wrapped = Returns private_fields
    ∧ Forall2
        (fun item created =>
           build st item.2 is_input (fields_dict extra_fields)
             (auto_fields_set_of model_fields fields (existing_fields_of cls)
                all_fields)
           = Ok created)
        (filter (fun item : string * ModelField.t =>
                   item.1 ∈ fields_set_of model_fields fields
                              (existing_fields_of cls) all_fields)
                model_fields)
        built
    ∧ sort_creation_fields
        (built ++
         map declared
           (filter (fun field =>
                      StrawberryField.name field
                      ∉ fields_set_of model_fields fields
                          (existing_fields_of cls) all_fields)
                   (extra_fields ++ private_fields)))
      = Returns sorted_fields.
Proof.
  unfold sorted, sorted_fields_of.
  destruct (ensure_all_auto_fields_in_pydantic _ _ _ _); simpl; [|discriminate].
  destruct (_wrap_dataclass cls) as [wrapped|] eqn:Hwrapped; simpl; [|discriminate].
  destruct (_get_fields wrapped) as [extra|] eqn:Hextra; simpl; [|discriminate].
  destruct (get_private_fields wrapped) as [private|] eqn:Hprivate; simpl;
    [|discriminate].
  destruct (for_each _ _) as [built|] eqn:Hbuilt; simpl; [|discriminate].
  destruct (sort_creation_fields _) as [l|] eqn:Hsort; simpl; [|discriminate].
  intros [= <-]. exists wrapped, extra, private, built.
  split; [reflexivity|]. split; [exact Hextra|]. split; [exact Hprivate|].
  split; [apply for_each_Forall2 in Hbuilt; exact Hbuilt | exact Hsort].
Qed.

(** X7: a decoration that fails, with whatever exception, leaves every
    model class and every class generated before as it was: nothing is
    registered. *)
Theorem failed_decoration_registers_nothing model fields name is_input
    is_interface description directives all_fields from_pydantic to_pydantic
    cls st e st' :
  decorate model fields name is_input is_interface description directives
    all_fields from_pydantic to_pydantic cls st = (Raise e, st') →
  models st' = models st
  ∧ (∀ a c, classes st !! a = Some c → classes st' !! a = Some c)
  ∧ (∀ m attr, class_getattr st' (TModel m) attr = class_getattr st (TModel m) attr).
Proof.
  unfold decorate. rewrite wrap_unfold. intros H.
  assert (Hst : models st' = models st
                ∧ (∀ a c, classes st !! a = Some c → classes st' !! a = Some c)).
  { destruct (models st !! model) as [k|];
      [|injection H as _ <-; split; [reflexivity | auto]].
    cbv zeta in H. case_bool_decide;
      [injection H as _ <-; split; [reflexivity | auto]|].
    destruct (sorted_fields_of _ _ _ _ _ _ _ _ _ _ _ _ _ _) as [sorted_fields|e'];
      [|injection H as _ <-; split; [reflexivity | auto]].
    destruct (_process_type _ _ _ _ _ _); [discriminate|].
    injection H as _ <-. simpl. split; [reflexivity|].
    intros a c Hc. apply lookup_app_l_Some. exact Hc. }
  destruct Hst as [Hmodels Hclasses]. split; [exact Hmodels|]. split; [exact Hclasses|].
  intros m attr. unfold class_getattr, mro, own_attr. rewrite Hmodels.
  reflexivity.
Qed.

Lemma build_unregistered st field is_input existing_fields auto_fields_set n :
  build st field is_input existing_fields auto_fields_set
  = Raise (UnregisteredTypeException n) →
  ModelField.name field ∈ auto_fields_set
  ∧ ∃ basic,
      get_basic_type (ModelField.outer_type_ field) = Some basic
      ∧ n ∈ models_walked basic
      ∧ hasattr st (TModel n) (registration_attr is_input) = false.
Proof.
  unfold build, _build_dataclass_creation_fields, get_type_for_field.
  case_bool_decide as Hauto.
  - destruct (get_basic_type _) as [basic|]; simpl; [|discriminate].
    destruct (replace_pydantic_types st basic is_input) eqn:Hr; simpl.
    + destruct (existing_fields !! _) as [ex|];
        [destruct (StrawberryField.base_resolver ex)|]; simpl;
        try destruct (get_default_factory_for_field field); simpl; discriminate.
    + intros [= ->].
      apply replace_pydantic_types_raises in Hr
        as [(n' & [= <-] & Hin & Hnone)|[[He|He] _]]; [|discriminate..].
      split; [exact Hauto|]. exists basic. split; [reflexivity|].
      split; [exact Hin | apply hasattr_false; exact Hnone].
  - destruct (existing_fields !! _) as [ex|]; simpl; [|discriminate].
    destruct (StrawberryField.base_resolver ex); simpl;
      try destruct (get_default_factory_for_field field); simpl; discriminate.
Qed.

(** X8: when decoration raises [UnregisteredTypeException] for a model,
    that model lacks the registration attribute for the requested
    direction and occurs, where the walk meets it, in the basic type of a
    field of the decorated model that is copied and in the auto set. *)
Theorem unregistered_type_exception_origin model fields name is_input
    is_interface description directives all_fields from_pydantic to_pydantic
    cls st n st' :
  decorate model fields name is_input is_interface description directives
    all_fields from_pydantic to_pydantic cls st
  = (Raise (UnregisteredTypeException n), st') →
  ∃ k item basic,
    models st !! model = Some k
    ∧ item ∈ ModelClass.__fields__ k
    ∧ item.1 ∈ fields_set_of (ModelClass.__fields__ k) fields
                 (existing_fields_of cls) all_fields
    ∧ ModelField.name item.2
      ∈ auto_fields_set_of (ModelClass.__fields__ k) fields
          (existing_fields_of cls) all_fields
    ∧ get_basic_type (ModelField.outer_type_ item.2) = Some basic
    ∧ n ∈ models_walked basic
    ∧ hasattr st (TModel n) (registration_attr is_input) = false.
Proof.
  unfold decorate. rewrite wrap_unfold. intros H.
  destruct (models st !! model) as [k|] eqn:Hk; [|discriminate].
  cbv zeta in H. case_bool_decide as Hempty; [discriminate|].
  destruct (sorted_fields_of _ _ _ _ _ _ _ _ _ _ _ _ _ _) as [sorted_fields|e]
    eqn:Hsorted; [destruct (_process_type _ _ _ _ _ _); discriminate|].
  injection H as -> _. exists k.
  unfold sorted_fields_of in Hsorted.
  destruct (ensure_all_auto_fields_in_pydantic _ _ _ _); simpl in Hsorted;
    [|discriminate].
  destruct (_wrap_dataclass cls) as [wrapped|]; simpl in Hsorted; [|discriminate].
  destruct (_get_fields wrapped) as [extra|]; simpl in Hsorted; [|discriminate].
  destruct (get_private_fields wrapped) as [private|]; simpl in Hsorted;
    [|discriminate].
  destruct (for_each _ _) as [built|e] eqn:Hbuilt; simpl in Hsorted.
  - destruct (sort_creation_fields _); discriminate.
  - injection Hsorted as ->.
    apply for_each_raises in Hbuilt as (item & Hitem & Hraise).
    apply list_elem_of_filter in Hitem as [Hcopied Hitem].
    apply build_unregistered in Hraise as (Hauto & basic & Hbasic & Hin & Hnone).
    exists item, basic. repeat split; assumption.
Qed.

(** X9: the decorator keeps the store consistent: if every registration
    attribute held a generated class that points back to its model, this
    still holds after a successful decoration. *)
Theorem decoration_keeps_registrations_generated model fields name is_input
    is_interface description directives all_fields from_pydantic to_pydantic
    cls st addr st' :
  registrations_generated st →
  decorate model fields name is_input is_interface description directives
    all_fields from_pydantic to_pydantic cls st = (Ok addr, st') →
  registrations_generated st'.
Proof.
  intros Hinv H.
  apply wrap_returns in H as (k & sorted_fields & definition & Hk & _ & _ & -> & _ & ->).
  intros m k' is_input' v Hk' Hv. simpl in Hk'.
  assert (Hold : ∀ m0 k0, models st !! m0 = Some k0 →
            ModelClass.__dict__ k0 !! registration_attr is_input' = Some v →
            ∃ a c, v = TSchema a
              ∧ (classes st ++
                 [finished_class (made_class st model cls sorted_fields
                                    (length (classes st)))
                    model definition from_pydantic to_pydantic
                    (length (classes st))]) !! a = Some c
              ∧ SchemaClass._pydantic_type c = Some m0).
  { intros m0 k0 Hk0 Hv0.
    destruct (Hinv _ _ _ _ Hk0 Hv0) as (a & c & -> & Hc & Hback).
    exists a, c. split; [reflexivity|]. split; [|exact Hback].
    apply lookup_app_l_Some. exact Hc. }
  destruct (decide (m = model)) as [->|Hne].
  - rewrite lookup_insert_eq in Hk'. injection Hk' as <-. simpl in Hv.
    destruct (decide (registration_attr is_input = registration_attr is_input'))
      as [Hsame|Hdiff].
    + rewrite Hsame, lookup_insert_eq in Hv. injection Hv as <-.
      eexists _, _. split; [reflexivity|]. simpl. split.
      * rewrite lookup_app_r by lia. rewrite Nat.sub_diag. reflexivity.
      * reflexivity.
    + rewrite lookup_insert_ne in Hv by exact Hdiff.
      exact (Hold model k Hk Hv).
  - rewrite lookup_insert_ne in Hk' by congruence.
    exact (Hold m k' Hk' Hv).
Qed.

(** X10: two successful decorations of one model create two classes.  The
    model is then registered, for the direction of the second, to the
    second class; the registration of the first survives exactly when the
    directions differ.  Both classes point back to the model. *)
Theorem second_decoration model
    fields1 name1 is_input1 is_interface1 description1 directives1 all_fields1
    from_pydantic1 to_pydantic1 cls1
    fields2 name2 is_input2 is_interface2 description2 directives2 all_fields2
    from_pydantic2 to_pydantic2 cls2 st a1 st1 a2 st2 :
  decorate model fields1 name1 is_input1 is_interface1 description1 directives1
    all_fields1 from_pydantic1 to_pydantic1 cls1 st = (Ok a1, st1) →
  decorate model fields2 name2 is_input2 is_interface2 description2 directives2
    all_fields2 from_pydantic2 to_pydantic2 cls2 st1 = (Ok a2, st2) →
  a2 = S a1
  ∧ ∃ k2 c1 c2,
      models st2 !! model = Some k2
      ∧ ModelClass.__dict__ k2 !! registration_attr is_input2 = Some (TSchema a2)
      ∧ ModelClass.__dict__ k2 !! registration_attr is_input1
        = Some (TSchema (if bool_decide (is_input1 = is_input2) then a2 else a1))
      ∧ classes st2 !! a1 = Some c1
      ∧ classes st2 !! a2 = Some c2
      ∧ SchemaClass._pydantic_type c1 = Some model
      ∧ SchemaClass._pydantic_type c2 = Some model.
Proof.
  intros H1 H2.
  apply wrap_returns in H1 as (k & sorted1 & def1 & Hk & _ & _ & -> & _ & ->).
  apply wrap_returns in H2 as (k1 & sorted2 & def2 & Hk1 & _ & _ & -> & _ & ->).
  simpl in *. rewrite lookup_insert_eq in Hk1. injection Hk1 as <-.
  split; [rewrite length_app; simpl; lia|].
  eexists _, _, _. split; [apply lookup_insert_eq|]. simpl.
  split; [apply lookup_insert_eq|]. split.
  - case_bool_decide as Hsame.
    + subst is_input2. apply lookup_insert_eq.
    + rewrite lookup_insert_ne by (destruct is_input1, is_input2; simpl; congruence).
      apply lookup_insert_eq.
  - split.
    { rewrite lookup_app_l by (rewrite length_app; simpl; lia).
      rewrite lookup_app_r by lia. rewrite Nat.sub_diag. reflexivity. }
    split.
    { rewrite lookup_app_r by lia. rewrite Nat.sub_diag. reflexivity. }
    split; reflexivity.
Qed.

(** X11: the three entry points differ in the defaults they give [wrap].
    [type] registers the generated class as [_strawberry_type], [input] as
    [_strawberry_input_type], unless the call passes [is_input] itself;
    [interface] makes [_process_type] see [is_interface=True], unless the
    call passes [is_interface] itself. *)
Theorem entry_points model kw cls st addr st' :
  (type get_basic_type ensure_all_auto_fields_in_pydantic
     get_default_factory_for_field get_private_fields sort_creation_fields
     _wrap_dataclass _get_fields _process_type model kw cls st = (Ok addr, st') →
   ∃ k k',
     models st !! model = Some k ∧ models st' !! model = Some k'
     ∧ ModelClass.__dict__ k'
       = <[(if default false (Keywords.is_input kw)
            then "_strawberry_input_type" else "_strawberry_type")
           := TSchema addr]> (ModelClass.__dict__ k))
  ∧ (input get_basic_type ensure_all_auto_fields_in_pydantic
       get_default_factory_for_field get_private_fields sort_creation_fields
       _wrap_dataclass _get_fields _process_type model kw cls st = (Ok addr, st') →
     ∃ k k',
       models st !! model = Some k ∧ models st' !! model = Some k'
       ∧ ModelClass.__dict__ k'
         = <[(if default true (Keywords.is_input kw)
              then "_strawberry_input_type" else "_strawberry_type")
             := TSchema addr]> (ModelClass.__dict__ k))
  ∧ (interface get_basic_type ensure_all_auto_fields_in_pydantic
       get_default_factory_for_field get_private_fields sort_creation_fields
       _wrap_dataclass _get_fields _process_type model kw cls st = (Ok addr, st') →
     ∃ made generated definition,
       classes st' !! addr = Some generated
       ∧ SchemaClass._type_definition generated = Some definition
       ∧ _process_type made (Keywords.name kw)
           (default false (Keywords.is_input kw))
           (default true (Keywords.is_interface kw))
           (Keywords.description kw) (default [] (Keywords.directives kw))
         = Returns definition).
Proof.
  split; [|split]; unfold interface, input, type; simpl Keywords.is_input;
    simpl Keywords.is_interface; intros H;
    apply wrap_returns in H
      as (k & sorted_fields & definition & Hk & _ & _ & -> & Hdef & ->).
  - exists k, (registered_model k (default false (Keywords.is_input kw))
                 (length (classes st))).
    split; [exact Hk|]. split; [apply lookup_insert_eq | reflexivity].
  - exists k, (registered_model k (default true (Keywords.is_input kw))
                 (length (classes st))).
    split; [exact Hk|]. split; [apply lookup_insert_eq | reflexivity].
  - eexists _, _, definition. split.
    { simpl. rewrite lookup_app_r by lia. rewrite Nat.sub_diag. reflexivity. }
    split; [reflexivity | exact Hdef].
Qed.

Lemma built_names st is_input existing_fields auto_fields_set
    (items : list (string * ModelField.t)) (built : list DataclassCreationFields.t) :
  Forall2 (fun item created =>
             build st item.2 is_input existing_fields auto_fields_set = Ok created)
          items built →
  map DataclassCreationFields.name built
  = map (fun item => ModelField.name item.2) items.
Proof.
  induction 1 as [|item created items built Hb _ IH]; [reflexivity|].
  simpl. rewrite IH. f_equal.
  exact (build_name get_basic_type get_default_factory_for_field _ _ _ _ _ _ Hb).
Qed.

Lemma tuple_names (l : list DataclassCreationFields.t) :
  (map DataclassCreationFields.to_tuple l).*1.*1 = map DataclassCreationFields.name l.
Proof. induction l as [|x l IH]; [reflexivity|]. simpl. rewrite <- IH. reflexivity. Qed.

(** The names of the generated fields, up to the order that
    [sort_creation_fields] gives them. *)
Lemma generated_names_permutation model fields name is_input is_interface
    description directives all_fields from_pydantic to_pydantic cls st addr st' :
  decorate model fields name is_input is_interface description directives
    all_fields from_pydantic to_pydantic cls st = (Ok addr, st') →
  (∀ l l', sort_creation_fields l = Returns l' → l' ≡ₚ l) →
  ∃ k generated wrapped extra_fields private_fields,
    models st !! model = Some k
    ∧ classes st' !! addr = Some generated
    ∧ _wrap_dataclass cls = Returns wrapped
    ∧ _get_fields wrapped = Returns extra_fields
    ∧ get_private_fields wrapped = Returns private_fields
    ∧ (SchemaClass.__dataclass_fields__ generated).*1.*1
      ≡ₚ map (fun item => ModelField.name item.2)
           (filter (fun item : string * ModelField.t =>
                      item.1 ∈ fields_set_of (ModelClass.__fields__ k) fields
                                 (existing_fields_of cls) all_fields)
                   (ModelClass.__fields__ k))
         ++ filter (fun n => n ∉ fields_set_of (ModelClass.__fields__ k) fields
                               (existing_fields_of cls) all_fields)
              (map StrawberryField.name (extra_fields ++ private_fields)).
Proof.
  intros H Hsort.
  apply wrap_returns in H
    as (k & sorted_fields & definition & Hk & _ & Hsorted & -> & _ & ->).
  apply sorted_fields_returns in Hsorted
    as (wrapped & extra & private & built & Hw & He & Hp & Hbuilt & Hs).
  eexists k, _, wrapped, extra, private.
  split; [exact Hk|]. split.
  { simpl. rewrite lookup_app_r by lia. rewrite Nat.sub_diag. reflexivity. }
  split; [exact Hw|]. split; [exact He|]. split; [exact Hp|].
  simpl. rewrite tuple_names. rewrite (Hsort _ _ Hs), map_app.
  rewrite (built_names _ _ _ _ _ _ Hbuilt). apply Permutation_app_head.
  rewrite map_map. simpl.
  generalize (extra ++ private). intros l. clear.
  induction l as [|f l IH]; [reflexivity|].
  simpl. rewrite !filter_cons. simpl.
  destruct (decide (StrawberryField.name f ∉ _)); simpl; rewrite IH; reflexivity.
Qed.

(** X12: a name is a field of the generated class exactly when it is the
    name of a model field whose key is in the set of copied fields, or the
    name of a field that the class declares and that is not in that set.
    A model field that is neither selected nor declared is not exposed. *)
Theorem generated_field_names model fields name is_input is_interface
    description directives all_fields from_pydantic to_pydantic cls st addr st' :
  decorate model fields name is_input is_interface description directives
    all_fields from_pydantic to_pydantic cls st = (Ok addr, st') →
  (∀ l l', sort_creation_fields l = Returns l' → l' ≡ₚ l) →
  ∃ k generated wrapped extra_fields private_fields,
    models st !! model = Some k
    ∧ classes st' !! addr = Some generated
    ∧ _wrap_dataclass cls = Returns wrapped
    ∧ _get_fields wrapped = Returns extra_fields
    ∧ get_private_fields wrapped = Returns private_fields
    ∧ ∀ n,
        n ∈ (SchemaClass.__dataclass_fields__ generated).*1.*1
        ↔ (∃ item, item ∈ ModelClass.__fields__ k
                   ∧ item.1 ∈ fields_set_of (ModelClass.__fields__ k) fields
                                (existing_fields_of cls) all_fields
                   ∧ ModelField.name item.2 = n)
          ∨ (∃ f, f ∈ extra_fields ++ private_fields
                  ∧ StrawberryField.name f = n
                  ∧ n ∉ fields_set_of (ModelClass.__fields__ k) fields
                          (existing_fields_of cls) all_fields).
Proof.
  intros H Hsort.
  destruct (generated_names_permutation _ _ _ _ _ _ _ _ _ _ _ _ _ _ H Hsort)
    as (k & generated & wrapped & extra & private & Hk & Hc & Hw & He & Hp & Hperm).
  exists k, generated, wrapped, extra, private.
  repeat (split; [assumption|]).
  intros n. rewrite Hperm, elem_of_app. split.
  - intros [Hn|Hn]; [left | right].
    + apply list_elem_of_fmap in Hn as (item & -> & Hin).
      apply list_elem_of_filter in Hin as [Hcopied Hitem]. eauto.
    + apply list_elem_of_filter in Hn as [Hout Hn].
      apply list_elem_of_fmap in Hn as (f & -> & Hf). eauto.
  - intros [(item & Hitem & Hcopied & <-)|(f & Hf & <- & Hout)]; [left | right].
    + apply list_elem_of_fmap. exists item. split; [reflexivity|].
      apply list_elem_of_filter. split; assumption.
    + apply list_elem_of_filter. split; [exact Hout|].
      apply list_elem_of_fmap. exists f. split; [reflexivity | exact Hf].
Qed.

Lemma NoDup_filter_fst {A B} (P : A * B → Prop) `{∀ x, Decision (P x)}
    (l : list (A * B)) :
  NoDup l.*1 → NoDup (filter P l).*1.
Proof.
  induction l as [|x l IH]; intros Hl; [constructor|].
  simpl in Hl. apply NoDup_cons in Hl as [Hx Hl]. rewrite filter_cons.
  destruct (decide (P x)); [|exact (IH Hl)].
  simpl. apply NoDup_cons. split; [|exact (IH Hl)].
  intros Hin. apply Hx. apply list_elem_of_fmap in Hin as (y & -> & Hy).
  apply list_elem_of_filter in Hy as [_ Hy].
  apply list_elem_of_fmap. exists y. split; [reflexivity | exact Hy].
Qed.

(** X13: the generated class has no field twice, whenever the keys of the
    model's fields are their names and the fields that the class declares
    have different names: a declared field whose name is copied from the
    model is left out in favour of the model's. *)
Theorem generated_fields_distinct model fields name is_input is_interface
    description directives all_fields from_pydantic to_pydantic cls st addr st'
    k generated :
  decorate model fields name is_input is_interface description directives
    all_fields from_pydantic to_pydantic cls st = (Ok addr, st') →
  (∀ l l', sort_creation_fields l = Returns l' → l' ≡ₚ l) →
  models st !! model = Some k →
  (∀ item, item ∈ ModelClass.__fields__ k → item.1 = ModelField.name item.2) →
  NoDup (ModelClass.__fields__ k).*1 →
  (∀ wrapped extra_fields private_fields,
     _wrap_dataclass cls = Returns wrapped →
     _get_fields wrapped = Returns extra_fields →
     get_private_fields wrapped = Returns private_fields →
     NoDup (map StrawberryField.name (extra_fields ++ private_fields))) →
  classes st' !! addr = Some generated →
  NoDup (SchemaClass.__dataclass_fields__ generated).*1.*1.
Proof.
  intros H Hsort Hk Hkeys Hnodup Hdeclared Hc.
  destruct (generated_names_permutation _ _ _ _ _ _ _ _ _ _ _ _ _ _ H Hsort)
    as (k0 & generated0 & wrapped & extra & private & Hk0 & Hc0 & Hw & He & Hp & Hperm).
  rewrite Hk in Hk0. injection Hk0 as <-. rewrite Hc in Hc0. injection Hc0 as <-.
  rewrite Hperm.
  set (copied := filter (fun item : string * ModelField.t =>
                           item.1 ∈ fields_set_of (ModelClass.__fields__ k) fields
                                      (existing_fields_of cls) all_fields)
                        (ModelClass.__fields__ k)).
  assert (Hnames : map (fun item : string * ModelField.t => ModelField.name item.2)
                     copied = copied.*1).
  { apply map_ext_in. intros item Hitem. symmetry. apply Hkeys.
    apply list_elem_of_In in Hitem.
    apply list_elem_of_filter in Hitem as [_ Hitem]. exact Hitem. }
  rewrite Hnames. apply NoDup_app. split; [|split].
  - apply NoDup_filter_fst. exact Hnodup.
  - intros n Hn Hout.
    apply list_elem_of_fmap in Hn as (item & -> & Hitem).
    apply list_elem_of_filter in Hitem as [Hcopied _].
    apply list_elem_of_filter in Hout as [Hout _]. exact (Hout Hcopied).
  - apply NoDup_filter. exact (Hdeclared wrapped extra private Hw He Hp).
Qed.

Lemma build_auto_type st field is_input existing_fields auto_fields_set created :
  ModelField.name field ∈ auto_fields_set →
  build st field is_input existing_fields auto_fields_set = Ok created →
  get_type_for_field get_basic_type st field is_input
  = Ok (DataclassCreationFields.type_annotation created)
  ∧ DataclassCreationFields.name created = ModelField.name field.
Proof.
  intros Hauto. unfold build, _build_dataclass_creation_fields.
  rewrite (bool_decide_eq_true_2 _ Hauto).
  destruct (get_type_for_field _ _ _ _) as [t|]; simpl; [|discriminate].
  destruct (existing_fields !! _) as [ex|];
    [destruct (StrawberryField.base_resolver ex)|]; simpl;
    try destruct (get_default_factory_for_field field); simpl;
    try discriminate; intros [= <-]; split; reflexivity.
Qed.

(** X14: with [all_fields] every field of the model becomes a field of
    the generated class whose type is the one computed from the pydantic
    field, whatever the class itself annotates. *)
Theorem all_fields_overrides_annotations model fields name is_input
    is_interface description directives from_pydantic to_pydantic cls st addr st'
    k generated :
  decorate model fields name is_input is_interface description directives
    true from_pydantic to_pydantic cls st = (Ok addr, st') →
  (∀ l l', sort_creation_fields l = Returns l' → l' ≡ₚ l) →
  models st !! model = Some k →
  (∀ item, item ∈ ModelClass.__fields__ k → item.1 = ModelField.name item.2) →
  classes st' !! addr = Some generated →
  ∀ item, item ∈ ModelClass.__fields__ k →
    ∃ type_ field,
      (ModelField.name item.2, type_, field)
      ∈ SchemaClass.__dataclass_fields__ generated
      ∧ get_type_for_field get_basic_type st item.2 is_input = Ok type_.
Proof.
  intros H Hsort Hk Hkeys Hc item Hitem.
  apply wrap_returns in H
    as (k0 & sorted_fields & definition & Hk0 & _ & Hsorted & -> & _ & ->).
  rewrite Hk in Hk0. injection Hk0 as <-.
  simpl in Hc. rewrite lookup_app_r in Hc by lia.
  rewrite Nat.sub_diag in Hc. injection Hc as <-. simpl.
  apply sorted_fields_returns in Hsorted
    as (wrapped & extra & private & built & _ & _ & _ & Hbuilt & Hs).
  assert (Hkey : item.1 ∈ (ModelClass.__fields__ k).*1).
  { apply list_elem_of_fmap. exists item. split; [reflexivity | exact Hitem]. }
  assert (Hfiltered : item ∈ filter
    (fun item : string * ModelField.t =>
       item.1 ∈ fields_set_of (ModelClass.__fields__ k) fields
                  (existing_fields_of cls) true)
    (ModelClass.__fields__ k)).
  { apply list_elem_of_filter. split; [|exact Hitem].
    apply (elem_of_fields_set_of _ _ _ true). exact Hkey. }
  apply list_elem_of_lookup in Hfiltered as [i Hi].
  destruct (Forall2_lookup_l _ _ _ _ _ Hbuilt Hi) as (created & Hcreated & Hbuild).
  apply build_auto_type in Hbuild as [Htype Hname].
  2: { apply (elem_of_auto_fields_set_of _ _ _ true).
       rewrite <- (Hkeys item Hitem). exact Hkey. }
  exists (DataclassCreationFields.type_annotation created),
         (DataclassCreationFields.field created).
  split; [|exact Htype].
  rewrite <- Hname.
  change (DataclassCreationFields.to_tuple created
          ∈ map DataclassCreationFields.to_tuple sorted_fields).
  apply list_elem_of_fmap. exists created. split; [reflexivity|].
  rewrite (Hsort _ _ Hs). apply elem_of_app. left.
  apply list_elem_of_lookup. exists i. exact Hcreated.
Qed.

(** X15: converters passed to the decorator take the place of the
    defaults: [from_pydantic] and [to_pydantic] of the generated class are
    the caller's functions. *)
Theorem custom_converters_installed model fields name is_input is_interface
    description directives all_fields cls st addr st'
    (from_custom : value → value → result value)
    (to_custom : value → result value) :
  decorate model fields name is_input is_interface description directives
    all_fields (Some from_custom) (Some to_custom) cls st = (Ok addr, st') →
  (∀ fuel instance extra,
     call_from_pydantic fuel st' addr instance extra
     = from_custom instance extra)
  ∧ (∀ validate fuel d,
       call_to_pydantic validate fuel st' (VObject addr d)
       = to_custom (VObject addr d)).
Proof.
  intros H.
  apply wrap_returns in H
    as (k & sorted_fields & definition & _ & _ & _ & -> & _ & ->).
  split.
  - intros fuel instance extra. unfold call_from_pydantic. simpl.
    rewrite lookup_app_r by lia. rewrite Nat.sub_diag. reflexivity.
  - intros validate fuel d. unfold call_to_pydantic. simpl.
    rewrite lookup_app_r by lia. rewrite Nat.sub_diag. reflexivity.
Qed.

Lemma replace_pydantic_types_ext (st st' : store) (is_input : bool) :
  (∀ m, class_getattr st' (TModel m) (registration_attr is_input)
        = class_getattr st (TModel m) (registration_attr is_input)) →
  ∀ type_, replace_pydantic_types st' type_ is_input
           = replace_pydantic_types st type_ is_input.
Proof.
  intros Hsame type_.
  induction type_ as [n|n|a|r|vs|o args IH|o args IH|n|n d IH] using ty_nested_ind;
    try reflexivity.
  - simpl. rewrite Hsame. reflexivity.
  - rewrite !replace_generic.
    replace (for_each (fun t => replace_pydantic_types st' t is_input) args)
      with (for_each (fun t => replace_pydantic_types st t is_input) args);
      [reflexivity|].
    induction IH as [|t ts Ht _ IHts]; [reflexivity|].
    simpl. rewrite Ht, IHts. reflexivity.
Qed.

(** X18: registering and substituting compose.  After a successful
    decoration the model itself is replaced by the generated class for the
    direction of the decoration, and substitution for the other direction
    gives on every type what it gave before. *)
Theorem decoration_then_substitution model fields name is_input is_interface
    description directives all_fields from_pydantic to_pydantic cls st addr st'
    k rest :
  decorate model fields name is_input is_interface description directives
    all_fields from_pydantic to_pydantic cls st = (Ok addr, st') →
  models st !! model = Some k →
  ModelClass.__mro__ k = TModel model :: rest →
  replace_pydantic_types st' (TModel model) is_input = Ok (TSchema addr)
  ∧ ∀ type_,
      replace_pydantic_types st' type_ (negb is_input)
      = replace_pydantic_types st type_ (negb is_input).
Proof.
  intros H Hk Hmro.
  apply wrap_returns in H
    as (k0 & sorted_fields & definition & Hk0 & _ & _ & -> & _ & ->).
  rewrite Hk in Hk0. injection Hk0 as <-.
  split.
  - simpl. unfold class_getattr, mro. simpl. rewrite lookup_insert_eq. simpl.
    rewrite Hmro. cbn [list_find]. unfold own_attr at 1. simpl.
    rewrite lookup_insert_eq. simpl. rewrite lookup_insert_eq.
    case_decide as Hd; [|exfalso; apply Hd, bool_decide_pack; eauto].
    simpl. rewrite lookup_insert_eq. simpl. rewrite lookup_insert_eq.
    reflexivity.
  - apply replace_pydantic_types_ext. intros m.
    assert (Hown : ∀ c,
      own_attr {| models := <[model := registered_model k is_input
                                         (length (classes st))]> (models st);
                  classes := classes st ++
                    [finished_class (made_class st model cls sorted_fields
                                       (length (classes st)))
                       model definition from_pydantic to_pydantic
                       (length (classes st))] |}
        (registration_attr (negb is_input)) c
      = own_attr st (registration_attr (negb is_input)) c).
    { intros c. destruct c; simpl; try reflexivity.
      destruct (decide (name0 = model)) as [->|Hne].
      - rewrite lookup_insert_eq, Hk. simpl.
        apply lookup_insert_ne. destruct is_input; discriminate.
      - rewrite lookup_insert_ne by congruence. reflexivity. }
    unfold class_getattr.
    replace (mro _ (TModel m)) with (mro st (TModel m)).
    + generalize (mro st (TModel m)). intros l.
      induction l as [|c l IH]; [reflexivity|].
      cbn [list_find]. rewrite Hown.
      case_decide; [simpl; rewrite Hown; reflexivity|].
      destruct (list_find _ l) as [[i hit]|] eqn:Hfind;
        destruct (list_find (fun k0 : ty => bool_decide (is_Some (own_attr st _ k0))) l)
          as [[i' hit']|] eqn:Hfind'; simpl in *; try congruence.
    + unfold mro. simpl.
      destruct (decide (m = model)) as [->|Hne].
      * rewrite lookup_insert_eq, Hk. reflexivity.
      * rewrite lookup_insert_ne by congruence. reflexivity.
Qed.

End decorated.

(** ** Conversion back, and inherited registrations *)

Lemma dict_lookup_None {A} (items : list (string * A)) (a : string) :
  a ∉ items.*1 → dict items !! a = None.
Proof.
  unfold dict.
  assert (H : ∀ acc : gmap string A, a ∉ items.*1 →
    foldl (fun d item => <[item.1 := item.2]> d) acc items !! a = acc !! a).
  { induction items as [|[k v] rest IH]; intros acc Hout; [reflexivity|].
    simpl. simpl in Hout. apply not_elem_of_cons in Hout as [Hne Hout].
    rewrite IH by exact Hout. apply lookup_insert_ne. congruence. }
  intros Hout. rewrite H by exact Hout. apply lookup_empty.
Qed.

Lemma for_each_raises_same {A B} (f : A → result B) (xs : list A) (x : A) (e : exn) :
  (∀ y e', f y = Raise e' → e' = e) →
  x ∈ xs → f x = Raise e → for_each f xs = Raise e.
Proof.
  intros Hsame Hin Hx.
  destruct (for_each f xs) as [ys|e'] eqn:Hfor.
  - destruct (for_each_Ok_elem f xs ys x Hfor Hin) as [y Hy]. congruence.
  - apply for_each_raises in Hfor as (y & _ & Hy). f_equal. exact (Hsame y e' Hy).
Qed.

(** X16: [to_pydantic_default] hands the model exactly the fields of the
    generated class.  When a required field of the model is not among
    them, the conversion back raises pydantic's [ValidationError]. *)
Theorem to_pydantic_default_needs_required_fields
    (convert : value → result value) (st : store) (model : string) (cls : nat)
    (d : list (string * value)) (k : ModelClass.t) (c : SchemaClass.t)
    (item : string * ModelField.t) :
  models st !! model = Some k →
  classes st !! cls = Some c →
  (∀ f, f ∈ SchemaClass.__dataclass_fields__ c →
        ∃ v v', assoc f.1.1 d = Some v ∧ convert v = Ok v') →
  item ∈ ModelClass.__fields__ k →
  ModelField.required item.2 = true →
  ModelField.alias item.2 ∉ (SchemaClass.__dataclass_fields__ c).*1.*1 →
  ∀ validate,
    to_pydantic_default_with validate convert st model (VObject cls d)
    = Raise (ValidationError model).
Proof.
  intros Hk Hc Hattrs Hitem Hrequired Hmissing validate.
  unfold to_pydantic_default_with. cbn [dataclasses_fields]. rewrite Hc.
  cbn [bind].
  destruct (for_each_exists
    (fun f : string * ty * StrawberryField.t =>
       let* v := getattr (VObject cls d) f.1.1 in
       let* v' := convert v in Ok (f.1.1, v'))
    (fun f kv => kv.1 = f.1.1)
    (SchemaClass.__dataclass_fields__ c)) as (kwargs & Hkwargs & Hrel).
  { intros f Hf. destruct (Hattrs f Hf) as (v & v' & Hv & Hv').
    exists (f.1.1, v'). unfold getattr. cbn [instance_dict]. rewrite Hv.
    cbn [bind]. rewrite Hv'. split; reflexivity. }
  rewrite Hkwargs. cbn [bind].
  assert (Hkeys : kwargs.*1 = (SchemaClass.__dataclass_fields__ c).*1.*1).
  { clear -Hrel. induction Hrel as [|f kv fs kws Hkv _ IH]; [reflexivity|].
    rewrite !fmap_cons, Hkv, IH. reflexivity. }
  unfold BaseModel_init. rewrite Hk.
  rewrite (for_each_raises_same _ _ item (ValidationError model)).
  - reflexivity.
  - intros y e'. destruct (dict kwargs !! _) as [v|].
    + destruct (validate y.2 v); [discriminate|]. intros [= <-]. reflexivity.
    + destruct (ModelField.required y.2); [|discriminate].
      intros [= <-]. reflexivity.
  - exact Hitem.
  - rewrite dict_lookup_None by (rewrite Hkeys; exact Hmissing).
    rewrite Hrequired. reflexivity.
Qed.

(** X17: [hasattr] and [getattr] on a class follow inheritance: a model
    that has no registration of its own but derives from a registered
    model is replaced by the schema type of that model. *)
Theorem inherited_registration (st : store) (sub parent : string)
    (rest : list ty) (is_input : bool) (registered : ty) (k : ModelClass.t) :
  models st !! sub = Some k →
  ModelClass.__mro__ k = TModel sub :: TModel parent :: rest →
  ModelClass.__dict__ k !! registration_attr is_input = None →
  own_attr st (registration_attr is_input) (TModel parent) = Some registered →
  replace_pydantic_types st (TModel sub) is_input = Ok registered.
Proof.
  intros Hk Hmro Hnone Hparent. simpl.
  unfold class_getattr, mro. rewrite Hk. simpl. rewrite Hmro.
  assert (Hsub : own_attr st (registration_attr is_input) (TModel sub) = None)
    by (unfold own_attr; rewrite Hk; exact Hnone).
  cbn [list_find]. rewrite Hsub.
  case_decide as Hd; [apply bool_decide_unpack in Hd as [x [=]]|].
  cbn [list_find fmap option_fmap option_map]. rewrite Hparent.
  case_decide as Hd'; [|exfalso; apply Hd', bool_decide_pack; eauto].
  simpl. unfold own_attr in Hparent. rewrite Hparent. reflexivity.
Qed.

(** ** The further statements on the sample classes *)

Lemma sample_st0_generated : registrations_generated Sample.st0.
Proof.
  intros m k is_input v Hk Hv. apply elem_of_map_to_list in Hk.
  vm_compute in Hk.
  repeat (apply elem_of_cons in Hk as [[= -> ->]|Hk]); try (inversion Hk; fail);
    destruct is_input; vm_compute in Hv; discriminate.
Qed.

Lemma sample_st_user_generated : registrations_generated Sample.st_user.
Proof.
  intros m k is_input v Hk Hv. apply elem_of_map_to_list in Hk.
  vm_compute in Hk.
  repeat (apply elem_of_cons in Hk as [[= -> ->]|Hk]); try (inversion Hk; fail);
    destruct is_input; vm_compute in Hv; try discriminate.
  injection Hv as <-. eexists 0, _. split; [reflexivity|].
  split; [vm_compute; reflexivity | reflexivity].
Qed.

Lemma replace_pydantic_types_leaves_no_model_witness :
  models_walked (TGeneric "typing.List" [TSchema 0]) = [].
Proof.
  apply (replace_pydantic_types_leaves_no_model Sample.st_user
           (TGeneric "typing.List" [TModel "User"]) false _
           sample_st_user_generated).
  vm_compute. reflexivity.
Defined.

Lemma replace_pydantic_types_idempotent_witness :
  replace_pydantic_types Sample.st_user (TGeneric "typing.List" [TSchema 0]) false
  = Ok (TGeneric "typing.List" [TSchema 0]).
Proof.
  apply (replace_pydantic_types_idempotent Sample.st_user
           (TGeneric "typing.List" [TModel "User"]) false _
           sample_st_user_generated).
  vm_compute. reflexivity.
Defined.

Lemma build_keeps_user_resolver_witness :
  _build_dataclass_creation_fields Sample.get_basic_type Sample.no_default_factory
    Sample.st0 (Sample.field "age" Sample.int true) false
    {["age" := Sample.resolved_age]} {["age"]}
  = Ok {| DataclassCreationFields.name := "age";
          DataclassCreationFields.type_annotation := Sample.int;
          DataclassCreationFields.field := Sample.resolved_age |}.
Proof.
  destruct (build_keeps_user_resolver Sample.get_basic_type
              Sample.no_default_factory Sample.st0
              (Sample.field "age" Sample.int true) false
              {["age" := Sample.resolved_age]} {["age"]}) as [Hresolver _].
  destruct (Hresolver Sample.resolved_age "resolve_age") as [Hauto _].
  - reflexivity.
  - reflexivity.
  - apply Hauto; [apply elem_of_singleton; reflexivity | reflexivity].
Defined.

Lemma failed_decoration_registers_nothing_witness :
  models (Sample.plain "Team" Sample.TeamType Sample.st0).2 = models Sample.st0.
Proof.
  apply (failed_decoration_registers_nothing Sample.get_basic_type
           Sample.ensure_all_auto_fields_in_pydantic
           Sample.get_default_factory_for_field Sample.get_private_fields
           Sample.sort_creation_fields Sample._wrap_dataclass Sample._get_fields
           Sample._process_type
           "Team" None None false false None [] false None None
           Sample.TeamType Sample.st0 (UnregisteredTypeException "User")).
  vm_compute. reflexivity.
Defined.

Lemma unregistered_type_exception_origin_witness :
  ∃ k item basic,
    models Sample.st0 !! "Team" = Some k
    ∧ item ∈ ModelClass.__fields__ k
    ∧ item.1 ∈ fields_set_of (ModelClass.__fields__ k) None
                 (existing_fields_of Sample.TeamType) false
    ∧ ModelField.name item.2
      ∈ auto_fields_set_of (ModelClass.__fields__ k) None
          (existing_fields_of Sample.TeamType) false
    ∧ Sample.get_basic_type (ModelField.outer_type_ item.2) = Some basic
    ∧ "User" ∈ models_walked basic
    ∧ hasattr Sample.st0 (TModel "User") (registration_attr false) = false.
Proof.
  apply (unregistered_type_exception_origin Sample.get_basic_type
           Sample.ensure_all_auto_fields_in_pydantic
           Sample.get_default_factory_for_field Sample.get_private_fields
           Sample.sort_creation_fields Sample._wrap_dataclass Sample._get_fields
           Sample._process_type
           "Team" None None false false None [] false None None
           Sample.TeamType Sample.st0 "User"
           (Sample.plain "Team" Sample.TeamType Sample.st0).2).
  vm_compute. reflexivity.
Defined.

Lemma decoration_keeps_registrations_generated_witness :
  registrations_generated Sample.st_user.
Proof.
  apply (decoration_keeps_registrations_generated Sample.get_basic_type
           Sample.ensure_all_auto_fields_in_pydantic
           Sample.get_default_factory_for_field Sample.get_private_fields
           Sample.sort_creation_fields Sample._wrap_dataclass Sample._get_fields
           Sample._process_type
           "User" None None false false None [] true None None
           Sample.AllUserType Sample.st0 0 Sample.st_user sample_st0_generated).
  vm_compute. reflexivity.
Defined.

Lemma second_decoration_witness :
  1 = S 0
  ∧ ∃ k2 c1 c2,
      models Sample.st_both !! "User" = Some k2
      ∧ ModelClass.__dict__ k2 !! "_strawberry_input_type" = Some (TSchema 1)
      ∧ ModelClass.__dict__ k2 !! "_strawberry_type" = Some (TSchema 0)
      ∧ classes Sample.st_both !! 0 = Some c1
      ∧ classes Sample.st_both !! 1 = Some c2
      ∧ SchemaClass._pydantic_type c1 = Some "User"
      ∧ SchemaClass._pydantic_type c2 = Some "User".
Proof.
  apply (second_decoration Sample.get_basic_type
           Sample.ensure_all_auto_fields_in_pydantic
           Sample.get_default_factory_for_field Sample.get_private_fields
           Sample.sort_creation_fields Sample._wrap_dataclass Sample._get_fields
           Sample._process_type "User"
           None None false false None [] true None None Sample.AllUserType
           None None true false None [] true None None Sample.AllUserType
           Sample.st0 0 Sample.st_user 1 Sample.st_both).
  - vm_compute. reflexivity.
  - vm_compute. reflexivity.
Defined.

Lemma entry_points_witness :
  ∃ k k',
    models Sample.st0 !! "User" = Some k
    ∧ models (Sample.input_ "User" Sample.only_all_fields Sample.AllUserType
                Sample.st0).2 !! "User" = Some k'
    ∧ ModelClass.__dict__ k'
      = <["_strawberry_input_type" := TSchema 0]> (ModelClass.__dict__ k).
Proof.
  apply (proj1 (proj2 (entry_points Sample.get_basic_type
           Sample.ensure_all_auto_fields_in_pydantic
           Sample.get_default_factory_for_field Sample.get_private_fields
           Sample.sort_creation_fields Sample._wrap_dataclass Sample._get_fields
           Sample._process_type
           "User" Sample.only_all_fields Sample.AllUserType Sample.st0 0
           (Sample.input_ "User" Sample.only_all_fields Sample.AllUserType
              Sample.st0).2))).
  vm_compute. reflexivity.
Defined.

Lemma generated_field_names_witness :
  ∃ k generated wrapped extra_fields private_fields,
    models Sample.st0 !! "User" = Some k
    ∧ classes Sample.st_partial !! 0 = Some generated
    ∧ Sample._wrap_dataclass Sample.UserType = Returns wrapped
    ∧ Sample._get_fields wrapped = Returns extra_fields
    ∧ Sample.get_private_fields wrapped = Returns private_fields
    ∧ ∀ n,
        n ∈ (SchemaClass.__dataclass_fields__ generated).*1.*1
        ↔ (∃ item, item ∈ ModelClass.__fields__ k
                   ∧ item.1 ∈ fields_set_of (ModelClass.__fields__ k) None
                                (existing_fields_of Sample.UserType) false
                   ∧ ModelField.name item.2 = n)
          ∨ (∃ f, f ∈ extra_fields ++ private_fields
                  ∧ StrawberryField.name f = n
                  ∧ n ∉ fields_set_of (ModelClass.__fields__ k) None
                          (existing_fields_of Sample.UserType) false).
Proof.
  apply (generated_field_names Sample.get_basic_type
           Sample.ensure_all_auto_fields_in_pydantic
           Sample.get_default_factory_for_field Sample.get_private_fields
           Sample.sort_creation_fields Sample._wrap_dataclass Sample._get_fields
           Sample._process_type
           "User" None None false false None [] false None None
           Sample.UserType Sample.st0 0 Sample.st_partial).
  - vm_compute. reflexivity.
  - exact sample_sort_reorders.
Defined.

Lemma sample_user_keys_are_names (item : string * ModelField.t) :
  item ∈ ModelClass.__fields__ Sample.User → item.1 = ModelField.name item.2.
Proof.
  intros Hitem. cbn in Hitem.
  repeat (apply elem_of_cons in Hitem as [->|Hitem]);
    [reflexivity | reflexivity | inversion Hitem].
Qed.

Lemma generated_fields_distinct_witness :
  ∃ generated,
    classes Sample.st_user !! 0 = Some generated
    ∧ NoDup (SchemaClass.__dataclass_fields__ generated).*1.*1.
Proof.
  eexists. split; [vm_compute; reflexivity|].
  apply (generated_fields_distinct Sample.get_basic_type
           Sample.ensure_all_auto_fields_in_pydantic
           Sample.get_default_factory_for_field Sample.get_private_fields
           Sample.sort_creation_fields Sample._wrap_dataclass Sample._get_fields
           Sample._process_type
           "User" None None false false None [] true None None
           Sample.AllUserType Sample.st0 0 Sample.st_user Sample.User).
  - vm_compute. reflexivity.
  - exact sample_sort_reorders.
  - reflexivity.
  - exact sample_user_keys_are_names.
  - cbn. repeat constructor; cbn; rewrite ?elem_of_cons, ?elem_of_nil;
      intuition discriminate.
  - intros wrapped extra private [= <-] [= <-] [= <-]. constructor.
  - vm_compute. reflexivity.
Defined.

Lemma all_fields_overrides_annotations_witness :
  ∃ generated type_ field,
    classes Sample.st_user !! 0 = Some generated
    ∧ ("password", type_, field) ∈ SchemaClass.__dataclass_fields__ generated
    ∧ get_type_for_field Sample.get_basic_type Sample.st0
        (Sample.field "password" Sample.str false) false = Ok type_.
Proof.
  eexists.
  destruct (all_fields_overrides_annotations Sample.get_basic_type
           Sample.ensure_all_auto_fields_in_pydantic
           Sample.get_default_factory_for_field Sample.get_private_fields
           Sample.sort_creation_fields Sample._wrap_dataclass Sample._get_fields
           Sample._process_type
           "User" None None false false None [] None None
           Sample.AllUserType Sample.st0 0 Sample.st_user Sample.User _
           ltac:(vm_compute; reflexivity) sample_sort_reorders eq_refl
           sample_user_keys_are_names ltac:(vm_compute; reflexivity)
           ("password", Sample.field "password" Sample.str false))
    as (type_ & field & Hin & Htype).
  - right. left.
  - exists type_, field. split; [reflexivity|]. split; [exact Hin | exact Htype].
Defined.

Lemma custom_converters_installed_witness :
  call_from_pydantic 0 Sample.st_custom 0 Sample.alice VNone
  = Ok (VObject 0 [("age", VAtom "int" "0")])
  ∧ call_to_pydantic Sample.validate 0 Sample.st_custom (VObject 0 [])
    = Ok Sample.alice.
Proof.
  destruct (custom_converters_installed Sample.get_basic_type
           Sample.ensure_all_auto_fields_in_pydantic
           Sample.get_default_factory_for_field Sample.get_private_fields
           Sample.sort_creation_fields Sample._wrap_dataclass Sample._get_fields
           Sample._process_type
           "User" None None false false None [] true
           Sample.AllUserType Sample.st0 0 Sample.st_custom
           Sample.from_custom Sample.to_custom) as [Hfrom Hto].
  - vm_compute. reflexivity.
  - split; [apply Hfrom | apply Hto].
Defined.

Lemma to_pydantic_default_needs_required_fields_witness :
  to_pydantic_default Sample.validate 1 Sample.st_password "User"
    (VObject 0 [("password", VAtom "str" "abc")])
  = Raise (ValidationError "User").
Proof.
  unfold to_pydantic_default.
  eapply (to_pydantic_default_needs_required_fields _ Sample.st_password "User" 0
            _ _ _ ("age", Sample.field "age" Sample.int true)).
  - vm_compute. reflexivity.
  - vm_compute. reflexivity.
  - intros f Hf. cbn in Hf.
    apply elem_of_cons in Hf as [->|Hf]; [|inversion Hf].
    eexists _, _. split; reflexivity.
  - cbn. left.
  - reflexivity.
  - cbn. rewrite elem_of_cons, elem_of_nil. intuition discriminate.
Defined.

Lemma inherited_registration_witness :
  replace_pydantic_types Sample.st_admin (TModel "Admin") false = Ok (TSchema 0).
Proof.
  apply (inherited_registration Sample.st_admin "Admin" "User" [] false
           (TSchema 0) Sample.Admin).
  - vm_compute. reflexivity.
  - reflexivity.
  - reflexivity.
  - vm_compute. reflexivity.
Defined.

Lemma decoration_then_substitution_witness :
  replace_pydantic_types Sample.st_user (TModel "User") false = Ok (TSchema 0)
  ∧ ∀ type_,
      replace_pydantic_types Sample.st_user type_ true
      = replace_pydantic_types Sample.st0 type_ true.
Proof.
  apply (decoration_then_substitution Sample.get_basic_type
           Sample.ensure_all_auto_fields_in_pydantic
           Sample.get_default_factory_for_field Sample.get_private_fields
           Sample.sort_creation_fields Sample._wrap_dataclass Sample._get_fields
           Sample._process_type
           "User" None None false false None [] true None None
           Sample.AllUserType Sample.st0 0 Sample.st_user Sample.User []).
  - vm_compute. reflexivity.
  - reflexivity.
  - reflexivity.
Defined.
